(** * Render-target management of the OpenGL backend (igl/opengl/Framebuffer.cpp)

    A shallow embedding of [FramebufferBindingGuard], [Framebuffer],
    [CustomFramebuffer] and [CurrentFramebuffer].

    The graphics context is an external collaborator.  Its state-changing
    entry points are recorded, in program order, in a list of [Call]s; its
    queries ([getIntegerv], [checkFramebufferStatus], the name returned by
    [genFramebuffers]) are answered by the driver as a function of the calls
    made so far, so every statement below holds for every driver. *)

From Stdlib Require Import ZArith List String Bool Lia.
From Stdlib Require Import Sorting.Mergesort Sorting.Sorted Sorting.Permutation Orders.
From Stdlib Require Import DecimalString.
Import ListNotations.

Open Scope string_scope.
Open Scope list_scope.
Open Scope Z_scope.

(** ** Machine integers *)

Definition GLenum := Z.
Definition GLuint := Z.
Definition GLint := Z.
Definition GLsizei := Z.
Definition GLbitfield := Z.
(** A [GLfloat] is carried as its IEEE-754 bit pattern: the code only copies
    clear values from the pass description into the driver. *)
Definition GLfloat := Z.

(** [static_cast<uint32_t>] / [static_cast<GLenum>] of an unsigned value. *)
Definition to_uint32 (z : Z) : Z := z mod 2 ^ 32.

(** [static_cast<GLint>] / [static_cast<GLsizei>]: two's complement, 32 bits. *)
Definition to_int32 (z : Z) : Z := (z + 2 ^ 31) mod 2 ^ 32 - 2 ^ 31.

(** ** Constants of the OpenGL headers

    The headers are not among the sources; the values are those fixed by
    the Khronos registry. *)

Definition GL_COLOR_BUFFER_BIT : GLbitfield := 0x4000.
Definition GL_DEPTH_BUFFER_BIT : GLbitfield := 0x0100.
Definition GL_STENCIL_BUFFER_BIT : GLbitfield := 0x0400.
Definition GL_TRUE : Z := 1.
Definition GL_STENCIL_TEST : GLenum := 0x0B90.
Definition GL_PACK_ALIGNMENT : GLenum := 0x0D05.
Definition GL_TEXTURE_2D : GLenum := 0x0DE1.
Definition GL_UNSIGNED_BYTE : GLenum := 0x1401.
Definition GL_UNSIGNED_INT : GLenum := 0x1405.
Definition GL_RGBA : GLenum := 0x1908.
Definition GL_RGBA_INTEGER : GLenum := 0x8D99.
Definition GL_FRAMEBUFFER_BINDING : GLenum := 0x8CA6.
Definition GL_DRAW_FRAMEBUFFER_BINDING : GLenum := 0x8CA6.
Definition GL_RENDERBUFFER_BINDING : GLenum := 0x8CA7.
Definition GL_READ_FRAMEBUFFER : GLenum := 0x8CA8.
Definition GL_DRAW_FRAMEBUFFER : GLenum := 0x8CA9.
Definition GL_READ_FRAMEBUFFER_BINDING : GLenum := 0x8CAA.
Definition GL_FRAMEBUFFER_COMPLETE : GLenum := 0x8CD5.
Definition GL_FRAMEBUFFER_INCOMPLETE_ATTACHMENT : GLenum := 0x8CD6.
Definition GL_FRAMEBUFFER_INCOMPLETE_MISSING_ATTACHMENT : GLenum := 0x8CD7.
Definition GL_FRAMEBUFFER_INCOMPLETE_DIMENSIONS : GLenum := 0x8CD9.
Definition GL_FRAMEBUFFER_UNSUPPORTED : GLenum := 0x8CDD.
Definition GL_COLOR_ATTACHMENT0 : GLenum := 0x8CE0.
Definition GL_DEPTH_ATTACHMENT : GLenum := 0x8D00.
Definition GL_STENCIL_ATTACHMENT : GLenum := 0x8D20.
Definition GL_FRAMEBUFFER : GLenum := 0x8D40.
Definition GL_RENDERBUFFER : GLenum := 0x8D41.
Definition GL_FRAMEBUFFER_SRGB : GLenum := 0x8DB9.

(** ** Results *)

(** Modelled from the spec: the enumeration [Result::Code] is declared in a
    header that is not among the sources.  The constructors are the error
    taxonomy of the specification (section 7) together with [Ok]. *)
Inductive Code : Type :=
| Ok
| ArgumentInvalid
| Unsupported
| Unimplemented
| RuntimeError
| AlreadyInitialized.

Definition Code_eqb (a b : Code) : bool :=
  match a, b with
  | Ok, Ok | ArgumentInvalid, ArgumentInvalid | Unsupported, Unsupported
  | Unimplemented, Unimplemented | RuntimeError, RuntimeError
  | AlreadyInitialized, AlreadyInitialized => true
  | _, _ => false
  end.

Record Result : Type := mkResult { code : Code; message : string }.

Definition isOk (r : Result) : bool := Code_eqb (code r) Ok.

(** A [Result*] argument: [None] is the null pointer, [Some r] points to a
    result that currently holds [r]. *)
Definition ResultPtr := option Result.

(** [Result::setResult(outResult, code, message)]. *)
Definition setResult (outResult : ResultPtr) (c : Code) (m : string) : ResultPtr :=
  match outResult with
  | Some _ => Some (mkResult c m)
  | None => None
  end.

(** [Result::setOk(outResult)]. *)
Definition setOk (outResult : ResultPtr) : ResultPtr :=
  match outResult with
  | Some _ => Some (mkResult Ok "")
  | None => None
  end.

(** [if (outResult) *outResult = result;] *)
Definition assignResult (outResult : ResultPtr) (r : Result) : ResultPtr :=
  match outResult with
  | Some _ => Some r
  | None => None
  end.

(** ** Textures, descriptors, pass descriptions *)

(** Modelled from the spec: the texture interface, the framebuffer
    descriptor and the render-pass description are declared in headers that
    are not among the sources.  The records below have the members the code
    under study reads and writes, with the value sets of section 3 of the
    specification (load action: load, clear or don't care; store action:
    store or don't care; mode: mono, stereo or multiview).

    A [std::shared_ptr<ITexture>] is a nullable reference; equality of two
    such pointers is equality of the referenced object, so textures are
    named by handles and their properties live in the context's store. *)
Definition TextureRef := Z.
Definition TexturePtr := option TextureRef.

Definition isSome {A : Type} (o : option A) : bool :=
  match o with Some _ => true | None => false end.

Definition TexturePtr_eqb (a b : TexturePtr) : bool :=
  match a, b with
  | None, None => true
  | Some x, Some y => Z.eqb x y
  | _, _ => false
  end.

Inductive TextureType : Type :=
| InvalidType | TwoD | TwoDArray | ThreeD | Cube | ExternalImage.

Definition isCube (t : TextureType) : bool :=
  match t with Cube => true | _ => false end.

(** Only [RGBA_UInt32] is distinguished by the code under study. *)
Inductive TextureFormat : Type :=
| RGBA_UInt32
| OtherFormat (tag : Z).

Definition isRGBA_UInt32 (f : TextureFormat) : bool :=
  match f with RGBA_UInt32 => true | OtherFormat _ => false end.

Record TextureRangeDesc : Type := mkRange {
  range_x : Z;
  range_y : Z;
  range_width : Z;
  range_height : Z;
  range_layer : Z;
  range_mipLevel : Z
}.

(** What the code asks of a texture object. *)
Record Texture : Type := mkTexture {
  getType : TextureType;
  getFormat : TextureFormat;
  getNumLayers : Z;
  getSamples : Z;
  getId : GLuint;
  isImplicitStorage : bool;
  isSRGB : bool;
  getBytesPerRow : TextureRangeDesc -> Z;
  getAlignment : Z -> Z -> Z
}.

Record AttachmentDesc : Type := mkAttachment {
  texture : TexturePtr;
  resolveTexture : TexturePtr
}.

Inductive FramebufferMode : Type := Mono | Stereo | Multiview.

(** [colorAttachments] is an unordered map from index to attachment: an
    association list with pairwise distinct keys whose order is the
    (unspecified) iteration order of the container. *)
Record FramebufferDesc : Type := mkDesc {
  colorAttachments : list (Z * AttachmentDesc);
  depthAttachment : AttachmentDesc;
  stencilAttachment : AttachmentDesc;
  mode : FramebufferMode
}.

Inductive LoadAction : Type := LoadDontCare | Load | Clear.
Inductive StoreAction : Type := StoreDontCare | Store.

Definition isClear (a : LoadAction) : bool :=
  match a with Clear => true | _ => false end.
Definition isLoad (a : LoadAction) : bool :=
  match a with Load => true | _ => false end.
Definition isStore (a : StoreAction) : bool :=
  match a with Store => true | _ => false end.

Record Color : Type := mkColor {
  color_r : GLfloat; color_g : GLfloat; color_b : GLfloat; color_a : GLfloat
}.

Record ColorAttachmentDesc : Type := mkColorPass {
  loadAction : LoadAction;
  storeAction : StoreAction;
  layer : Z;
  mipmapLevel : Z;
  clearColor : Color
}.

Record DepthAttachmentDesc : Type := mkDepthPass {
  depthLoadAction : LoadAction;
  depthStoreAction : StoreAction;
  clearDepth : GLfloat
}.

Record StencilAttachmentDesc : Type := mkStencilPass {
  stencilLoadAction : LoadAction;
  stencilStoreAction : StoreAction;
  clearStencil : Z
}.

Record RenderPassDesc : Type := mkPass {
  passColorAttachments : list ColorAttachmentDesc;
  passDepthAttachment : DepthAttachmentDesc;
  passStencilAttachment : StencilAttachmentDesc
}.

(** ** Operations on the attachment map *)

Module AttachmentMap.

Fixpoint find {V : Type} (k : Z) (m : list (Z * V)) : option V :=
  match m with
  | [] => None
  | (k', v) :: m' => if Z.eqb k k' then Some v else find k m'
  end.

Fixpoint erase {V : Type} (k : Z) (m : list (Z * V)) : list (Z * V) :=
  match m with
  | [] => []
  | (k', v) :: m' => if Z.eqb k k' then erase k m' else (k', v) :: erase k m'
  end.

(** [m[k] = f(m[k])], a missing entry being value-initialised to [d] first. *)
Fixpoint update {V : Type} (d : V) (k : Z) (f : V -> V) (m : list (Z * V)) : list (Z * V) :=
  match m with
  | [] => [(k, f d)]
  | (k', v) :: m' =>
      if Z.eqb k k' then (k', f v) :: m' else (k', v) :: update d k f m'
  end.

(** [m.emplace(k, v)]: no effect when the key is taken. *)
Definition emplace {V : Type} (k : Z) (v : V) (m : list (Z * V)) : list (Z * V) :=
  match find k m with
  | Some _ => m
  | None => m ++ [(k, v)]
  end.

End AttachmentMap.

(** ** The graphics context

    The context interface and the device features are declared outside the
    sources.  A [Call] is one state-changing call the code makes on the
    context or on a texture object, with its arguments; the context itself
    is the feature flags the code branches on and the driver's answers to
    its queries, which are left arbitrary. *)

Inductive Call : Type :=
| BindFramebuffer (target : GLenum) (framebuffer : GLuint)
| BindRenderbuffer (target : GLenum) (renderbuffer : GLuint)
| GenFramebuffers (name : GLuint)
| DeleteFramebuffers (name : GLuint)
| FramebufferTextureLayer (target attachment : GLenum) (tex : GLuint) (level layer : Z)
| FramebufferTextureMultiview
    (target attachment : GLenum) (tex : GLuint) (level baseView numViews : Z)
| FramebufferTextureMultisampleMultiview
    (target attachment : GLenum) (tex : GLuint) (level samples baseView numViews : Z)
| DrawBuffers (bufs : list GLenum)
| PixelStorei (pname : GLenum) (param : Z)
| Flush
| ReadPixels (x y : GLint) (width height : GLsizei) (format type : GLenum)
| CopyTexSubImage2D (target : GLenum) (level xoffset yoffset x y width height : Z)
| Enable (cap : GLenum)
| Disable (cap : GLenum)
| ColorMask (red green blue alpha : Z)
| ClearColor (c : Color)
| DepthMask (flag : Z)
| ClearDepthf (d : GLfloat)
| StencilMask (mask : Z)
| ClearStencil (s : Z)
| ClearCall (mask : GLbitfield)
| InvalidateFramebuffer (target : GLenum) (attachments : list GLenum)
(* virtual calls on the attached texture objects *)
| TextureAttachAsColor (t : TextureRef) (index face mipmapLevel : Z)
| TextureDetachAsColor (t : TextureRef) (index : Z)
| TextureAttachAsDepth (t : TextureRef)
| TextureAttachAsStencil (t : TextureRef)
| TextureBind (t : TextureRef)
(* a debug assertion that fired (IGL_ASSERT and relatives report and go on) *)
| AssertionReport (what : string).

Record DeviceFeatures : Type := mkFeatures {
  ReadWriteFramebuffer : bool;
  SRGB : bool;
  TextureInteger : bool;
  InvalidateFramebufferFeature : bool
}.

Record IContext : Type := mkContext {
  deviceFeatures : DeviceFeatures;
  (** the preprocessor switch [IGL_OPENGL_ES] *)
  IGL_OPENGL_ES : bool;
  textureObject : TextureRef -> Texture;
  (** the driver's answers, given the calls made so far *)
  driverInteger : list Call -> GLenum -> GLint;
  driverFramebufferStatus : list Call -> GLenum -> GLenum;
  driverNewFramebuffer : list Call -> GLuint
}.

(** A computation against the context reads the calls made so far and
    yields a value together with the calls it makes itself; [None] stands
    for undefined behaviour (a [std::vector] indexed out of range). *)
Definition GL (A : Type) : Type := list Call -> option (A * list Call).

Definition ret {A : Type} (x : A) : GL A := fun _ => Some (x, []).

Definition bind_gl {A B : Type} (m : GL A) (f : A -> GL B) : GL B :=
  fun h =>
    match m h with
    | None => None
    | Some (x, e1) =>
        match f x (h ++ e1) with
        | None => None
        | Some (y, e2) => Some (y, e1 ++ e2)
        end
    end.

Definition call (c : Call) : GL unit := fun _ => Some (tt, [c]).

Definition undefined {A : Type} : GL A := fun _ => None.

Definition ask {A : Type} (q : list Call -> A) : GL A := fun h => Some (q h, []).

Declare Scope gl_scope.
Delimit Scope gl_scope with gl.
Notation "x <- m ;; k" := (bind_gl m (fun x => k))
  (at level 61, m at next level, right associativity) : gl_scope.
Notation "m ;; k" := (bind_gl m (fun _ => k))
  (at level 61, right associativity) : gl_scope.
Open Scope gl_scope.

(** [v[i]] on a [std::vector]. *)
Definition vector_at {A : Type} (v : list A) (i : Z) : GL A :=
  if (0 <=? i) && (i <? Z.of_nat (List.length v))
  then match nth_error v (Z.to_nat i) with
       | Some x => ret x
       | None => undefined
       end
  else undefined.

(** Modelled from the spec: the assertion macros are defined outside the
    sources.  [IGL_ASSERT(cond)] and its relatives ([IGL_ASSERT_MSG],
    [IGL_ASSERT_NOT_REACHED], [IGL_ASSERT_NOT_IMPLEMENTED], [IGL_UNEXPECTED])
    report a programmer error when the condition fails and let the caller
    go on (section 7 of the specification). *)
Definition IGL_ASSERT (cond : bool) (what : string) : GL unit :=
  if cond then ret tt else call (AssertionReport what).

Definition getIntegerv (context : IContext) (pname : GLenum) : GL GLint :=
  ask (fun h => driverInteger context h pname).

Definition string_of_Z (z : Z) : string :=
  NilZero.string_of_uint (N.to_uint (Z.to_N z)).

(** [checkFramebufferStatus] of the anonymous namespace. *)
Definition checkFramebufferStatus (context : IContext) : GL Result :=
  status <- ask (fun h => driverFramebufferStatus context h GL_FRAMEBUFFER) ;;
  if status =? GL_FRAMEBUFFER_COMPLETE then ret (mkResult Ok "")
  else if status =? GL_FRAMEBUFFER_INCOMPLETE_ATTACHMENT
    then ret (mkResult RuntimeError "GL_FRAMEBUFFER_INCOMPLETE_ATTACHMENT")
  else if status =? GL_FRAMEBUFFER_INCOMPLETE_MISSING_ATTACHMENT
    then ret (mkResult RuntimeError "GL_FRAMEBUFFER_INCOMPLETE_MISSING_ATTACHMENT")
  else if status =? GL_FRAMEBUFFER_INCOMPLETE_DIMENSIONS
    then ret (mkResult RuntimeError "GL_FRAMEBUFFER_INCOMPLETE_DIMENSIONS")
  else if status =? GL_FRAMEBUFFER_UNSUPPORTED
    then ret (mkResult RuntimeError "GL_FRAMEBUFFER_UNSUPPORTED")
  else ret (mkResult RuntimeError
              ("GL_FRAMEBUFFER unknown error: " ++ string_of_Z status)%string).

(** ** FramebufferBindingGuard *)

Record FramebufferBindingGuard : Type := mkGuard {
  currentRenderbuffer_ : GLuint;
  currentFramebuffer_ : GLuint;
  currentReadFramebuffer_ : GLuint;
  currentDrawFramebuffer_ : GLuint
}.

(** The constructor.  The members start at 0; each [getIntegerv] writes a
    [GLint] through a pointer to the [GLuint] member. *)
Definition FramebufferBindingGuard_new (context : IContext) : GL FramebufferBindingGuard :=
  rb <- getIntegerv context GL_RENDERBUFFER_BINDING ;;
  result <- checkFramebufferStatus context ;;
  if isOk result then
    if ReadWriteFramebuffer (deviceFeatures context) then
      rd <- getIntegerv context GL_READ_FRAMEBUFFER_BINDING ;;
      dr <- getIntegerv context GL_DRAW_FRAMEBUFFER_BINDING ;;
      ret (mkGuard (to_uint32 rb) 0 (to_uint32 rd) (to_uint32 dr))
    else
      fb <- getIntegerv context GL_FRAMEBUFFER_BINDING ;;
      ret (mkGuard (to_uint32 rb) (to_uint32 fb) 0 0)
  else ret (mkGuard (to_uint32 rb) 0 0 0).

(** The destructor. *)
Definition FramebufferBindingGuard_delete
    (context : IContext) (guard : FramebufferBindingGuard) : GL unit :=
  (if ReadWriteFramebuffer (deviceFeatures context) then
     call (BindFramebuffer GL_READ_FRAMEBUFFER (currentReadFramebuffer_ guard)) ;;
     call (BindFramebuffer GL_DRAW_FRAMEBUFFER (currentDrawFramebuffer_ guard))
   else
     call (BindFramebuffer GL_FRAMEBUFFER (currentFramebuffer_ guard))) ;;
  call (BindRenderbuffer GL_RENDERBUFFER (currentRenderbuffer_ guard)).

(** ** Framebuffer (the common base) *)

Definition genFramebuffers (context : IContext) : GL GLuint :=
  name <- ask (driverNewFramebuffer context) ;;
  call (GenFramebuffers name) ;;
  ret name.

Definition bindBuffer (id : GLuint) : GL unit :=
  call (BindFramebuffer GL_FRAMEBUFFER id).

Definition bindBufferForRead (context : IContext) (id : GLuint) : GL unit :=
  if ReadWriteFramebuffer (deviceFeatures context)
  then call (BindFramebuffer GL_READ_FRAMEBUFFER id)
  else bindBuffer id.

Definition attachAsColorLayer (context : IContext) (tex : TexturePtr) (lay : Z) : GL unit :=
  match tex with
  | Some t =>
      call (FramebufferTextureLayer GL_READ_FRAMEBUFFER GL_COLOR_ATTACHMENT0
              (getId (textureObject context t)) 0 lay)
  | None =>
      call (FramebufferTextureLayer GL_READ_FRAMEBUFFER GL_COLOR_ATTACHMENT0 0 0 0)
  end.

(** The pixel transfer chosen by [copyBytesColorAttachment]. *)
Definition readPixelsFor (context : IContext) (tex : Texture) (range : TextureRangeDesc)
  : GL unit :=
  if isRGBA_UInt32 (getFormat tex) then
    if TextureInteger (deviceFeatures context) then
      call (ReadPixels (to_int32 (range_x range)) (to_int32 (range_y range))
              (to_int32 (range_width range)) (to_int32 (range_height range))
              GL_RGBA_INTEGER GL_UNSIGNED_INT)
    else IGL_ASSERT false "IGL_ASSERT_NOT_IMPLEMENTED"
  else
    call (ReadPixels (to_int32 (range_x range)) (to_int32 (range_y range))
            (to_int32 (range_width range)) (to_int32 (range_height range))
            GL_RGBA GL_UNSIGNED_BYTE).

(** [Framebuffer::copyBytesColorAttachment]; [id] is the member
    [frameBufferID_] and [getColorAttachment] the virtual accessor of the
    object the method is called on. *)
Definition copyBytesColorAttachment
    (context : IContext) (id : GLuint) (getColorAttachment : Z -> TexturePtr)
    (index : Z) (range : TextureRangeDesc) (bytesPerRow : Z) : GL unit :=
  if negb (index =? 0) then IGL_ASSERT false "Invalid index"
  else
    match getColorAttachment index with
    | Some itexture =>
        guard <- FramebufferBindingGuard_new context ;;
        let tex := textureObject context itexture in
        extraFramebufferId <-
          (if 1 <? getNumLayers tex then
             extra <- genFramebuffers context ;;
             call (BindFramebuffer GL_READ_FRAMEBUFFER extra) ;;
             attachAsColorLayer context (Some itexture) (to_uint32 (range_layer range)) ;;
             _ <- checkFramebufferStatus context ;;
             ret extra
           else
             bindBufferForRead context id ;;
             ret 0) ;;
        let bytesPerRow' :=
          if bytesPerRow =? 0 then getBytesPerRow tex range else bytesPerRow in
        call (PixelStorei GL_PACK_ALIGNMENT
                (getAlignment tex bytesPerRow' (range_mipLevel range))) ;;
        call Flush ;;
        readPixelsFor context tex range ;;
        (if 1 <? getNumLayers tex then
           attachAsColorLayer context None 0 ;;
           _ <- checkFramebufferStatus context ;;
           if 0 <? extraFramebufferId
           then call (DeleteFramebuffers extraFramebufferId)
           else ret tt
         else ret tt) ;;
        FramebufferBindingGuard_delete context guard
    | None => IGL_ASSERT false "IGL_ASSERT_NOT_IMPLEMENTED"
    end.

(** [Framebuffer::copyTextureColorAttachment]. *)
Definition copyTextureColorAttachment
    (context : IContext) (id : GLuint) (getColorAttachment : Z -> TexturePtr)
    (index : Z) (destTexture : TextureRef) (range : TextureRangeDesc) : GL unit :=
  if negb (index =? 0) || negb (isSome (getColorAttachment index))
  then IGL_ASSERT false "Invalid index"
  else
    guard <- FramebufferBindingGuard_new context ;;
    bindBufferForRead context id ;;
    call (TextureBind destTexture) ;;
    call (CopyTexSubImage2D GL_TEXTURE_2D 0 0 0
            (to_int32 (range_x range)) (to_int32 (range_y range))
            (to_int32 (range_width range)) (to_int32 (range_height range))) ;;
    FramebufferBindingGuard_delete context guard.

(** ** CustomFramebuffer *)

#[warnings="-register-all"]
Inductive CustomFramebuffer : Type := mkCustomFramebuffer {
  frameBufferID_ : GLuint;
  renderTarget_ : FramebufferDesc;
  renderPass_ : RenderPassDesc;
  initialized_ : bool;
  resolveFramebuffer : option CustomFramebuffer
}.

Definition set_frameBufferID (fb : CustomFramebuffer) (id : GLuint) : CustomFramebuffer :=
  mkCustomFramebuffer id (renderTarget_ fb) (renderPass_ fb) (initialized_ fb)
    (resolveFramebuffer fb).

Definition set_renderTarget (fb : CustomFramebuffer) (d : FramebufferDesc) : CustomFramebuffer :=
  mkCustomFramebuffer (frameBufferID_ fb) d (renderPass_ fb) (initialized_ fb)
    (resolveFramebuffer fb).

Definition set_renderPass (fb : CustomFramebuffer) (p : RenderPassDesc) : CustomFramebuffer :=
  mkCustomFramebuffer (frameBufferID_ fb) (renderTarget_ fb) p (initialized_ fb)
    (resolveFramebuffer fb).

Definition set_initialized (fb : CustomFramebuffer) (i : bool) : CustomFramebuffer :=
  mkCustomFramebuffer (frameBufferID_ fb) (renderTarget_ fb) (renderPass_ fb) i
    (resolveFramebuffer fb).

Definition set_resolveFramebuffer (fb : CustomFramebuffer) (res : option CustomFramebuffer)
  : CustomFramebuffer :=
  mkCustomFramebuffer (frameBufferID_ fb) (renderTarget_ fb) (renderPass_ fb)
    (initialized_ fb) res.

Definition set_colorAttachments (d : FramebufferDesc) (m : list (Z * AttachmentDesc))
  : FramebufferDesc :=
  mkDesc m (depthAttachment d) (stencilAttachment d) (mode d).

(** The body of the destructor: the framebuffer name is released if one
    is owned. *)
Definition CustomFramebuffer_delete_body (fb : CustomFramebuffer) : GL CustomFramebuffer :=
  if negb (frameBufferID_ fb =? 0) then
    call (DeleteFramebuffers (frameBufferID_ fb)) ;;
    ret (set_frameBufferID fb 0)
  else ret fb.

(** The destructor: its body, then the destruction of the members.  The
    one member whose destruction reaches the driver is [resolveFramebuffer]:
    the nested framebuffer is created inside [prepareResource] and moved
    into the member, so the object holds the only reference to it and the
    nested destructor runs when the member is released. *)
Fixpoint CustomFramebuffer_delete (fb : CustomFramebuffer) : GL unit :=
  CustomFramebuffer_delete_body fb ;;
  match resolveFramebuffer fb with
  | Some nested => CustomFramebuffer_delete nested
  | None => ret tt
  end.

Definition getColorAttachmentIndices (fb : CustomFramebuffer) : list Z :=
  map fst (colorAttachments (renderTarget_ fb)).

Definition getColorAttachment (fb : CustomFramebuffer) (index : Z) : TexturePtr :=
  match AttachmentMap.find index (colorAttachments (renderTarget_ fb)) with
  | Some colorAttachment => texture colorAttachment
  | None => None
  end.

Definition getResolveColorAttachment (fb : CustomFramebuffer) (index : Z) : TexturePtr :=
  match AttachmentMap.find index (colorAttachments (renderTarget_ fb)) with
  | Some colorAttachment => resolveTexture colorAttachment
  | None => None
  end.

Definition getDepthAttachment (fb : CustomFramebuffer) : TexturePtr :=
  texture (depthAttachment (renderTarget_ fb)).

Definition getStencilAttachment (fb : CustomFramebuffer) : TexturePtr :=
  texture (stencilAttachment (renderTarget_ fb)).

Definition isInitialized (fb : CustomFramebuffer) : bool := initialized_ fb.

Definition hasImplicitColorAttachment (context : IContext) (fb : CustomFramebuffer) : bool :=
  if negb (frameBufferID_ fb =? 0) then false
  else
    match AttachmentMap.find 0 (colorAttachments (renderTarget_ fb)) with
    | Some colorAttachment0 =>
        match texture colorAttachment0 with
        | Some t => isImplicitStorage (textureObject context t)
        | None => false
        end
    | None => false
    end.

(** [attachAsColor(texture, index, face, mipmapLevel)]; [index], [face] and
    [mipmapLevel] are [uint32_t]. *)
Definition attachAsColor (context : IContext) (fb : CustomFramebuffer)
    (t : TextureRef) (index face mipmapLevel : Z) : GL unit :=
  match mode (renderTarget_ fb) with
  | Mono => call (TextureAttachAsColor t index face mipmapLevel)
  | Stereo =>
      let numSamples := getSamples (textureObject context t) in
      if 1 <? numSamples then
        IGL_ASSERT (index =? 0) "Multisample framebuffer can only use GL_COLOR_ATTACHMENT0" ;;
        call (FramebufferTextureMultisampleMultiview GL_DRAW_FRAMEBUFFER GL_COLOR_ATTACHMENT0
                (getId (textureObject context t)) 0 (to_int32 numSamples) 0 2)
      else
        call (FramebufferTextureMultiview GL_DRAW_FRAMEBUFFER
                (to_uint32 (GL_COLOR_ATTACHMENT0 + index))
                (getId (textureObject context t)) 0 0 2)
  | Multiview => IGL_ASSERT false "MultiviewMode::Multiview not implemented."
  end.

Definition attachAsDepthOrStencil (context : IContext) (fb : CustomFramebuffer)
    (t : TextureRef) (attachment : GLenum) (monoCall : Call) : GL unit :=
  match mode (renderTarget_ fb) with
  | Mono => call monoCall
  | Stereo =>
      let numSamples := getSamples (textureObject context t) in
      if 1 <? numSamples then
        call (FramebufferTextureMultisampleMultiview GL_DRAW_FRAMEBUFFER attachment
                (getId (textureObject context t)) 0 (to_int32 numSamples) 0 2)
      else
        call (FramebufferTextureMultiview GL_DRAW_FRAMEBUFFER attachment
                (getId (textureObject context t)) 0 0 2)
  | Multiview => IGL_ASSERT false "MultiviewMode::Multiview not implemented."
  end.

Definition attachAsDepth (context : IContext) (fb : CustomFramebuffer) (t : TextureRef)
  : GL unit :=
  attachAsDepthOrStencil context fb t GL_DEPTH_ATTACHMENT (TextureAttachAsDepth t).

Definition attachAsStencil (context : IContext) (fb : CustomFramebuffer) (t : TextureRef)
  : GL unit :=
  attachAsDepthOrStencil context fb t GL_STENCIL_ATTACHMENT (TextureAttachAsStencil t).

(** [CustomFramebuffer::updateDrawable]; the returned pointer is the
    argument. *)
Definition updateDrawable (context : IContext) (fb : CustomFramebuffer) (tex : TexturePtr)
  : GL (CustomFramebuffer * TexturePtr) :=
  let colorAttachment0 := getColorAttachment fb 0 in
  fb1 <-
    match tex, colorAttachment0 with
    | None, Some curAttachment =>
        bindBuffer (frameBufferID_ fb) ;;
        call (TextureDetachAsColor curAttachment 0) ;;
        ret (set_renderTarget fb
               (set_colorAttachments (renderTarget_ fb)
                  (AttachmentMap.erase 0 (colorAttachments (renderTarget_ fb)))))
    | _, _ => ret fb
    end ;;
  fb2 <-
    match tex with
    | Some t =>
        if negb (TexturePtr_eqb (getColorAttachment fb1 0) tex) then
          guard <- FramebufferBindingGuard_new context ;;
          bindBuffer (frameBufferID_ fb1) ;;
          attachAsColor context fb1 t 0 0 0 ;;
          let fb' :=
            set_renderTarget fb1
              (set_colorAttachments (renderTarget_ fb1)
                 (AttachmentMap.update (mkAttachment None None) 0
                    (fun d => mkAttachment tex (resolveTexture d))
                    (colorAttachments (renderTarget_ fb1)))) in
          FramebufferBindingGuard_delete context guard ;;
          ret fb'
        else ret fb1
    | None => ret fb1
    end ;;
  ret (fb2, tex).

(** [std::sort] on a [std::vector<GLenum>]. *)
Module GLenumOrder <: TotalLeBool.
Definition t := Z.
Definition leb := Z.leb.
Lemma leb_total : forall x y, leb x y = true \/ leb y x = true.
Proof. intros x y. unfold leb. destruct (Z.leb_spec x y); [left | right]; trivial. apply Z.leb_le. lia. Qed.
End GLenumOrder.

Module GLenumSort := Sort GLenumOrder.

Definition std_sort (v : list GLenum) : list GLenum := GLenumSort.sort v.

Section WithHeaderDefaults.

(** Two default member initialisers are written in headers that are not
    among the sources: the mode of a default-constructed
    [FramebufferDesc] and the value of a default-constructed
    [RenderPassDesc].  They are parameters of the development. *)
Variable defaultMode : FramebufferMode.
Variable defaultRenderPass : RenderPassDesc.

Definition FramebufferDesc_default : FramebufferDesc :=
  mkDesc [] (mkAttachment None None) (mkAttachment None None) defaultMode.

(** Modelled from the spec: the constructor of [CustomFramebuffer] is in a
    header that is not among the sources.  A Render Target Object is
    created uninitialized, with native framebuffer identifier 0 and no
    resolve target. *)
Definition CustomFramebuffer_new : CustomFramebuffer :=
  mkCustomFramebuffer 0 FramebufferDesc_default defaultRenderPass false None.

(** The first loop of [prepareResource]: attach every non-null colour
    texture and collect its draw buffer. *)
Fixpoint attachColors (context : IContext) (fb : CustomFramebuffer)
    (atts : list (Z * AttachmentDesc)) (drawBuffers : list GLenum) : GL (list GLenum) :=
  match atts with
  | [] => ret drawBuffers
  | (index, colorAttachment) :: rest =>
      match texture colorAttachment with
      | Some colorAttachmentTexture =>
          attachAsColor context fb colorAttachmentTexture (to_uint32 index) 0 0 ;;
          attachColors context fb rest
            (drawBuffers ++ [to_uint32 (GL_COLOR_ATTACHMENT0 + index)])
      | None => attachColors context fb rest drawBuffers
      end
  end.

(** The second loop of [prepareResource]: the colour part of the
    descriptor of the resolve framebuffer, and whether one is needed. *)
Fixpoint collectResolve (atts : list (Z * AttachmentDesc))
    (resolveColors : list (Z * AttachmentDesc)) (createResolveFramebuffer : bool)
  : list (Z * AttachmentDesc) * bool :=
  match atts with
  | [] => (resolveColors, createResolveFramebuffer)
  | (index, colorAttachment) :: rest =>
      match resolveTexture colorAttachment with
      | Some res =>
          collectResolve rest
            (AttachmentMap.emplace index (mkAttachment (Some res) None) resolveColors)
            true
      | None => collectResolve rest resolveColors createResolveFramebuffer
      end
  end.

(** The first half of [prepareResource], up to the completeness check:
    create the framebuffer, attach the textures, declare the draw
    buffers. *)
Definition createAndAttach (context : IContext) (fb0 : CustomFramebuffer)
  : GL CustomFramebuffer :=
  name <- genFramebuffers context ;;
  let fb := set_frameBufferID fb0 name in
  bindBuffer (frameBufferID_ fb) ;;
  drawBuffers <- attachColors context fb (colorAttachments (renderTarget_ fb)) [] ;;
  let drawBuffers := std_sort drawBuffers in
  (if (1 <? Z.of_nat (List.length drawBuffers))
   then call (DrawBuffers drawBuffers) else ret tt) ;;
  match texture (depthAttachment (renderTarget_ fb)) with
  | Some t => attachAsDepth context fb t
  | None => ret tt
  end ;;
  match texture (stencilAttachment (renderTarget_ fb)) with
  | Some t => attachAsStencil context fb t
  | None => ret tt
  end ;;
  ret fb.

(** [prepareResource], with the [initialize] it calls on the nested
    resolve framebuffer as a parameter. *)
Definition prepareResource_with
    (initialize : CustomFramebuffer -> FramebufferDesc -> ResultPtr ->
                  GL (CustomFramebuffer * ResultPtr))
    (context : IContext) (fb0 : CustomFramebuffer) (outResult : ResultPtr)
  : GL (CustomFramebuffer * ResultPtr) :=
  fb <- createAndAttach context fb0 ;;
  result <- checkFramebufferStatus context ;;
  IGL_ASSERT (isOk result) (message result) ;;
  let outResult := assignResult outResult result in
  if negb (isOk result) then ret (fb, outResult)
  else
    let '(resolveColors, createResolveFramebuffer) :=
      collectResolve (colorAttachments (renderTarget_ fb)) [] false in
    if createResolveFramebuffer &&
       negb (Nat.eqb (List.length resolveColors)
                     (List.length (colorAttachments (renderTarget_ fb))))
    then
      IGL_ASSERT false "IGL_ASSERT_NOT_REACHED" ;;
      ret (fb, setResult outResult ArgumentInvalid
                 "If resolve texture is specified on a color attachment it must be specified on all of them")
    else
      let resolveDepth := resolveTexture (depthAttachment (renderTarget_ fb)) in
      let resolveStencil := resolveTexture (stencilAttachment (renderTarget_ fb)) in
      let createResolveFramebuffer :=
        match resolveDepth with Some _ => true | None => createResolveFramebuffer end in
      let createResolveFramebuffer :=
        match resolveStencil with Some _ => true | None => createResolveFramebuffer end in
      let resolveDesc :=
        mkDesc resolveColors (mkAttachment resolveDepth None)
          (mkAttachment resolveStencil None) defaultMode in
      if createResolveFramebuffer then
        nested <- initialize CustomFramebuffer_new resolveDesc (Some result) ;;
        let cfb := fst nested in
        let result' := match snd nested with Some x => x | None => result end in
        ret (set_resolveFramebuffer fb (Some cfb), assignResult outResult result')
      else ret (fb, outResult).

(** [initialize], with the [initialize] run on the nested resolve
    framebuffer as a parameter. *)
Definition initialize_with
    (initialize : CustomFramebuffer -> FramebufferDesc -> ResultPtr ->
                  GL (CustomFramebuffer * ResultPtr))
    (context : IContext) (fb : CustomFramebuffer) (desc : FramebufferDesc)
    (outResult : ResultPtr) : GL (CustomFramebuffer * ResultPtr) :=
  if isInitialized fb then
    IGL_ASSERT false "IGL_UNEXPECTED" ;;
    ret (fb, setResult outResult RuntimeError "Framebuffer already initialized.")
  else
    let fb := set_initialized fb true in
    let fb := set_renderTarget fb desc in
    guard <- FramebufferBindingGuard_new context ;;
    out <-
      (if hasImplicitColorAttachment context fb
       then ret (fb, setOk outResult)
       else prepareResource_with initialize context fb outResult) ;;
    FramebufferBindingGuard_delete context guard ;;
    ret out.

(** The descriptor handed to the nested framebuffer names no resolve
    texture, so the nested [initialize] never builds a framebuffer of its
    own: the recursion of the source stops at depth one.  [initialize_leaf]
    is [initialize] at that depth; its own nested call is never taken
    (lemma [initialize_unfold] below). *)
Definition initialize_leaf (context : IContext) :=
  initialize_with (fun fb _ out => ret (fb, out)) context.

(** [CustomFramebuffer::initialize]. *)
Definition initialize (context : IContext) :=
  initialize_with (initialize_leaf context) context.

(** [CustomFramebuffer::prepareResource]. *)
Definition prepareResource (context : IContext) :=
  prepareResource_with (initialize context) context.

End WithHeaderDefaults.

(** The loop of [CustomFramebuffer::bind] over the colour attachments. *)
Fixpoint bindColors (context : IContext) (fb : CustomFramebuffer)
    (renderPass : RenderPassDesc) (atts : list (Z * AttachmentDesc)) : GL unit :=
  match atts with
  | [] => ret tt
  | (index, colorAttachment) :: rest =>
      match texture colorAttachment with
      | None => bindColors context fb renderPass rest
      | Some colorAttachmentTexture =>
          let tex := textureObject context colorAttachmentTexture in
          (if negb (IGL_OPENGL_ES context) then
             if SRGB (deviceFeatures context) then
               if isSRGB tex
               then call (Enable GL_FRAMEBUFFER_SRGB)
               else call (Disable GL_FRAMEBUFFER_SRGB)
             else ret tt
           else ret tt) ;;
          (if isCube (getType tex) then
             IGL_ASSERT ((0 <=? index) &&
                         (index <? Z.of_nat (List.length (passColorAttachments renderPass))))
               "index >= 0 && index < renderPass.colorAttachments.size()" ;;
             pass <- vector_at (passColorAttachments renderPass) index ;;
             attachAsColor context fb colorAttachmentTexture (to_uint32 index)
               (to_uint32 (layer pass)) (to_uint32 (mipmapLevel pass))
           else ret tt) ;;
          bindColors context fb renderPass rest
      end
  end.

(** The three clear preparations of [CustomFramebuffer::bind]; each yields
    the updated clear mask. *)
Definition prepareColorClear (fb : CustomFramebuffer) (clearMask : GLbitfield)
  : GL GLbitfield :=
  match AttachmentMap.find 0 (colorAttachments (renderTarget_ fb)) with
  | Some colorAttachment0 =>
      match texture colorAttachment0 with
      | Some _ =>
          pass0 <- vector_at (passColorAttachments (renderPass_ fb)) 0 ;;
          if isClear (loadAction pass0) then
            call (ColorMask GL_TRUE GL_TRUE GL_TRUE GL_TRUE) ;;
            call (ClearColor (clearColor pass0)) ;;
            ret (Z.lor clearMask GL_COLOR_BUFFER_BIT)
          else ret clearMask
      | None => ret clearMask
      end
  | None => ret clearMask
  end.

Definition prepareDepthClear (fb : CustomFramebuffer) (clearMask : GLbitfield)
  : GL GLbitfield :=
  match texture (depthAttachment (renderTarget_ fb)) with
  | Some _ =>
      if isClear (depthLoadAction (passDepthAttachment (renderPass_ fb))) then
        call (DepthMask GL_TRUE) ;;
        call (ClearDepthf (clearDepth (passDepthAttachment (renderPass_ fb)))) ;;
        ret (Z.lor clearMask GL_DEPTH_BUFFER_BIT)
      else ret clearMask
  | None => ret clearMask
  end.

Definition prepareStencilClear (fb : CustomFramebuffer) (clearMask : GLbitfield)
  : GL GLbitfield :=
  match texture (stencilAttachment (renderTarget_ fb)) with
  | Some _ =>
      call (Enable GL_STENCIL_TEST) ;;
      if isClear (stencilLoadAction (passStencilAttachment (renderPass_ fb))) then
        call (StencilMask 0xFF) ;;
        call (ClearStencil (clearStencil (passStencilAttachment (renderPass_ fb)))) ;;
        ret (Z.lor clearMask GL_STENCIL_BUFFER_BIT)
      else ret clearMask
  | None => ret clearMask
  end.

(** [CustomFramebuffer::bind]; the method caches the pass in the mutable
    member [renderPass_], so the updated object is returned. *)
Definition bind (context : IContext) (fb0 : CustomFramebuffer) (renderPass : RenderPassDesc)
  : GL CustomFramebuffer :=
  let fb := set_renderPass fb0 renderPass in
  bindBuffer (frameBufferID_ fb) ;;
  bindColors context fb renderPass (colorAttachments (renderTarget_ fb)) ;;
  clearMask <- prepareColorClear fb 0 ;;
  clearMask <- prepareDepthClear fb clearMask ;;
  clearMask <- prepareStencilClear fb clearMask ;;
  (if negb (clearMask =? 0) then call (ClearCall clearMask) else ret tt) ;;
  ret fb.

(** The discard list built by [CustomFramebuffer::unbind]:
    [attachments[numAttachments++] = ...]. *)
Definition discardColor (fb : CustomFramebuffer) (attachments : list GLenum)
  : GL (list GLenum) :=
  match AttachmentMap.find 0 (colorAttachments (renderTarget_ fb)) with
  | Some colorAttachment0 =>
      match texture colorAttachment0 with
      | Some _ =>
          pass0 <- vector_at (passColorAttachments (renderPass_ fb)) 0 ;;
          if negb (isStore (storeAction pass0))
          then ret (attachments ++ [GL_COLOR_ATTACHMENT0])
          else ret attachments
      | None => ret attachments
      end
  | None => ret attachments
  end.

Definition discardDepth (fb : CustomFramebuffer) (attachments : list GLenum)
  : GL (list GLenum) :=
  match texture (depthAttachment (renderTarget_ fb)) with
  | Some _ =>
      if negb (isStore (depthStoreAction (passDepthAttachment (renderPass_ fb))))
      then ret (attachments ++ [GL_DEPTH_ATTACHMENT])
      else ret attachments
  | None => ret attachments
  end.

Definition discardStencil (fb : CustomFramebuffer) (attachments : list GLenum)
  : GL (list GLenum) :=
  match texture (stencilAttachment (renderTarget_ fb)) with
  | Some _ =>
      call (Disable GL_STENCIL_TEST) ;;
      if negb (isStore (stencilStoreAction (passStencilAttachment (renderPass_ fb))))
      then ret (attachments ++ [GL_STENCIL_ATTACHMENT])
      else ret attachments
  | None => ret attachments
  end.

(** [CustomFramebuffer::unbind]. *)
Definition unbind (context : IContext) (fb : CustomFramebuffer) : GL unit :=
  attachments <- discardColor fb [] ;;
  attachments <- discardDepth fb attachments ;;
  attachments <- discardStencil fb attachments ;;
  if 0 <? Z.of_nat (List.length attachments) then
    if InvalidateFramebufferFeature (deviceFeatures context)
    then call (InvalidateFramebuffer GL_FRAMEBUFFER attachments)
    else ret tt
  else ret tt.

(** ** CurrentFramebuffer *)

(** The members read by [bind]: the identifier captured at construction
    and the placeholder colour attachment. *)
Record CurrentFramebuffer : Type := mkCurrentFramebuffer {
  currentFrameBufferID_ : GLuint;
  colorAttachment_ : TexturePtr
}.

(** [CurrentFramebuffer::bind]. *)
Definition CurrentFramebuffer_bind (context : IContext) (fb : CurrentFramebuffer)
    (renderPass : RenderPassDesc) : GL unit :=
  bindBuffer (currentFrameBufferID_ fb) ;;
  (if negb (IGL_OPENGL_ES context) then
     let colorAttach := colorAttachment_ fb in
     if SRGB (deviceFeatures context) then
       match colorAttach with
       | Some t =>
           if isSRGB (textureObject context t)
           then call (Enable GL_FRAMEBUFFER_SRGB)
           else call (Disable GL_FRAMEBUFFER_SRGB)
       | None => call (Disable GL_FRAMEBUFFER_SRGB)
       end
     else ret tt
   else ret tt) ;;
  pass0 <- vector_at (passColorAttachments renderPass) 0 ;;
  clearMask <-
    (if negb (isLoad (loadAction pass0)) then
       call (ColorMask GL_TRUE GL_TRUE GL_TRUE GL_TRUE) ;;
       call (ClearColor (clearColor pass0)) ;;
       ret (Z.lor 0 GL_COLOR_BUFFER_BIT)
     else ret 0) ;;
  clearMask <-
    (if negb (isLoad (depthLoadAction (passDepthAttachment renderPass))) then
       call (DepthMask GL_TRUE) ;;
       call (ClearDepthf (clearDepth (passDepthAttachment renderPass))) ;;
       ret (Z.lor clearMask GL_DEPTH_BUFFER_BIT)
     else ret clearMask) ;;
  clearMask <-
    (if negb (isLoad (stencilLoadAction (passStencilAttachment renderPass))) then
       call (StencilMask 0xFF) ;;
       call (ClearStencil (clearStencil (passStencilAttachment renderPass))) ;;
       ret (Z.lor clearMask GL_STENCIL_BUFFER_BIT)
     else ret clearMask) ;;
  (if negb (clearMask =? 0) then call (ClearCall clearMask) else ret tt).

(** [CurrentFramebuffer::unbind]: no-op. *)
Definition CurrentFramebuffer_unbind (context : IContext) (fb : CurrentFramebuffer)
  : GL unit :=
  ret tt.

(** ** Reading a list of calls *)

Definition clearCalls (l : list Call) : list GLbitfield :=
  flat_map (fun c => match c with ClearCall m => [m] | _ => [] end) l.

Definition bindFramebufferCalls (l : list Call) : list (GLenum * GLuint) :=
  flat_map (fun c => match c with BindFramebuffer t i => [(t, i)] | _ => [] end) l.

Definition invalidateCalls (l : list Call) : list (list GLenum) :=
  flat_map (fun c => match c with InvalidateFramebuffer _ a => [a] | _ => [] end) l.

Definition drawBuffersCalls (l : list Call) : list (list GLenum) :=
  flat_map (fun c => match c with DrawBuffers bufs => [bufs] | _ => [] end) l.

Definition readPixelsCalls (l : list Call) : list (GLenum * GLenum) :=
  flat_map (fun c => match c with ReadPixels _ _ _ _ f t => [(f, t)] | _ => [] end) l.

(** ** Sample data *)

Definition plainTexture : Texture :=
  mkTexture TwoD (OtherFormat 0) 1 1 11 false false (fun rg => 4 * range_width rg)
    (fun _ _ => 4).

Definition uintTexture : Texture :=
  mkTexture TwoD RGBA_UInt32 1 1 12 false false (fun rg => 16 * range_width rg)
    (fun _ _ => 8).

Definition implicitTexture : Texture :=
  mkTexture TwoD (OtherFormat 0) 1 1 0 true false (fun rg => 4 * range_width rg)
    (fun _ _ => 4).

(** Texture 0 is window-provided, texture 1 holds 32-bit unsigned RGBA,
    every other texture is an ordinary 2D colour texture. *)
Definition sampleTextures (t : TextureRef) : Texture :=
  if t =? 0 then implicitTexture else if t =? 1 then uintTexture else plainTexture.

Definition genFramebuffersCalls (l : list Call) : list GLuint :=
  flat_map (fun c => match c with GenFramebuffers n => [n] | _ => [] end) l.

(** A driver with the given features that reports the given status for
    every framebuffer, answers 7 for the render-buffer binding and 5 for
    every framebuffer binding, and names new framebuffers 1, 2, ... *)
Definition sampleDriver (features : DeviceFeatures) (status : GLenum) : IContext :=
  mkContext features false sampleTextures
    (fun _ pname => if pname =? GL_RENDERBUFFER_BINDING then 7 else 5)
    (fun _ _ => status)
    (fun h => 1 + Z.of_nat (List.length (genFramebuffersCalls h))).

Definition allFeatures : DeviceFeatures := mkFeatures true true true true.
Definition noFeatures : DeviceFeatures := mkFeatures false false false false.

Definition completeContext : IContext := sampleDriver allFeatures GL_FRAMEBUFFER_COMPLETE.
Definition incompleteContext : IContext := sampleDriver noFeatures GL_FRAMEBUFFER_UNSUPPORTED.
Definition bareContext : IContext := sampleDriver noFeatures GL_FRAMEBUFFER_COMPLETE.

Definition noAttachment : AttachmentDesc := mkAttachment None None.

Definition samplePassColor (l : LoadAction) (s : StoreAction) : ColorAttachmentDesc :=
  mkColorPass l s 0 0 (mkColor 1 2 3 4).

Definition samplePass (l : LoadAction) (sc sd : StoreAction) : RenderPassDesc :=
  mkPass [samplePassColor l sc] (mkDepthPass l sd 9) (mkStencilPass l sd 3).

(** Colour attachments 0 and 2, no depth, no stencil, no resolve. *)
Definition sparseDesc : FramebufferDesc :=
  mkDesc [(2, mkAttachment (Some 22) None); (0, mkAttachment (Some 20) None)]
    noAttachment noAttachment Mono.

(** A resolve texture on attachment 0 only. *)
Definition partialResolveDesc : FramebufferDesc :=
  mkDesc [(0, mkAttachment (Some 20) (Some 30)); (1, mkAttachment (Some 21) None)]
    noAttachment noAttachment Mono.

(** A resolve texture on both colour attachments. *)
Definition fullResolveDesc : FramebufferDesc :=
  mkDesc [(0, mkAttachment (Some 20) (Some 30)); (1, mkAttachment (Some 21) (Some 31))]
    noAttachment noAttachment Mono.

(** Colour 0 with depth and stencil. *)
Definition depthStencilDesc : FramebufferDesc :=
  mkDesc [(0, mkAttachment (Some 20) None)]
    (mkAttachment (Some 40) None) (mkAttachment (Some 41) None) Mono.

(** Window-provided storage on attachment 0, an ordinary texture on 2. *)
Definition implicitDesc : FramebufferDesc :=
  mkDesc [(0, mkAttachment (Some 0) (Some 30)); (2, mkAttachment (Some 22) None)]
    noAttachment noAttachment Mono.

Definition samplePassDefault : RenderPassDesc := samplePass LoadDontCare Store StoreDontCare.

Definition sampleNew : CustomFramebuffer := CustomFramebuffer_new Mono samplePassDefault.

Definition sampleInitialize := initialize Mono samplePassDefault.

(** * Properties *)

(** ** Running computations *)

Lemma bind_gl_run {A B : Type} (m : GL A) (f : A -> GL B) h x e1 :
  m h = Some (x, e1) ->
  bind_gl m f h =
    match f x (h ++ e1) with
    | None => None
    | Some (y, e2) => Some (y, e1 ++ e2)
    end.
Proof. intros Hm. unfold bind_gl. rewrite Hm. reflexivity. Qed.

Lemma bind_gl_Some {A B : Type} (m : GL A) (f : A -> GL B) h x e1 y e2 :
  m h = Some (x, e1) ->
  f x (h ++ e1) = Some (y, e2) ->
  bind_gl m f h = Some (y, e1 ++ e2).
Proof. intros Hm Hf. rewrite (bind_gl_run m f h x e1 Hm), Hf. reflexivity. Qed.

Lemma bind_gl_inv {A B : Type} (m : GL A) (f : A -> GL B) h y e :
  bind_gl m f h = Some (y, e) ->
  exists x e1 e2,
    m h = Some (x, e1) /\ f x (h ++ e1) = Some (y, e2) /\ e = e1 ++ e2.
Proof.
  unfold bind_gl. destruct (m h) as [[x e1]|]; [|discriminate].
  destruct (f x (h ++ e1)) as [[y' e2]|] eqn:Hf; [|discriminate].
  intros H. inversion H; subst. exists x, e1, e2. repeat split. exact Hf.
Qed.

Lemma vector_at_run {A : Type} (v : list A) (x : A) h :
  nth_error v 0 = Some x -> vector_at v 0 h = Some (x, []).
Proof.
  destruct v as [|y v']; simpl; [discriminate|].
  intros H. inversion H; subst. unfold vector_at. simpl.
  replace (0 <? Z.pos (Pos.of_succ_nat (List.length v'))) with true
    by (symmetry; apply Z.ltb_lt; lia).
  reflexivity.
Qed.

Lemma vector_at_in_range {A : Type} (v : list A) (i : Z) h :
  (0 <=? i) && (i <? Z.of_nat (List.length v)) = true ->
  exists x, vector_at v i h = Some (x, []).
Proof.
  intros H. unfold vector_at. rewrite H.
  apply andb_prop in H. destruct H as [H0 H1].
  apply Z.leb_le in H0. apply Z.ltb_lt in H1.
  destruct (nth_error v (Z.to_nat i)) as [x|] eqn:E.
  - exists x. reflexivity.
  - apply nth_error_None in E. lia.
Qed.

(** Calls that only attach, detach, toggle a capability or report. *)
Definition isQuiet (c : Call) : bool :=
  match c with
  | TextureAttachAsColor _ _ _ _ | TextureDetachAsColor _ _
  | TextureAttachAsDepth _ | TextureAttachAsStencil _
  | FramebufferTextureLayer _ _ _ _ _
  | FramebufferTextureMultiview _ _ _ _ _ _
  | FramebufferTextureMultisampleMultiview _ _ _ _ _ _ _
  | Enable _ | Disable _ | AssertionReport _ => true
  | _ => false
  end.

Lemma quiet_clearCalls e : forallb isQuiet e = true -> clearCalls e = [].
Proof.
  induction e as [|c e IH]; simpl; [reflexivity|].
  intros H. apply andb_prop in H. destruct H as [Hc He].
  rewrite (IH He). destruct c; simpl in *; try discriminate; reflexivity.
Qed.

Lemma quiet_drawBuffersCalls e : forallb isQuiet e = true -> drawBuffersCalls e = [].
Proof.
  induction e as [|c e IH]; simpl; [reflexivity|].
  intros H. apply andb_prop in H. destruct H as [Hc He].
  rewrite (IH He). destruct c; simpl in *; try discriminate; reflexivity.
Qed.

Lemma attachAsColor_run context fb t index face mipmapLevel h :
  exists e, attachAsColor context fb t index face mipmapLevel h = Some (tt, e) /\
            forallb isQuiet e = true.
Proof.
  unfold attachAsColor, IGL_ASSERT, bind_gl, call, ret.
  destruct (mode (renderTarget_ fb)).
  - eexists; split; reflexivity.
  - destruct (1 <? getSamples (textureObject context t)).
    + destruct (index =? 0); eexists; split; reflexivity.
    + eexists; split; reflexivity.
  - eexists; split; reflexivity.
Qed.

Lemma attachAsDepthOrStencil_run context fb t attachment monoCall h :
  isQuiet monoCall = true ->
  exists e, attachAsDepthOrStencil context fb t attachment monoCall h = Some (tt, e) /\
            forallb isQuiet e = true.
Proof.
  intros Hq. unfold attachAsDepthOrStencil, IGL_ASSERT, call.
  destruct (mode (renderTarget_ fb)).
  - eexists; split; [reflexivity|]. simpl. rewrite Hq. reflexivity.
  - destruct (1 <? getSamples (textureObject context t)); eexists; split; reflexivity.
  - eexists; split; reflexivity.
Qed.

(** ** The binding guard *)

Lemma FramebufferBindingGuard_new_run context h :
  exists guard,
    FramebufferBindingGuard_new context h = Some (guard, []) /\
    currentRenderbuffer_ guard =
      to_uint32 (driverInteger context h GL_RENDERBUFFER_BINDING) /\
    (driverFramebufferStatus context h GL_FRAMEBUFFER <> GL_FRAMEBUFFER_COMPLETE ->
     currentFramebuffer_ guard = 0 /\
     currentReadFramebuffer_ guard = 0 /\
     currentDrawFramebuffer_ guard = 0).
Proof.
  unfold FramebufferBindingGuard_new, checkFramebufferStatus, getIntegerv, bind_gl, ask.
  simpl. rewrite !app_nil_r.
  set (status := driverFramebufferStatus context h GL_FRAMEBUFFER).
  destruct (Z.eqb_spec status GL_FRAMEBUFFER_COMPLETE) as [Hc|Hc].
  - simpl. destruct (ReadWriteFramebuffer (deviceFeatures context)); simpl;
      eexists; (split; [reflexivity|]); (split; [reflexivity|]); intros; contradiction.
  - repeat match goal with
           | |- context [if ?x =? ?y then _ else _] => destruct (x =? y)
           end; simpl;
      eexists; (split; [reflexivity|]); (split; [reflexivity|]); auto.
Qed.

Lemma FramebufferBindingGuard_delete_run context guard h :
  FramebufferBindingGuard_delete context guard h =
    Some (tt,
          (if ReadWriteFramebuffer (deviceFeatures context)
           then [BindFramebuffer GL_READ_FRAMEBUFFER (currentReadFramebuffer_ guard);
                 BindFramebuffer GL_DRAW_FRAMEBUFFER (currentDrawFramebuffer_ guard)]
           else [BindFramebuffer GL_FRAMEBUFFER (currentFramebuffer_ guard)]) ++
          [BindRenderbuffer GL_RENDERBUFFER (currentRenderbuffer_ guard)]).
Proof.
  unfold FramebufferBindingGuard_delete, bind_gl, call.
  destruct (ReadWriteFramebuffer (deviceFeatures context)); reflexivity.
Qed.

(** C3 (as amended).  A guard constructed while the ambient framebuffer is
    incomplete still rebinds on destruction: it issues its framebuffer bind
    calls (read and draw, or the single combined one), each with identifier
    0 and not with an identifier read from the driver, and then restores
    the render-buffer binding it captured. *)
Theorem guard_incomplete_rebinds_zero context h guard e1 :
  driverFramebufferStatus context h GL_FRAMEBUFFER <> GL_FRAMEBUFFER_COMPLETE ->
  FramebufferBindingGuard_new context h = Some (guard, e1) ->
  FramebufferBindingGuard_delete context guard (h ++ e1) =
    Some (tt,
          (if ReadWriteFramebuffer (deviceFeatures context)
           then [BindFramebuffer GL_READ_FRAMEBUFFER 0;
                 BindFramebuffer GL_DRAW_FRAMEBUFFER 0]
           else [BindFramebuffer GL_FRAMEBUFFER 0]) ++
          [BindRenderbuffer GL_RENDERBUFFER
             (to_uint32 (driverInteger context h GL_RENDERBUFFER_BINDING))]).
Proof.
  intros Hinc Hnew.
  destruct (FramebufferBindingGuard_new_run context h) as (g & Hg & Hrb & Hz).
  rewrite Hg in Hnew. inversion Hnew; subst guard e1.
  destruct (Hz Hinc) as (Hf & Hr & Hd).
  rewrite FramebufferBindingGuard_delete_run, Hrb, Hf, Hr, Hd. reflexivity.
Qed.

Lemma guard_incomplete_rebinds_zero_witness :
  driverFramebufferStatus incompleteContext [] GL_FRAMEBUFFER <> GL_FRAMEBUFFER_COMPLETE /\
  FramebufferBindingGuard_new incompleteContext [] = Some (mkGuard 7 0 0 0, []) /\
  FramebufferBindingGuard_delete incompleteContext (mkGuard 7 0 0 0) ([] ++ []) =
    Some (tt, [BindFramebuffer GL_FRAMEBUFFER 0] ++ [BindRenderbuffer GL_RENDERBUFFER 7]).
Proof.
  assert (H1 : driverFramebufferStatus incompleteContext [] GL_FRAMEBUFFER
               <> GL_FRAMEBUFFER_COMPLETE) by (vm_compute; discriminate).
  assert (H2 : FramebufferBindingGuard_new incompleteContext [] =
               Some (mkGuard 7 0 0 0, [])) by reflexivity.
  split; [exact H1|]. split; [exact H2|].
  exact (guard_incomplete_rebinds_zero incompleteContext [] (mkGuard 7 0 0 0) [] H1 H2).
Defined.

(** C3, counterexample.  With an incomplete ambient framebuffer the
    destructor of the guard makes one framebuffer bind call, not zero. *)
Lemma guard_incomplete_rebinds_counterexample :
  driverFramebufferStatus incompleteContext [] GL_FRAMEBUFFER <> GL_FRAMEBUFFER_COMPLETE /\
  FramebufferBindingGuard_new incompleteContext [] = Some (mkGuard 7 0 0 0, []) /\
  FramebufferBindingGuard_delete incompleteContext (mkGuard 7 0 0 0) [] =
    Some (tt, [BindFramebuffer GL_FRAMEBUFFER 0; BindRenderbuffer GL_RENDERBUFFER 7]) /\
  List.length
    (bindFramebufferCalls
       [BindFramebuffer GL_FRAMEBUFFER 0; BindRenderbuffer GL_RENDERBUFFER 7]) = 1%nat.
Proof.
  split; [vm_compute; discriminate|].
  split; [reflexivity|]. split; reflexivity.
Qed.

(** ** Clear on bind *)

(** What the pass asks to clear on an explicit target: the configured
    clear value of each of colour 0, depth and stencil that is present and
    whose load action is [Clear]. *)
Definition clearsColor (fb : CustomFramebuffer) (renderPass : RenderPassDesc)
  : option Color :=
  match getColorAttachment fb 0, nth_error (passColorAttachments renderPass) 0 with
  | Some _, Some pass0 =>
      if isClear (loadAction pass0) then Some (clearColor pass0) else None
  | _, _ => None
  end.

Definition clearsDepth (fb : CustomFramebuffer) (renderPass : RenderPassDesc)
  : option GLfloat :=
  match getDepthAttachment fb with
  | Some _ =>
      if isClear (depthLoadAction (passDepthAttachment renderPass))
      then Some (clearDepth (passDepthAttachment renderPass)) else None
  | None => None
  end.

Definition clearsStencil (fb : CustomFramebuffer) (renderPass : RenderPassDesc)
  : option Z :=
  match getStencilAttachment fb with
  | Some _ =>
      if isClear (stencilLoadAction (passStencilAttachment renderPass))
      then Some (clearStencil (passStencilAttachment renderPass)) else None
  | None => None
  end.

Definition bitIf {A : Type} (o : option A) (bit : GLbitfield) : GLbitfield :=
  match o with Some _ => bit | None => 0 end.

Definition combinedMask {A B C : Type} (c : option A) (d : option B) (s : option C)
  : GLbitfield :=
  bitIf c GL_COLOR_BUFFER_BIT + bitIf d GL_DEPTH_BUFFER_BIT + bitIf s GL_STENCIL_BUFFER_BIT.

Definition colorClearSetup (c : option Color) : list Call :=
  match c with
  | Some v => [ColorMask GL_TRUE GL_TRUE GL_TRUE GL_TRUE; ClearColor v]
  | None => []
  end.

Definition depthClearSetup (d : option GLfloat) : list Call :=
  match d with
  | Some v => [DepthMask GL_TRUE; ClearDepthf v]
  | None => []
  end.

Definition stencilClearSetup (s : option Z) : list Call :=
  match s with
  | Some v => [StencilMask 0xFF; ClearStencil v]
  | None => []
  end.

Definition combinedClear {A B C : Type} (c : option A) (d : option B) (s : option C)
  : list Call :=
  match c, d, s with
  | None, None, None => []
  | _, _, _ => [ClearCall (combinedMask c d s)]
  end.

(** The vector accesses made by [bind] stay in range: the pass has an entry
    0 when colour attachment 0 is present, and an entry [index] for every
    cube texture attached at [index]. *)
Fixpoint cubesInRange (context : IContext) (renderPass : RenderPassDesc)
    (atts : list (Z * AttachmentDesc)) : bool :=
  match atts with
  | [] => true
  | (index, colorAttachment) :: rest =>
      match texture colorAttachment with
      | Some t =>
          if isCube (getType (textureObject context t))
          then (0 <=? index) &&
               (index <? Z.of_nat (List.length (passColorAttachments renderPass)))
          else true
      | None => true
      end && cubesInRange context renderPass rest
  end.

Definition entry0InRange (fb : CustomFramebuffer) (renderPass : RenderPassDesc) : bool :=
  match getColorAttachment fb 0, passColorAttachments renderPass with
  | Some _, [] => false
  | _, _ => true
  end.

Definition bindInRange (context : IContext) (fb : CustomFramebuffer)
    (renderPass : RenderPassDesc) : bool :=
  entry0InRange fb renderPass &&
  cubesInRange context renderPass (colorAttachments (renderTarget_ fb)).

Lemma bindColors_run context fb renderPass atts :
  cubesInRange context renderPass atts = true ->
  forall h, exists e,
    bindColors context fb renderPass atts h = Some (tt, e) /\ forallb isQuiet e = true.
Proof.
  induction atts as [|[index colorAttachment] rest IH]; intros Hr h.
  - exists []. split; reflexivity.
  - simpl in Hr. apply andb_prop in Hr. destruct Hr as [Hhere Hrest].
    simpl. destruct (texture colorAttachment) as [t|]; [|apply IH; exact Hrest].
    set (srgb := if negb (IGL_OPENGL_ES context) then _ else ret tt).
    assert (Hs : exists e1, srgb h = Some (tt, e1) /\ forallb isQuiet e1 = true).
    { subst srgb. destruct (negb (IGL_OPENGL_ES context));
        [destruct (SRGB (deviceFeatures context));
         [destruct (isSRGB (textureObject context t))|]|];
        eexists; split; reflexivity. }
    destruct Hs as (e1 & Hs1 & Hq1).
    rewrite (bind_gl_run _ _ h tt e1 Hs1).
    set (cube := if isCube (getType (textureObject context t)) then _ else ret tt).
    assert (Hc : exists e2, cube (h ++ e1) = Some (tt, e2) /\ forallb isQuiet e2 = true).
    { subst cube. destruct (isCube (getType (textureObject context t))).
      - rewrite Hhere. unfold IGL_ASSERT.
        destruct (vector_at_in_range (passColorAttachments renderPass) index
                    ((h ++ e1) ++ []) Hhere) as (pass & Hv).
        destruct (attachAsColor_run context fb t (to_uint32 index)
                    (to_uint32 (layer pass)) (to_uint32 (mipmapLevel pass))
                    (((h ++ e1) ++ []) ++ [])) as (e3 & He3 & Hq3).
        exists e3. split; [|exact Hq3].
        rewrite (bind_gl_run _ _ (h ++ e1) tt [] eq_refl).
        rewrite (bind_gl_run _ _ _ pass [] Hv), He3. reflexivity.
      - exists []. split; reflexivity. }
    destruct Hc as (e2 & Hc2 & Hq2).
    rewrite (bind_gl_run _ _ (h ++ e1) tt e2 Hc2).
    destruct (IH Hrest ((h ++ e1) ++ e2)) as (e3 & He3 & Hq3).
    rewrite He3. exists (e1 ++ e2 ++ e3). split; [reflexivity|].
    rewrite !forallb_app, Hq1, Hq2, Hq3. reflexivity.
Qed.

Lemma prepareColorClear_run fb renderPass clearMask h :
  entry0InRange fb renderPass = true ->
  prepareColorClear (set_renderPass fb renderPass) clearMask h =
    Some (Z.lor clearMask (bitIf (clearsColor fb renderPass) GL_COLOR_BUFFER_BIT),
          colorClearSetup (clearsColor fb renderPass)).
Proof.
  unfold entry0InRange, prepareColorClear, clearsColor, getColorAttachment. simpl.
  destruct (AttachmentMap.find 0 (colorAttachments (renderTarget_ fb))) as [att|];
    [|intros _; simpl; rewrite Z.lor_0_r; reflexivity].
  destruct (texture att) as [t|]; [|intros _; simpl; rewrite Z.lor_0_r; reflexivity].
  destruct (passColorAttachments renderPass) as [|pass0 rest] eqn:E; [discriminate|].
  intros _.
  rewrite (bind_gl_run _ _ h pass0 [] (vector_at_run (pass0 :: rest) pass0 h eq_refl)).
  simpl. destruct (isClear (loadAction pass0)); simpl.
  - reflexivity.
  - rewrite Z.lor_0_r. reflexivity.
Qed.

Lemma prepareDepthClear_run fb renderPass clearMask h :
  prepareDepthClear (set_renderPass fb renderPass) clearMask h =
    Some (Z.lor clearMask (bitIf (clearsDepth fb renderPass) GL_DEPTH_BUFFER_BIT),
          depthClearSetup (clearsDepth fb renderPass)).
Proof.
  unfold prepareDepthClear, clearsDepth, getDepthAttachment. simpl.
  destruct (texture (depthAttachment (renderTarget_ fb)));
    [destruct (isClear (depthLoadAction (passDepthAttachment renderPass)))|];
    simpl; rewrite ?Z.lor_0_r; reflexivity.
Qed.

Lemma prepareStencilClear_run fb renderPass clearMask h :
  prepareStencilClear (set_renderPass fb renderPass) clearMask h =
    Some (Z.lor clearMask (bitIf (clearsStencil fb renderPass) GL_STENCIL_BUFFER_BIT),
          match getStencilAttachment fb with
          | Some _ => [Enable GL_STENCIL_TEST]
          | None => []
          end ++ stencilClearSetup (clearsStencil fb renderPass)).
Proof.
  unfold prepareStencilClear, clearsStencil, getStencilAttachment. simpl.
  destruct (texture (stencilAttachment (renderTarget_ fb)));
    [destruct (isClear (stencilLoadAction (passStencilAttachment renderPass)))|];
    simpl; rewrite ?Z.lor_0_r; reflexivity.
Qed.

Lemma combinedMask_lor {A B C : Type} (c : option A) (d : option B) (s : option C) :
  Z.lor (Z.lor (Z.lor 0 (bitIf c GL_COLOR_BUFFER_BIT)) (bitIf d GL_DEPTH_BUFFER_BIT))
    (bitIf s GL_STENCIL_BUFFER_BIT) = combinedMask c d s.
Proof. destruct c, d, s; reflexivity. Qed.

Lemma combinedClear_run {A B C : Type} (c : option A) (d : option B) (s : option C) h :
  (if negb (combinedMask c d s =? 0) then call (ClearCall (combinedMask c d s)) else ret tt) h
  = Some (tt, combinedClear c d s).
Proof. destruct c, d, s; reflexivity. Qed.

(** C4.  [bind] on an explicit target makes these calls, in this order: the
    framebuffer bind, the calls of the per-attachment loop (none of which
    is a clear), then for each of colour 0, depth and stencil that is
    present with load action [Clear] its write mask and clear value, and
    last one clear whose mask has exactly the bits of those attachments;
    when none is to be cleared there is no clear call. *)
Theorem bind_issues_one_combined_clear context fb renderPass h :
  bindInRange context fb renderPass = true ->
  let c := clearsColor fb renderPass in
  let d := clearsDepth fb renderPass in
  let s := clearsStencil fb renderPass in
  exists loopCalls e,
    forallb isQuiet loopCalls = true /\
    bind context fb renderPass h = Some (set_renderPass fb renderPass, e) /\
    e = [BindFramebuffer GL_FRAMEBUFFER (frameBufferID_ fb)] ++ loopCalls ++
        colorClearSetup c ++ depthClearSetup d ++
        match getStencilAttachment fb with
        | Some _ => [Enable GL_STENCIL_TEST]
        | None => []
        end ++ stencilClearSetup s ++ combinedClear c d s /\
    clearCalls e = match c, d, s with
                   | None, None, None => []
                   | _, _, _ => [combinedMask c d s]
                   end.
Proof.
  intros Hr c d s. unfold bindInRange in Hr. apply andb_prop in Hr.
  destruct Hr as [H0 Hcubes].
  destruct (bindColors_run context (set_renderPass fb renderPass) renderPass
              (colorAttachments (renderTarget_ fb)) Hcubes
              (h ++ [BindFramebuffer GL_FRAMEBUFFER (frameBufferID_ fb)]))
    as (loopCalls & Hloop & Hquiet).
  exists loopCalls. eexists. split; [exact Hquiet|]. split.
  - unfold bind.
    rewrite (bind_gl_run _ _ h tt [BindFramebuffer GL_FRAMEBUFFER (frameBufferID_ fb)] eq_refl).
    simpl renderTarget_.
    rewrite (bind_gl_run _ _ _ tt loopCalls Hloop).
    rewrite (bind_gl_run _ _ _ _ _ (prepareColorClear_run fb renderPass 0 _ H0)).
    rewrite (bind_gl_run _ _ _ _ _ (prepareDepthClear_run fb renderPass _ _)).
    rewrite (bind_gl_run _ _ _ _ _ (prepareStencilClear_run fb renderPass _ _)).
    rewrite combinedMask_lor.
    rewrite (bind_gl_run _ _ _ _ _ (combinedClear_run _ _ _ _)).
    unfold ret. reflexivity.
  - split.
    + fold c d s. rewrite app_nil_r, <- !app_assoc. reflexivity.
    + fold c d s. unfold clearCalls. rewrite !flat_map_app.
      fold (clearCalls loopCalls). rewrite (quiet_clearCalls loopCalls Hquiet).
      destruct c, d, s, (getStencilAttachment fb); reflexivity.
Qed.

Lemma bind_issues_one_combined_clear_witness :
  bindInRange completeContext (set_renderTarget sampleNew depthStencilDesc)
    (samplePass Clear Store StoreDontCare) = true /\
  exists fb' e,
    bind completeContext (set_renderTarget sampleNew depthStencilDesc)
      (samplePass Clear Store StoreDontCare) [] = Some (fb', e) /\
    clearCalls e = [0x4500].
Proof.
  assert (H : bindInRange completeContext (set_renderTarget sampleNew depthStencilDesc)
                (samplePass Clear Store StoreDontCare) = true) by reflexivity.
  split; [exact H|].
  destruct (bind_issues_one_combined_clear completeContext
              (set_renderTarget sampleNew depthStencilDesc)
              (samplePass Clear Store StoreDontCare) [] H)
    as (loopCalls & e & _ & Hb & _ & Hc).
  exists (set_renderPass (set_renderTarget sampleNew depthStencilDesc)
            (samplePass Clear Store StoreDontCare)), e.
  split; [exact Hb|exact Hc].
Defined.

(** ** Clear on bind, implicit target *)

Definition unlessLoad {A : Type} (l : LoadAction) (v : A) : option A :=
  if isLoad l then None else Some v.

(** C5 (as amended).  [bind] on the implicit target clears each of colour,
    depth and stencil exactly when its load action is not [Load] (so for
    [Clear] and for [DontCare]), sets the write mask and clear value of
    each first and ends with one combined clear; [unbind] makes no call. *)
Theorem CurrentFramebuffer_bind_clears_unless_load context fb renderPass pass0 h :
  nth_error (passColorAttachments renderPass) 0 = Some pass0 ->
  let c := unlessLoad (loadAction pass0) (clearColor pass0) in
  let d := unlessLoad (depthLoadAction (passDepthAttachment renderPass))
             (clearDepth (passDepthAttachment renderPass)) in
  let s := unlessLoad (stencilLoadAction (passStencilAttachment renderPass))
             (clearStencil (passStencilAttachment renderPass)) in
  exists srgbCalls e,
    forallb isQuiet srgbCalls = true /\
    CurrentFramebuffer_bind context fb renderPass h = Some (tt, e) /\
    e = [BindFramebuffer GL_FRAMEBUFFER (currentFrameBufferID_ fb)] ++ srgbCalls ++
        colorClearSetup c ++ depthClearSetup d ++ stencilClearSetup s ++
        combinedClear c d s /\
    clearCalls e = match c, d, s with
                   | None, None, None => []
                   | _, _, _ => [combinedMask c d s]
                   end /\
    CurrentFramebuffer_unbind context fb h = Some (tt, []).
Proof.
  intros Hp c d s.
  set (srgb := if negb (IGL_OPENGL_ES context)
               then (if SRGB (deviceFeatures context)
                     then match colorAttachment_ fb with
                          | Some t => if isSRGB (textureObject context t)
                                      then [Enable GL_FRAMEBUFFER_SRGB]
                                      else [Disable GL_FRAMEBUFFER_SRGB]
                          | None => [Disable GL_FRAMEBUFFER_SRGB]
                          end
                     else [])
               else []).
  assert (Hq : forallb isQuiet srgb = true).
  { subst srgb. destruct (negb (IGL_OPENGL_ES context)), (SRGB (deviceFeatures context)),
      (colorAttachment_ fb) as [t|]; try reflexivity.
    destruct (isSRGB (textureObject context t)); reflexivity. }
  exists srgb. eexists. split; [exact Hq|]. split; [|split; [reflexivity|split]].
  - unfold CurrentFramebuffer_bind.
    rewrite (bind_gl_run _ _ h tt
               [BindFramebuffer GL_FRAMEBUFFER (currentFrameBufferID_ fb)] eq_refl).
    rewrite (bind_gl_run _ _ _ tt srgb).
    2:{ subst srgb. destruct (negb (IGL_OPENGL_ES context)),
          (SRGB (deviceFeatures context)), (colorAttachment_ fb) as [t|]; try reflexivity.
        destruct (isSRGB (textureObject context t)); reflexivity. }
    rewrite (bind_gl_run _ _ _ pass0 [] (vector_at_run _ pass0 _ Hp)).
    subst c d s. unfold unlessLoad.
    destruct (isLoad (loadAction pass0)),
      (isLoad (depthLoadAction (passDepthAttachment renderPass))),
      (isLoad (stencilLoadAction (passStencilAttachment renderPass)));
      simpl; rewrite ?app_nil_r, <- ?app_assoc; reflexivity.
  - unfold clearCalls. rewrite !flat_map_app.
    fold (clearCalls srgb). rewrite (quiet_clearCalls srgb Hq).
    destruct c, d, s; reflexivity.
  - reflexivity.
Qed.

Lemma CurrentFramebuffer_bind_clears_unless_load_witness :
  nth_error (passColorAttachments (samplePass Clear Store StoreDontCare)) 0 =
    Some (samplePassColor Clear Store) /\
  exists e,
    CurrentFramebuffer_bind completeContext (mkCurrentFramebuffer 0 (Some 50))
      (samplePass Clear Store StoreDontCare) [] = Some (tt, e) /\
    clearCalls e = [0x4500].
Proof.
  assert (H : nth_error (passColorAttachments (samplePass Clear Store StoreDontCare)) 0 =
              Some (samplePassColor Clear Store)) by reflexivity.
  split; [exact H|].
  destruct (CurrentFramebuffer_bind_clears_unless_load completeContext
              (mkCurrentFramebuffer 0 (Some 50)) (samplePass Clear Store StoreDontCare)
              (samplePassColor Clear Store) [] H)
    as (srgbCalls & e & _ & Hb & _ & Hc & _).
  exists e. split; [exact Hb|exact Hc].
Defined.

(** C5, counterexample.  With load action [DontCare] on colour, depth and
    stencil the implicit target clears all three; the explicit target,
    given the same pass, clears nothing. *)
Lemma CurrentFramebuffer_bind_dontcare_counterexample :
  CurrentFramebuffer_bind bareContext (mkCurrentFramebuffer 0 (Some 50))
    (samplePass LoadDontCare Store StoreDontCare) [] =
    Some (tt, [BindFramebuffer GL_FRAMEBUFFER 0;
               ColorMask 1 1 1 1; ClearColor (mkColor 1 2 3 4);
               DepthMask 1; ClearDepthf 9;
               StencilMask 255; ClearStencil 3;
               ClearCall 0x4500]) /\
  option_map (fun x => clearCalls (snd x))
    (bind bareContext (set_renderTarget sampleNew depthStencilDesc)
       (samplePass LoadDontCare Store StoreDontCare) []) = Some [].
Proof. split; reflexivity. Qed.

(** ** Discard on unbind *)

(** C6.  With depth and stencil present, store action [DontCare] on both
    and [Store] on colour 0, [unbind] disables the stencil test and, when
    the driver can invalidate framebuffers, makes one invalidate call that
    lists depth and stencil; without that capability it makes none. *)
Theorem unbind_invalidates_depth_and_stencil context fb pass0 tDepth tStencil h :
  getDepthAttachment fb = Some tDepth ->
  getStencilAttachment fb = Some tStencil ->
  depthStoreAction (passDepthAttachment (renderPass_ fb)) = StoreDontCare ->
  stencilStoreAction (passStencilAttachment (renderPass_ fb)) = StoreDontCare ->
  nth_error (passColorAttachments (renderPass_ fb)) 0 = Some pass0 ->
  storeAction pass0 = Store ->
  exists e,
    unbind context fb h = Some (tt, e) /\
    e = [Disable GL_STENCIL_TEST] ++
        (if InvalidateFramebufferFeature (deviceFeatures context)
         then [InvalidateFramebuffer GL_FRAMEBUFFER
                 [GL_DEPTH_ATTACHMENT; GL_STENCIL_ATTACHMENT]]
         else []) /\
    invalidateCalls e =
      if InvalidateFramebufferFeature (deviceFeatures context)
      then [[GL_DEPTH_ATTACHMENT; GL_STENCIL_ATTACHMENT]]
      else [].
Proof.
  unfold getDepthAttachment, getStencilAttachment.
  intros Hd Hs Hds Hss Hp Hst.
  assert (Hc : discardColor fb [] h = Some ([], [])).
  { unfold discardColor.
    destruct (AttachmentMap.find 0 (colorAttachments (renderTarget_ fb))) as [att|];
      [|reflexivity].
    destruct (texture att); [|reflexivity].
    rewrite (bind_gl_run _ _ h pass0 [] (vector_at_run _ pass0 _ Hp)).
    rewrite Hst. reflexivity. }
  exists ([Disable GL_STENCIL_TEST] ++
          (if InvalidateFramebufferFeature (deviceFeatures context)
           then [InvalidateFramebuffer GL_FRAMEBUFFER
                   [GL_DEPTH_ATTACHMENT; GL_STENCIL_ATTACHMENT]]
           else [])).
  split; [|split].
  - unfold unbind. rewrite (bind_gl_run _ _ h [] [] Hc).
    unfold discardDepth, discardStencil. rewrite Hd, Hs, Hds, Hss. simpl.
    unfold bind_gl, call, ret. simpl.
    destruct (InvalidateFramebufferFeature (deviceFeatures context)); reflexivity.
  - reflexivity.
  - destruct (InvalidateFramebufferFeature (deviceFeatures context)); reflexivity.
Qed.

Lemma unbind_invalidates_depth_and_stencil_witness :
  let fb := set_renderPass (set_renderTarget sampleNew depthStencilDesc)
              (samplePass Clear Store StoreDontCare) in
  getDepthAttachment fb = Some 40 /\
  getStencilAttachment fb = Some 41 /\
  depthStoreAction (passDepthAttachment (renderPass_ fb)) = StoreDontCare /\
  stencilStoreAction (passStencilAttachment (renderPass_ fb)) = StoreDontCare /\
  nth_error (passColorAttachments (renderPass_ fb)) 0 = Some (samplePassColor Clear Store) /\
  storeAction (samplePassColor Clear Store) = Store /\
  (exists e, unbind completeContext fb [] = Some (tt, e) /\
             invalidateCalls e = [[GL_DEPTH_ATTACHMENT; GL_STENCIL_ATTACHMENT]]) /\
  (exists e, unbind bareContext fb [] = Some (tt, e) /\ invalidateCalls e = []).
Proof.
  intros fb.
  assert (H1 : getDepthAttachment fb = Some 40) by reflexivity.
  assert (H2 : getStencilAttachment fb = Some 41) by reflexivity.
  assert (H3 : depthStoreAction (passDepthAttachment (renderPass_ fb)) = StoreDontCare)
    by reflexivity.
  assert (H4 : stencilStoreAction (passStencilAttachment (renderPass_ fb)) = StoreDontCare)
    by reflexivity.
  assert (H5 : nth_error (passColorAttachments (renderPass_ fb)) 0 =
               Some (samplePassColor Clear Store)) by reflexivity.
  assert (H6 : storeAction (samplePassColor Clear Store) = Store) by reflexivity.
  repeat (split; [assumption|]).
  split.
  - destruct (unbind_invalidates_depth_and_stencil completeContext fb
                (samplePassColor Clear Store) 40 41 [] H1 H2 H3 H4 H5 H6)
      as (e & Hu & _ & Hi).
    exists e. split; [exact Hu|exact Hi].
  - destruct (unbind_invalidates_depth_and_stencil bareContext fb
                (samplePassColor Clear Store) 40 41 [] H1 H2 H3 H4 H5 H6)
      as (e & Hu & _ & Hi).
    exists e. split; [exact Hu|exact Hi].
Defined.

(** ** Swapping the drawable *)

Lemma find_update {V : Type} (d : V) (k : Z) (f : V -> V) (m : list (Z * V)) :
  AttachmentMap.find k (AttachmentMap.update d k f m) =
    Some (f (match AttachmentMap.find k m with Some v => v | None => d end)).
Proof.
  induction m as [|[k' v] m IH]; simpl.
  - rewrite Z.eqb_refl. reflexivity.
  - destruct (Z.eqb_spec k k') as [E|E]; simpl.
    + subst k'. rewrite Z.eqb_refl. reflexivity.
    + destruct (Z.eqb_spec k k'); [contradiction|]. exact IH.
Qed.

Lemma erase_not_in {V : Type} (k : Z) (m : list (Z * V)) :
  ~ In k (map fst (AttachmentMap.erase k m)).
Proof.
  induction m as [|[k' v] m IH]; simpl; [tauto|].
  destruct (Z.eqb_spec k k') as [E|E]; [exact IH|].
  simpl. intros [H|H]; [congruence|exact (IH H)].
Qed.

Lemma find_not_in {V : Type} (k : Z) (m : list (Z * V)) :
  ~ In k (map fst m) -> AttachmentMap.find k m = None.
Proof.
  induction m as [|[k' v] m IH]; simpl; [reflexivity|].
  intros H. destruct (Z.eqb_spec k k') as [E|E].
  - exfalso. apply H. left. congruence.
  - apply IH. tauto.
Qed.

Lemma TexturePtr_eqb_eq (x y : TexturePtr) : TexturePtr_eqb x y = true <-> x = y.
Proof.
  destruct x as [x|], y as [y|]; simpl; split; intros H;
    try discriminate; try reflexivity.
  - apply Z.eqb_eq in H. congruence.
  - inversion H. apply Z.eqb_refl.
Qed.

(** C7.  After [updateDrawable(R)] with non-null [R], colour attachment 0
    is [R]; [updateDrawable(nullptr)] on a target with a colour attachment
    0 binds the framebuffer, detaches that texture and leaves no entry 0;
    [updateDrawable(R)] when [R] already is colour attachment 0 makes no
    call and leaves the object as it was. *)
Theorem updateDrawable_round_trip context fb h :
  (forall R, exists fb' e,
      updateDrawable context fb (Some R) h = Some ((fb', Some R), e) /\
      getColorAttachment fb' 0 = Some R) /\
  (forall R0, getColorAttachment fb 0 = Some R0 ->
      exists fb',
        updateDrawable context fb None h =
          Some ((fb', None),
                [BindFramebuffer GL_FRAMEBUFFER (frameBufferID_ fb);
                 TextureDetachAsColor R0 0]) /\
        ~ In 0 (getColorAttachmentIndices fb') /\
        getColorAttachment fb' 0 = None) /\
  (forall R, getColorAttachment fb 0 = Some R ->
      updateDrawable context fb (Some R) h = Some ((fb, Some R), [])).
Proof.
  split; [|split].
  - intros R. unfold updateDrawable.
    rewrite (bind_gl_run _ _ h fb []) by (destruct (getColorAttachment fb 0); reflexivity).
    destruct (TexturePtr_eqb (getColorAttachment fb 0) (Some R)) eqn:E; simpl negb; cbv iota.
    + exists fb, []. split; [reflexivity|]. apply TexturePtr_eqb_eq. exact E.
    + destruct (FramebufferBindingGuard_new_run context (h ++ [])) as (guard & Hg & _).
      destruct (attachAsColor_run context fb R 0 0 0
                  (((h ++ []) ++ []) ++ [BindFramebuffer GL_FRAMEBUFFER (frameBufferID_ fb)]))
        as (e2 & He2 & _).
      eexists. eexists. split.
      * erewrite bind_gl_Some; [reflexivity| |reflexivity].
        eapply bind_gl_Some; [exact Hg|].
        eapply bind_gl_Some; [reflexivity|].
        eapply bind_gl_Some; [exact He2|].
        eapply bind_gl_Some; [apply FramebufferBindingGuard_delete_run|reflexivity].
      * unfold getColorAttachment. simpl. rewrite find_update. reflexivity.
  - intros R0 H0. unfold updateDrawable. rewrite H0.
    eexists. split; [reflexivity|]. split.
    + unfold getColorAttachmentIndices. simpl. apply erase_not_in.
    + unfold getColorAttachment. simpl.
      rewrite (find_not_in 0 _ (erase_not_in 0 _)). reflexivity.
  - intros R H0. unfold updateDrawable.
    rewrite (bind_gl_run _ _ h fb [] eq_refl), H0.
    unfold TexturePtr_eqb. rewrite Z.eqb_refl. reflexivity.
Qed.

Lemma updateDrawable_round_trip_witness :
  let fb := set_renderTarget sampleNew depthStencilDesc in
  getColorAttachment fb 0 = Some 20 /\
  (exists fb',
      updateDrawable completeContext fb None [] =
        Some ((fb', None),
              [BindFramebuffer GL_FRAMEBUFFER 0; TextureDetachAsColor 20 0]) /\
      ~ In 0 (getColorAttachmentIndices fb')) /\
  updateDrawable completeContext fb (Some 20) [] = Some ((fb, Some 20), []).
Proof.
  intros fb.
  assert (H : getColorAttachment fb 0 = Some 20) by reflexivity.
  split; [exact H|].
  destruct (updateDrawable_round_trip completeContext fb []) as (_ & Hb & Hc).
  split.
  - destruct (Hb 20 H) as (fb' & Hu & Hn & _). exists fb'. split; [exact Hu|exact Hn].
  - exact (Hc 20 H).
Defined.

(** ** Completeness check *)

Lemma checkFramebufferStatus_run context h :
  exists result,
    checkFramebufferStatus context h = Some (result, []) /\
    (driverFramebufferStatus context h GL_FRAMEBUFFER = GL_FRAMEBUFFER_COMPLETE ->
     result = mkResult Ok "") /\
    (driverFramebufferStatus context h GL_FRAMEBUFFER <> GL_FRAMEBUFFER_COMPLETE ->
     code result = RuntimeError).
Proof.
  unfold checkFramebufferStatus, bind_gl, ask. simpl.
  set (status := driverFramebufferStatus context h GL_FRAMEBUFFER).
  destruct (Z.eqb_spec status GL_FRAMEBUFFER_COMPLETE) as [Hc|Hc].
  - eexists. split; [reflexivity|]. split; [reflexivity|]. intros; contradiction.
  - repeat match goal with
           | |- context [if ?x =? ?y then _ else _] => destruct (x =? y)
           end;
      eexists; (split; [reflexivity|]); (split; [intros; contradiction|reflexivity]).
Qed.

(** ** Pixel read-back *)

(** The pixel transfer expected for a texture format on a driver: the
    format and type arguments of the [readPixels] call, if one is made. *)
Definition transferFor (context : IContext) (tex : Texture) : list (GLenum * GLenum) :=
  if isRGBA_UInt32 (getFormat tex) then
    if TextureInteger (deviceFeatures context)
    then [(GL_RGBA_INTEGER, GL_UNSIGNED_INT)]
    else []
  else [(GL_RGBA, GL_UNSIGNED_BYTE)].

Lemma readPixelsFor_run context tex range h :
  exists e, readPixelsFor context tex range h = Some (tt, e) /\
            readPixelsCalls e = transferFor context tex.
Proof.
  unfold readPixelsFor, transferFor, IGL_ASSERT, call.
  destruct (isRGBA_UInt32 (getFormat tex));
    [destruct (TextureInteger (deviceFeatures context))|];
    eexists; split; reflexivity.
Qed.

(** C9 (as amended).  [copyBytesColorAttachment] at index 0 with a present
    attachment makes the integer transfer (GL_RGBA_INTEGER, GL_UNSIGNED_INT)
    exactly when the format is 32-bit unsigned integer RGBA and the driver
    supports integer textures, makes the 8-bit transfer (GL_RGBA,
    GL_UNSIGNED_BYTE) exactly when the format is any other one, and makes
    no transfer at all for a 32-bit unsigned integer RGBA attachment on a
    driver without integer textures. *)
Theorem copyBytesColorAttachment_transfer context id getAttachment range bytesPerRow
    itexture h :
  getAttachment 0 = Some itexture ->
  exists e,
    copyBytesColorAttachment context id getAttachment 0 range bytesPerRow h = Some (tt, e) /\
    readPixelsCalls e =
      if isRGBA_UInt32 (getFormat (textureObject context itexture)) then
        if TextureInteger (deviceFeatures context)
        then [(GL_RGBA_INTEGER, GL_UNSIGNED_INT)]
        else []
      else [(GL_RGBA, GL_UNSIGNED_BYTE)].
Proof.
  intros Ha. unfold copyBytesColorAttachment. simpl. rewrite Ha.
  set (tex := textureObject context itexture).
  destruct (FramebufferBindingGuard_new_run context h) as (guard & Hg & _).
  rewrite (bind_gl_run _ _ h guard [] Hg).
  set (setup := if 1 <? getNumLayers tex then _ else _).
  assert (Hsetup : exists extra e1, setup (h ++ []) = Some (extra, e1) /\
                                    readPixelsCalls e1 = []).
  { subst setup. destruct (1 <? getNumLayers tex).
    - unfold genFramebuffers, attachAsColorLayer.
      destruct (checkFramebufferStatus_run context
                  ((((h ++ []) ++ [] ++
                     [GenFramebuffers (driverNewFramebuffer context (h ++ []))] ++ []) ++
                    [BindFramebuffer GL_READ_FRAMEBUFFER
                       (driverNewFramebuffer context (h ++ []))]) ++
                   [FramebufferTextureLayer GL_READ_FRAMEBUFFER GL_COLOR_ATTACHMENT0
                      (getId (textureObject context itexture)) 0
                      (to_uint32 (range_layer range))]))
        as (res & Hres & _).
      eexists. eexists. split.
      + eapply bind_gl_Some; [reflexivity|].
        eapply bind_gl_Some; [reflexivity|].
        eapply bind_gl_Some; [reflexivity|].
        eapply bind_gl_Some; [exact Hres|reflexivity].
      + reflexivity.
    - unfold bindBufferForRead, bindBuffer.
      destruct (ReadWriteFramebuffer (deviceFeatures context));
        eexists; eexists; split; reflexivity. }
  destruct Hsetup as (extra & e1 & Hs1 & Hr1).
  rewrite (bind_gl_run _ _ (h ++ []) extra e1 Hs1).
  rewrite (bind_gl_run _ _ _ tt _ eq_refl).
  rewrite (bind_gl_run _ _ _ tt [Flush] eq_refl).
  match goal with
  | |- context [bind_gl (readPixelsFor context tex range) _ ?hh] =>
      destruct (readPixelsFor_run context tex range hh) as (e2 & He2 & Hr2);
      rewrite (bind_gl_run _ _ hh tt e2 He2)
  end.
  set (cleanup := if 1 <? getNumLayers tex then _ else ret tt).
  match goal with
  | |- context [bind_gl cleanup _ ?hh] =>
      assert (Hcl : exists e3, cleanup hh = Some (tt, e3) /\ readPixelsCalls e3 = [])
  end.
  { subst cleanup. destruct (1 <? getNumLayers tex); [|exists []; split; reflexivity].
    unfold attachAsColorLayer.
    match goal with
    | |- context [bind_gl (call ?c) _ ?hh] =>
        destruct (checkFramebufferStatus_run context (hh ++ [c])) as (res & Hres & _);
        rewrite (bind_gl_run _ _ hh tt [c] eq_refl)
    end.
    rewrite (bind_gl_run _ _ _ res [] Hres).
    destruct (0 <? extra); eexists; split; reflexivity. }
  destruct Hcl as (e3 & He3 & Hr3).
  match goal with
  | |- context [bind_gl cleanup _ ?hh] => rewrite (bind_gl_run _ _ hh tt e3 He3)
  end.
  rewrite FramebufferBindingGuard_delete_run.
  eexists. split; [reflexivity|].
  unfold readPixelsCalls in *. rewrite !flat_map_app, Hr1, Hr2, Hr3.
  fold tex. unfold transferFor.
  destruct (ReadWriteFramebuffer (deviceFeatures context)); simpl; rewrite ?app_nil_r;
    reflexivity.
Qed.

Lemma copyBytesColorAttachment_transfer_witness :
  (fun _ : Z => Some 1) 0 = Some 1 /\
  (exists e,
      copyBytesColorAttachment completeContext 3 (fun _ => Some 1) 0
        (mkRange 0 0 4 4 0 0) 0 [] = Some (tt, e) /\
      readPixelsCalls e = [(GL_RGBA_INTEGER, GL_UNSIGNED_INT)]).
Proof.
  split; [reflexivity|].
  exact (copyBytesColorAttachment_transfer completeContext 3 (fun _ => Some 1)
           (mkRange 0 0 4 4 0 0) 0 1 [] eq_refl).
Defined.

(** C9, counterexample.  A 32-bit unsigned integer RGBA attachment read
    back on a driver without integer textures: no [readPixels] call is
    made, so the 8-bit transfer is not used. *)
Lemma copyBytesColorAttachment_no_fallback_counterexample :
  getFormat (textureObject bareContext 1) = RGBA_UInt32 /\
  TextureInteger (deviceFeatures bareContext) = false /\
  copyBytesColorAttachment bareContext 3 (fun _ => Some 1) 0 (mkRange 0 0 4 4 0 0) 0 [] =
    Some (tt, [BindFramebuffer GL_FRAMEBUFFER 3;
               PixelStorei GL_PACK_ALIGNMENT 8;
               Flush;
               AssertionReport "IGL_ASSERT_NOT_IMPLEMENTED";
               BindFramebuffer GL_FRAMEBUFFER 5;
               BindRenderbuffer GL_RENDERBUFFER 7]) /\
  readPixelsCalls [BindFramebuffer GL_FRAMEBUFFER 3;
                   PixelStorei GL_PACK_ALIGNMENT 8;
                   Flush;
                   AssertionReport "IGL_ASSERT_NOT_IMPLEMENTED";
                   BindFramebuffer GL_FRAMEBUFFER 5;
                   BindRenderbuffer GL_RENDERBUFFER 7] = [].
Proof. repeat split. Qed.

(** ** Initialisation *)

(** The indices of the colour attachments that hold a texture, in the
    iteration order of the map. *)
Definition presentIndices (atts : list (Z * AttachmentDesc)) : list Z :=
  flat_map (fun ia => match texture (snd ia) with Some _ => [fst ia] | None => [] end) atts.

Definition drawBufferOf (index : Z) : GLenum := to_uint32 (GL_COLOR_ATTACHMENT0 + index).

(** The draw-buffer declaration made for a set of colour attachments. *)
Definition declaredDrawBuffers (atts : list (Z * AttachmentDesc)) : list (list GLenum) :=
  let bufs := std_sort (map drawBufferOf (presentIndices atts)) in
  if 1 <? Z.of_nat (List.length bufs) then [bufs] else [].

Lemma attachColors_run context fb atts :
  forall drawBuffers h, exists e,
    attachColors context fb atts drawBuffers h =
      Some (drawBuffers ++ map drawBufferOf (presentIndices atts), e) /\
    forallb isQuiet e = true.
Proof.
  induction atts as [|[index colorAttachment] rest IH]; intros drawBuffers h.
  - exists []. simpl. rewrite app_nil_r. split; reflexivity.
  - cbn [attachColors presentIndices flat_map fst snd].
    destruct (texture colorAttachment) as [t|].
    + destruct (attachAsColor_run context fb t (to_uint32 index) 0 0 h) as (e1 & He1 & Hq1).
      destruct (IH (drawBuffers ++ [to_uint32 (GL_COLOR_ATTACHMENT0 + index)]) (h ++ e1))
        as (e2 & He2 & Hq2).
      exists (e1 ++ e2). split.
      * rewrite (bind_gl_run _ _ h tt e1 He1), He2, <- app_assoc. reflexivity.
      * rewrite forallb_app, Hq1, Hq2. reflexivity.
    + apply IH.
Qed.

Section InitializeFacts.

Variable defaultMode : FramebufferMode.
Variable defaultRenderPass : RenderPassDesc.
Variable context : IContext.

Lemma createAndAttach_run fb0 h :
  exists e,
    createAndAttach context fb0 h =
      Some (set_frameBufferID fb0 (driverNewFramebuffer context h), e) /\
    drawBuffersCalls e = declaredDrawBuffers (colorAttachments (renderTarget_ fb0)).
Proof.
  unfold createAndAttach, genFramebuffers, bindBuffer.
  set (name := driverNewFramebuffer context h).
  set (fb := set_frameBufferID fb0 name).
  assert (H1 : (name <- ask (driverNewFramebuffer context);;
                call (GenFramebuffers name);; ret name) h =
               Some (name, [GenFramebuffers name])) by reflexivity.
  rewrite (bind_gl_run _ _ h name _ H1). fold fb.
  rewrite (bind_gl_run _ _ _ tt [BindFramebuffer GL_FRAMEBUFFER (frameBufferID_ fb)] eq_refl).
  match goal with
  | |- context [bind_gl (attachColors context fb ?a []) _ ?hh] =>
      destruct (attachColors_run context fb a [] hh) as (e1 & He1 & Hq1);
      rewrite (bind_gl_run _ _ hh _ e1 He1)
  end.
  simpl app. simpl renderTarget_.
  set (bufs := std_sort (map drawBufferOf (presentIndices (colorAttachments (renderTarget_ fb0))))).
  set (declare := if 1 <? Z.of_nat (List.length bufs) then call (DrawBuffers bufs) else ret tt).
  assert (Hd : forall hh, declare hh =
                 Some (tt, if 1 <? Z.of_nat (List.length bufs) then [DrawBuffers bufs] else []))
    by (intros hh; subst declare; destruct (1 <? Z.of_nat (List.length bufs)); reflexivity).
  rewrite (bind_gl_run _ _ _ tt _ (Hd _)).
  set (depth := match texture (depthAttachment (renderTarget_ fb0)) with
                | Some t => attachAsDepth context fb t | None => ret tt end).
  assert (Hdepth : forall hh, exists e, depth hh = Some (tt, e) /\ forallb isQuiet e = true).
  { intros hh. subst depth. destruct (texture (depthAttachment (renderTarget_ fb0))).
    - apply attachAsDepthOrStencil_run. reflexivity.
    - exists []. split; reflexivity. }
  set (stencil := match texture (stencilAttachment (renderTarget_ fb0)) with
                  | Some t => attachAsStencil context fb t | None => ret tt end).
  assert (Hstencil : forall hh, exists e, stencil hh = Some (tt, e) /\ forallb isQuiet e = true).
  { intros hh. subst stencil. destruct (texture (stencilAttachment (renderTarget_ fb0))).
    - apply attachAsDepthOrStencil_run. reflexivity.
    - exists []. split; reflexivity. }
  match goal with
  | |- context [bind_gl depth _ ?hh] =>
      destruct (Hdepth hh) as (e2 & He2 & Hq2); rewrite (bind_gl_run _ _ hh tt e2 He2)
  end.
  match goal with
  | |- context [bind_gl stencil _ ?hh] =>
      destruct (Hstencil hh) as (e3 & He3 & Hq3); rewrite (bind_gl_run _ _ hh tt e3 He3)
  end.
  eexists. split; [reflexivity|].
  unfold drawBuffersCalls. cbn [flat_map app]. rewrite !flat_map_app.
  fold (drawBuffersCalls e1) (drawBuffersCalls e2) (drawBuffersCalls e3).
  rewrite (quiet_drawBuffersCalls e1 Hq1), (quiet_drawBuffersCalls e2 Hq2),
    (quiet_drawBuffersCalls e3 Hq3).
  unfold declaredDrawBuffers. fold bufs.
  destruct (1 <? Z.of_nat (List.length bufs)); reflexivity.
Qed.

(** The calls of the guard's destructor. *)
Definition restoreCalls (guard : FramebufferBindingGuard) : list Call :=
  (if ReadWriteFramebuffer (deviceFeatures context)
   then [BindFramebuffer GL_READ_FRAMEBUFFER (currentReadFramebuffer_ guard);
         BindFramebuffer GL_DRAW_FRAMEBUFFER (currentDrawFramebuffer_ guard)]
   else [BindFramebuffer GL_FRAMEBUFFER (currentFramebuffer_ guard)]) ++
  [BindRenderbuffer GL_RENDERBUFFER (currentRenderbuffer_ guard)].

Definition alreadyInitialized : Result :=
  mkResult RuntimeError "Framebuffer already initialized.".

Definition resolveOnAllOrNone : Result :=
  mkResult ArgumentInvalid
    "If resolve texture is specified on a color attachment it must be specified on all of them".

(** [prepareResource] after its first half and the completeness check. *)
Definition prepareResource_rest
    (rec : CustomFramebuffer -> FramebufferDesc -> ResultPtr ->
           GL (CustomFramebuffer * ResultPtr))
    (fb : CustomFramebuffer) (outResult : ResultPtr) (result : Result)
    (h eA : list Call) : option (CustomFramebuffer * ResultPtr * list Call) :=
  let d := renderTarget_ fb in
  let rc := collectResolve (colorAttachments d) [] false in
  if negb (isOk result) then
    Some ((fb, assignResult outResult result), eA ++ [AssertionReport (message result)])
  else if snd rc && negb (Nat.eqb (List.length (fst rc)) (List.length (colorAttachments d)))
  then Some ((fb, assignResult outResult resolveOnAllOrNone),
             eA ++ [AssertionReport "IGL_ASSERT_NOT_REACHED"])
  else if snd rc || isSome (resolveTexture (depthAttachment d))
                 || isSome (resolveTexture (stencilAttachment d))
  then
    match rec (CustomFramebuffer_new defaultMode defaultRenderPass)
            (mkDesc (fst rc) (mkAttachment (resolveTexture (depthAttachment d)) None)
               (mkAttachment (resolveTexture (stencilAttachment d)) None) defaultMode)
            (Some result) (h ++ eA) with
    | Some (nested, eN) =>
        Some ((set_resolveFramebuffer fb (Some (fst nested)),
               assignResult outResult
                 (match snd nested with Some x => x | None => result end)),
              eA ++ eN)
    | None => None
    end
  else Some ((fb, assignResult outResult result), eA).

Lemma prepareResource_with_run rec fb0 outResult h :
  exists eA result,
    createAndAttach context fb0 h =
      Some (set_frameBufferID fb0 (driverNewFramebuffer context h), eA) /\
    drawBuffersCalls eA = declaredDrawBuffers (colorAttachments (renderTarget_ fb0)) /\
    checkFramebufferStatus context (h ++ eA) = Some (result, []) /\
    prepareResource_with defaultMode defaultRenderPass rec context fb0 outResult h =
      prepareResource_rest rec (set_frameBufferID fb0 (driverNewFramebuffer context h))
        outResult result h eA.
Proof.
  destruct (createAndAttach_run fb0 h) as (eA & HA & HD).
  destruct (checkFramebufferStatus_run context (h ++ eA)) as (result & Hres & _).
  exists eA, result. repeat (split; [assumption|]).
  unfold prepareResource_with, prepareResource_rest.
  set (fb := set_frameBufferID fb0 (driverNewFramebuffer context h)) in *.
  rewrite (bind_gl_run _ _ h fb eA HA).
  rewrite (bind_gl_run _ _ _ result [] Hres).
  change (renderTarget_ fb) with (renderTarget_ fb0).
  cbv zeta.
  unfold IGL_ASSERT.
  destruct (isOk result) eqn:Hok; cbn [negb].
  - rewrite (bind_gl_run _ _ _ tt [] eq_refl). rewrite !app_nil_r.
    destruct (collectResolve (colorAttachments (renderTarget_ fb0)) [] false) as [rc cr].
    cbn [fst snd].
    destruct (cr && negb (Nat.eqb (List.length rc)
                            (List.length (colorAttachments (renderTarget_ fb0))))).
    + rewrite (bind_gl_run _ _ _ tt [AssertionReport "IGL_ASSERT_NOT_REACHED"] eq_refl).
      unfold ret, resolveOnAllOrNone, setResult, assignResult.
      destruct outResult; reflexivity.
    + replace (match resolveTexture (stencilAttachment (renderTarget_ fb0)) with
               | Some _ => true
               | None => match resolveTexture (depthAttachment (renderTarget_ fb0)) with
                         | Some _ => true
                         | None => cr
                         end
               end)
        with (cr || isSome (resolveTexture (depthAttachment (renderTarget_ fb0)))
                 || isSome (resolveTexture (stencilAttachment (renderTarget_ fb0))))
        by (destruct cr, (resolveTexture (depthAttachment (renderTarget_ fb0))),
              (resolveTexture (stencilAttachment (renderTarget_ fb0))); reflexivity).
      destruct (cr || isSome (resolveTexture (depthAttachment (renderTarget_ fb0)))
                   || isSome (resolveTexture (stencilAttachment (renderTarget_ fb0)))).
      * unfold bind_gl at 1.
        destruct (rec _ _ _ (h ++ eA)) as [[nested eN]|]; [|reflexivity].
        unfold ret. rewrite app_nil_r. cbn [app]. destruct outResult; reflexivity.
      * unfold ret. rewrite app_nil_r. reflexivity.
  - rewrite (bind_gl_run _ _ _ tt [AssertionReport (message result)] eq_refl).
    unfold ret. simpl. reflexivity.
Qed.

Lemma initialize_with_already rec fb desc outResult h :
  isInitialized fb = true ->
  initialize_with defaultMode defaultRenderPass rec context fb desc outResult h =
    Some ((fb, setResult outResult RuntimeError "Framebuffer already initialized."),
          [AssertionReport "IGL_UNEXPECTED"]).
Proof. intros H. unfold initialize_with. rewrite H. reflexivity. Qed.

Lemma initialize_with_run rec fb desc outResult h :
  isInitialized fb = false ->
  exists guard,
    FramebufferBindingGuard_new context h = Some (guard, []) /\
    initialize_with defaultMode defaultRenderPass rec context fb desc outResult h =
      if hasImplicitColorAttachment context (set_renderTarget (set_initialized fb true) desc)
      then Some ((set_renderTarget (set_initialized fb true) desc, setOk outResult),
                 restoreCalls guard)
      else
        match prepareResource_with defaultMode defaultRenderPass rec context
                (set_renderTarget (set_initialized fb true) desc) outResult h with
        | Some (out, e) => Some (out, e ++ restoreCalls guard)
        | None => None
        end.
Proof.
  intros H. unfold initialize_with. rewrite H.
  destruct (FramebufferBindingGuard_new_run context h) as (guard & Hg & _).
  exists guard. split; [exact Hg|].
  rewrite (bind_gl_run _ _ h guard [] Hg). rewrite app_nil_r.
  set (fb1 := set_renderTarget (set_initialized fb true) desc).
  destruct (hasImplicitColorAttachment context fb1).
  - rewrite (bind_gl_run _ _ h _ [] eq_refl).
    rewrite (bind_gl_run _ _ _ tt _ (FramebufferBindingGuard_delete_run _ _ _)).
    fold (restoreCalls guard). unfold ret. rewrite app_nil_r. reflexivity.
  - unfold bind_gl at 1.
    destruct (prepareResource_with defaultMode defaultRenderPass rec context fb1 outResult h)
      as [[out e]|]; [|reflexivity].
    rewrite (bind_gl_run _ _ _ tt _ (FramebufferBindingGuard_delete_run _ _ _)).
    fold (restoreCalls guard). unfold ret. rewrite app_nil_r. reflexivity.
Qed.

(** *** The resolve descriptor *)

Definition declaresResolve (ia : Z * AttachmentDesc) : bool :=
  isSome (resolveTexture (snd ia)).

(** A descriptor that names no resolve texture at all. *)
Definition noResolve (d : FramebufferDesc) : Prop :=
  Forall (fun ia => resolveTexture (snd ia) = None) (colorAttachments d) /\
  resolveTexture (depthAttachment d) = None /\
  resolveTexture (stencilAttachment d) = None.

Lemma collectResolve_none atts :
  Forall (fun ia : Z * AttachmentDesc => resolveTexture (snd ia) = None) atts ->
  forall acc c, collectResolve atts acc c = (acc, c).
Proof.
  induction 1 as [|[index att] rest Hhd _ IH]; intros acc c; simpl; [reflexivity|].
  simpl in Hhd. rewrite Hhd. apply IH.
Qed.

Lemma emplace_entries (index : Z) (v : AttachmentDesc) acc :
  resolveTexture v = None ->
  Forall (fun ia : Z * AttachmentDesc => resolveTexture (snd ia) = None) acc ->
  Forall (fun ia : Z * AttachmentDesc => resolveTexture (snd ia) = None)
    (AttachmentMap.emplace index v acc).
Proof.
  intros Hv Hacc. unfold AttachmentMap.emplace.
  destruct (AttachmentMap.find index acc); [exact Hacc|].
  apply Forall_app. split; [exact Hacc|]. constructor; [exact Hv|constructor].
Qed.

Lemma collectResolve_entries atts :
  forall acc c,
    Forall (fun ia : Z * AttachmentDesc => resolveTexture (snd ia) = None) acc ->
    Forall (fun ia : Z * AttachmentDesc => resolveTexture (snd ia) = None)
      (fst (collectResolve atts acc c)).
Proof.
  induction atts as [|[index att] rest IH]; intros acc c Hacc; simpl; [exact Hacc|].
  destruct (resolveTexture att); [|apply IH; exact Hacc].
  apply IH. apply emplace_entries; [reflexivity|exact Hacc].
Qed.

Lemma resolve_descriptor_noResolve atts (depth stencil : TexturePtr) :
  noResolve (mkDesc (fst (collectResolve atts [] false)) (mkAttachment depth None)
               (mkAttachment stencil None) defaultMode).
Proof.
  split; [|split; reflexivity]. simpl. apply collectResolve_entries. constructor.
Qed.

(** On a descriptor without resolve textures [prepareResource] makes no
    nested call. *)
Lemma prepareResource_rest_noResolve rec fb outResult result h eA :
  noResolve (renderTarget_ fb) ->
  prepareResource_rest rec fb outResult result h eA =
    if negb (isOk result)
    then Some ((fb, assignResult outResult result), eA ++ [AssertionReport (message result)])
    else Some ((fb, assignResult outResult result), eA).
Proof.
  intros (Hc & Hd & Hs). unfold prepareResource_rest.
  rewrite (collectResolve_none _ Hc), Hd, Hs. simpl.
  destruct (negb (isOk result)); reflexivity.
Qed.

Lemma prepareResource_with_noResolve rec1 rec2 fb0 outResult h :
  noResolve (renderTarget_ fb0) ->
  prepareResource_with defaultMode defaultRenderPass rec1 context fb0 outResult h =
  prepareResource_with defaultMode defaultRenderPass rec2 context fb0 outResult h.
Proof.
  intros Hn.
  destruct (prepareResource_with_run rec1 fb0 outResult h) as (eA & r1 & HA & _ & Hr & H1).
  destruct (prepareResource_with_run rec2 fb0 outResult h) as (eA' & r2 & HA' & _ & Hr' & H2).
  rewrite HA in HA'. inversion HA'; subst eA'.
  rewrite Hr in Hr'. inversion Hr'; subst r2.
  rewrite H1, H2, !prepareResource_rest_noResolve; auto.
Qed.

Lemma initialize_with_cases rec fb desc outResult h :
  initialize_with defaultMode defaultRenderPass rec context fb desc outResult h =
    if isInitialized fb then
      Some ((fb, setResult outResult RuntimeError "Framebuffer already initialized."),
            [AssertionReport "IGL_UNEXPECTED"])
    else
      match FramebufferBindingGuard_new context h with
      | Some (guard, _) =>
          if hasImplicitColorAttachment context
               (set_renderTarget (set_initialized fb true) desc)
          then Some ((set_renderTarget (set_initialized fb true) desc, setOk outResult),
                     restoreCalls guard)
          else
            match prepareResource_with defaultMode defaultRenderPass rec context
                    (set_renderTarget (set_initialized fb true) desc) outResult h with
            | Some (out, e) => Some (out, e ++ restoreCalls guard)
            | None => None
            end
      | None => None
      end.
Proof.
  destruct (isInitialized fb) eqn:Hi.
  - apply initialize_with_already. exact Hi.
  - destruct (initialize_with_run rec fb desc outResult h Hi) as (guard & Hg & Hrun).
    rewrite Hg. exact Hrun.
Qed.

Lemma initialize_with_noResolve rec1 rec2 fb desc outResult h :
  noResolve desc ->
  initialize_with defaultMode defaultRenderPass rec1 context fb desc outResult h =
  initialize_with defaultMode defaultRenderPass rec2 context fb desc outResult h.
Proof.
  intros Hn. rewrite !initialize_with_cases.
  rewrite (prepareResource_with_noResolve rec1 rec2); [reflexivity|exact Hn].
Qed.

Lemma prepareResource_with_ext rec1 rec2 fb0 outResult h :
  (forall fb d out h', noResolve d -> rec1 fb d out h' = rec2 fb d out h') ->
  prepareResource_with defaultMode defaultRenderPass rec1 context fb0 outResult h =
  prepareResource_with defaultMode defaultRenderPass rec2 context fb0 outResult h.
Proof.
  intros Hext.
  destruct (prepareResource_with_run rec1 fb0 outResult h) as (eA & r1 & HA & _ & Hr & H1).
  destruct (prepareResource_with_run rec2 fb0 outResult h) as (eA' & r2 & HA' & _ & Hr' & H2).
  rewrite HA in HA'. inversion HA'; subst eA'.
  rewrite Hr in Hr'. inversion Hr'; subst r2.
  rewrite H1, H2. unfold prepareResource_rest.
  rewrite Hext; [reflexivity|]. apply resolve_descriptor_noResolve.
Qed.

(** The recursive equation of the source: [initialize] calls
    [prepareResource], which calls [initialize] on the nested framebuffer. *)
Lemma initialize_unfold fb desc outResult h :
  initialize defaultMode defaultRenderPass context fb desc outResult h =
  initialize_with defaultMode defaultRenderPass
    (initialize defaultMode defaultRenderPass context) context fb desc outResult h.
Proof.
  unfold initialize at 1. rewrite !initialize_with_cases.
  rewrite (prepareResource_with_ext (initialize_leaf defaultMode defaultRenderPass context)
             (initialize defaultMode defaultRenderPass context)); [reflexivity|].
  intros fb' d out h' Hn. unfold initialize, initialize_leaf.
  apply initialize_with_noResolve. exact Hn.
Qed.

(** *** [initialize] always returns, and always leaves the flag set *)

Lemma prepareResource_rest_total rec fb outResult result h eA :
  (forall fb' d out h', exists res, rec fb' d out h' = Some res) ->
  exists res, prepareResource_rest rec fb outResult result h eA = Some res.
Proof.
  intros Hrec. unfold prepareResource_rest.
  repeat match goal with
         | |- context [if ?c then _ else _] => destruct c
         end; try (eexists; reflexivity).
  match goal with
  | |- context [rec ?a ?b ?c ?d] => destruct (Hrec a b c d) as ([nested eN] & Hn); rewrite Hn
  end.
  eexists; reflexivity.
Qed.

Lemma initialize_with_total rec fb desc outResult h :
  (forall fb' d out h', exists res, rec fb' d out h' = Some res) ->
  exists res,
    initialize_with defaultMode defaultRenderPass rec context fb desc outResult h = Some res.
Proof.
  intros Hrec. rewrite initialize_with_cases.
  destruct (isInitialized fb); [eexists; reflexivity|].
  destruct (FramebufferBindingGuard_new_run context h) as (guard & Hg & _). rewrite Hg.
  destruct (hasImplicitColorAttachment context _); [eexists; reflexivity|].
  destruct (prepareResource_with_run rec (set_renderTarget (set_initialized fb true) desc)
              outResult h) as (eA & result & _ & _ & _ & Hp).
  rewrite Hp.
  destruct (prepareResource_rest_total rec
              (set_frameBufferID (set_renderTarget (set_initialized fb true) desc)
                 (driverNewFramebuffer context h)) outResult result h eA Hrec)
    as ([out e] & Hr).
  rewrite Hr. eexists; reflexivity.
Qed.

Lemma initialize_leaf_total fb desc outResult h :
  exists res, initialize_leaf defaultMode defaultRenderPass context fb desc outResult h = Some res.
Proof.
  apply initialize_with_total. intros. eexists; reflexivity.
Qed.

Lemma initialize_total fb desc outResult h :
  exists fb' out e,
    initialize defaultMode defaultRenderPass context fb desc outResult h = Some ((fb', out), e).
Proof.
  destruct (initialize_with_total (initialize_leaf defaultMode defaultRenderPass context)
              fb desc outResult h) as ([[fb' out] e] & H).
  - intros. apply initialize_leaf_total.
  - exists fb', out, e. exact H.
Qed.

Lemma prepareResource_rest_initialized rec fb outResult result h eA fb' out e :
  prepareResource_rest rec fb outResult result h eA = Some ((fb', out), e) ->
  initialized_ fb' = initialized_ fb.
Proof.
  unfold prepareResource_rest.
  repeat match goal with
         | |- context [if ?c then _ else _] => destruct c
         end;
    try (intros H; inversion H; reflexivity).
  destruct (rec _ _ _ _) as [[nested eN]|]; [|discriminate].
  intros H; inversion H; reflexivity.
Qed.

Lemma initialize_with_initialized rec fb desc outResult h fb' out e :
  initialize_with defaultMode defaultRenderPass rec context fb desc outResult h =
    Some ((fb', out), e) ->
  isInitialized fb' = true.
Proof.
  rewrite initialize_with_cases.
  destruct (isInitialized fb) eqn:Hi.
  - intros H; inversion H; subst. exact Hi.
  - destruct (FramebufferBindingGuard_new context h) as [[guard eg]|]; [|discriminate].
    destruct (hasImplicitColorAttachment context _).
    + intros H; inversion H; reflexivity.
    + destruct (prepareResource_with_run rec (set_renderTarget (set_initialized fb true) desc)
                  outResult h) as (eA & result & _ & _ & _ & Hp).
      rewrite Hp.
      destruct (prepareResource_rest _ _ _ _ _ _) as [[[fbr outr] er]|] eqn:Hr; [|discriminate].
      intros H; inversion H; subst.
      apply prepareResource_rest_initialized in Hr. exact Hr.
Qed.

(** C2 (as amended).  Once [initialize] has been called on an object, a
    further call fails with code [RuntimeError] and message "Framebuffer
    already initialized.", makes no call on the driver (it only reports the
    unexpected condition) and returns the object unchanged. *)
Theorem initialize_twice_fails fb0 desc1 out1 h1 fb1 r1 e1 desc2 out2 h2 :
  initialize defaultMode defaultRenderPass context fb0 desc1 out1 h1 = Some ((fb1, r1), e1) ->
  initialize defaultMode defaultRenderPass context fb1 desc2 (Some out2) h2 =
    Some ((fb1, Some (mkResult RuntimeError "Framebuffer already initialized.")),
          [AssertionReport "IGL_UNEXPECTED"]).
Proof.
  intros H1. apply initialize_with_initialized in H1.
  unfold initialize. rewrite (initialize_with_already _ _ _ _ _ H1). reflexivity.
Qed.

End InitializeFacts.

(** *** Operations on an initialised object *)

Inductive Operation : Type :=
| DoInitialize (desc : FramebufferDesc) (outResult : ResultPtr)
| DoBind (renderPass : RenderPassDesc)
| DoUnbind
| DoUpdateDrawable (tex : TexturePtr).

Section Lifecycle.

Variable defaultMode : FramebufferMode.
Variable defaultRenderPass : RenderPassDesc.
Variable context : IContext.

Definition perform (fb : CustomFramebuffer) (op : Operation) : GL CustomFramebuffer :=
  match op with
  | DoInitialize desc outResult =>
      res <- initialize defaultMode defaultRenderPass context fb desc outResult ;;
      ret (fst res)
  | DoBind renderPass => bind context fb renderPass
  | DoUnbind => unbind context fb ;; ret fb
  | DoUpdateDrawable tex =>
      res <- updateDrawable context fb tex ;;
      ret (fst res)
  end.

Fixpoint performAll (fb : CustomFramebuffer) (ops : list Operation) : GL CustomFramebuffer :=
  match ops with
  | [] => ret fb
  | op :: rest => fb' <- perform fb op ;; performAll fb' rest
  end.

Lemma bind_keeps_initialized fb renderPass h fb' e :
  bind context fb renderPass h = Some (fb', e) -> initialized_ fb' = initialized_ fb.
Proof.
  unfold bind. intros H.
  repeat (let x := fresh "x" in
          let ea := fresh "ea" in
          let eb := fresh "eb" in
          let Ha := fresh "Ha" in
          apply bind_gl_inv in H; destruct H as (x & ea & eb & Ha & H & ?)).
  inversion H. reflexivity.
Qed.

Lemma updateDrawable_keeps_initialized fb tex h fb' t e :
  updateDrawable context fb tex h = Some ((fb', t), e) -> initialized_ fb' = initialized_ fb.
Proof.
  unfold updateDrawable. intros H.
  apply bind_gl_inv in H. destruct H as (fb1 & ea & eb & H1 & H & _).
  apply bind_gl_inv in H. destruct H as (fb2 & ec & ed & H2 & H & _).
  inversion H; subst fb' t.
  assert (I1 : initialized_ fb1 = initialized_ fb).
  { destruct tex as [t'|], (getColorAttachment fb 0) as [cur|];
      inversion H1; reflexivity. }
  rewrite <- I1.
  destruct tex as [t'|]; [|inversion H2; reflexivity].
  destruct (negb (TexturePtr_eqb (getColorAttachment fb1 0) (Some t')));
    [|inversion H2; reflexivity].
  repeat (let x := fresh "x" in
          apply bind_gl_inv in H2; destruct H2 as (x & ? & ? & _ & H2 & _)).
  inversion H2. reflexivity.
Qed.

Lemma perform_keeps_initialized fb op h fb' e :
  perform fb op h = Some (fb', e) -> isInitialized fb = true -> isInitialized fb' = true.
Proof.
  destruct op as [desc out|renderPass| |tex]; simpl; intros H Hi.
  - apply bind_gl_inv in H. destruct H as ([fbx outx] & ea & eb & Ha & Hb & _).
    inversion Hb; subst. simpl.
    exact (initialize_with_initialized defaultMode defaultRenderPass context _ _ _ _ _ _ _ _ Ha).
  - unfold isInitialized in *. rewrite (bind_keeps_initialized _ _ _ _ _ H). exact Hi.
  - apply bind_gl_inv in H. destruct H as (? & ? & ? & _ & Hb & _).
    inversion Hb; subst. exact Hi.
  - apply bind_gl_inv in H. destruct H as ([fbx tx] & ea & eb & Ha & Hb & _).
    inversion Hb; subst. simpl. unfold isInitialized in *.
    rewrite (updateDrawable_keeps_initialized _ _ _ _ _ _ Ha). exact Hi.
Qed.

Lemma performAll_keeps_initialized ops :
  forall fb h fb' e,
    performAll fb ops h = Some (fb', e) -> isInitialized fb = true ->
    isInitialized fb' = true.
Proof.
  induction ops as [|op rest IH]; intros fb h fb' e H Hi; simpl in H.
  - inversion H; subst. exact Hi.
  - apply bind_gl_inv in H. destruct H as (fb1 & ea & eb & Ha & Hb & _).
    apply (IH _ _ _ _ Hb). exact (perform_keeps_initialized _ _ _ _ _ Ha Hi).
Qed.

(** C10.  Whatever [initialize] returns, failure included, the object it
    leaves behind is initialised; it stays so through every later
    [initialize], [bind], [unbind] and [updateDrawable]; and every later
    [initialize] fails with the already-initialised error and changes
    nothing.  A failed [initialize] cannot be retried. *)
Theorem failed_initialize_is_final fb0 desc outResult h fb1 r1 e1 :
  initialize defaultMode defaultRenderPass context fb0 desc outResult h =
    Some ((fb1, r1), e1) ->
  isInitialized fb1 = true /\
  forall ops h' fb2 e2,
    performAll fb1 ops h' = Some (fb2, e2) ->
    isInitialized fb2 = true /\
    forall desc2 out2 h2,
      initialize defaultMode defaultRenderPass context fb2 desc2 (Some out2) h2 =
        Some ((fb2, Some (mkResult RuntimeError "Framebuffer already initialized.")),
              [AssertionReport "IGL_UNEXPECTED"]).
Proof.
  intros H.
  assert (Hi : isInitialized fb1 = true)
    by exact (initialize_with_initialized defaultMode defaultRenderPass context
                _ _ _ _ _ _ _ _ H).
  split; [exact Hi|].
  intros ops h' fb2 e2 Hops.
  assert (Hi2 : isInitialized fb2 = true)
    by exact (performAll_keeps_initialized ops _ _ _ _ Hops Hi).
  split; [exact Hi2|].
  intros desc2 out2 h2. unfold initialize.
  rewrite (initialize_with_already defaultMode defaultRenderPass context _ _ _ _ _ Hi2).
  reflexivity.
Qed.

End Lifecycle.

(** *** Resolve textures on some, all or none of the colour attachments *)

Definition partialResolve (atts : list (Z * AttachmentDesc)) : bool :=
  existsb declaresResolve atts && negb (forallb declaresResolve atts).

Definition resolvePart (atts : list (Z * AttachmentDesc)) : list (Z * AttachmentDesc) :=
  map (fun ia => (fst ia, mkAttachment (resolveTexture (snd ia)) None))
    (filter declaresResolve atts).

Lemma collectResolve_spec atts :
  forall acc c,
    NoDup (map fst acc ++ map fst atts) ->
    collectResolve atts acc c =
      (acc ++ resolvePart atts, c || existsb declaresResolve atts).
Proof.
  induction atts as [|[index att] rest IH]; intros acc c Hnd.
  - simpl. unfold resolvePart. simpl. rewrite app_nil_r, orb_false_r. reflexivity.
  - simpl in Hnd. unfold resolvePart, declaresResolve. simpl.
    destruct (resolveTexture att) as [res|] eqn:Hres; simpl.
    + assert (Hfind : AttachmentMap.find index acc = None).
      { apply find_not_in. intros Hin. apply NoDup_remove_2 in Hnd.
        apply Hnd. apply in_or_app. left. exact Hin. }
      unfold AttachmentMap.emplace. rewrite Hfind.
      rewrite IH.
      * unfold resolvePart, declaresResolve. rewrite <- app_assoc, orb_true_r. simpl.
        rewrite Hres. reflexivity.
      * rewrite map_app, <- app_assoc. simpl. exact Hnd.
    + rewrite IH.
      * reflexivity.
      * apply NoDup_remove_1 in Hnd. exact Hnd.
Qed.

Lemma filter_length_forallb {A : Type} (p : A -> bool) (l : list A) :
  Nat.eqb (List.length (filter p l)) (List.length l) = forallb p l.
Proof.
  induction l as [|x l IH]; simpl; [reflexivity|].
  destruct (p x); simpl; [exact IH|].
  apply Nat.eqb_neq. pose proof (filter_length_le p l). lia.
Qed.

Lemma partial_check atts :
  NoDup (map fst atts) ->
  let rc := collectResolve atts [] false in
  snd rc && negb (Nat.eqb (List.length (fst rc)) (List.length atts)) = partialResolve atts.
Proof.
  intros Hnd. cbv zeta. rewrite collectResolve_spec by exact Hnd. simpl.
  unfold resolvePart. rewrite length_map, filter_length_forallb. reflexivity.
Qed.

Section Descriptors.

Variable defaultMode : FramebufferMode.
Variable defaultRenderPass : RenderPassDesc.
Variable context : IContext.

(** The driver reports as complete the framebuffer that [initialize] has
    built for the descriptor. *)
Definition validatesComplete (fb : CustomFramebuffer) (desc : FramebufferDesc)
    (h : list Call) : Prop :=
  forall fbA eA,
    createAndAttach context (set_renderTarget (set_initialized fb true) desc) h =
      Some (fbA, eA) ->
    driverFramebufferStatus context (h ++ eA) GL_FRAMEBUFFER = GL_FRAMEBUFFER_COMPLETE.

Lemma checkFramebufferStatus_code h result e :
  checkFramebufferStatus context h = Some (result, e) ->
  code result = Ok \/ code result = RuntimeError.
Proof.
  intros H. destruct (checkFramebufferStatus_run context h) as (r & Hr & Hc & Hi).
  rewrite Hr in H. inversion H; subst.
  destruct (Z.eq_dec (driverFramebufferStatus context h GL_FRAMEBUFFER)
              GL_FRAMEBUFFER_COMPLETE) as [E|E].
  - left. rewrite (Hc E). reflexivity.
  - right. exact (Hi E).
Qed.

Lemma isOk_code result : isOk result = true <-> code result = Ok.
Proof. unfold isOk. destruct (code result); simpl; split; congruence. Qed.

(** The nested framebuffer reports [Ok] or the [RuntimeError] of its own
    completeness check. *)
Lemma initialize_leaf_code fb d r0 h fb' out e :
  noResolve d ->
  initialize_leaf defaultMode defaultRenderPass context fb d (Some r0) h =
    Some ((fb', out), e) ->
  exists r, out = Some r /\ (code r = Ok \/ code r = RuntimeError).
Proof.
  intros Hn. unfold initialize_leaf. rewrite initialize_with_cases.
  destruct (isInitialized fb).
  - intros H; inversion H; subst. eexists. split; [reflexivity|]. right. reflexivity.
  - destruct (FramebufferBindingGuard_new context h) as [[guard eg]|]; [|discriminate].
    destruct (hasImplicitColorAttachment context _).
    + intros H; inversion H; subst. eexists. split; [reflexivity|]. left. reflexivity.
    + match goal with
      | |- context [prepareResource_with _ _ ?rec _ ?f ?o ?hh] =>
          destruct (prepareResource_with_run defaultMode defaultRenderPass context rec f o hh)
            as (eA & result & _ & _ & Hres & Hp)
      end.
      rewrite Hp, prepareResource_rest_noResolve by exact Hn.
      apply checkFramebufferStatus_code in Hres.
      destruct (negb (isOk result)); intros H; inversion H; subst;
        (eexists; split; [reflexivity|exact Hres]).
Qed.

(** C1 (as amended).  Let the colour attachments have pairwise distinct
    indices.  If some but not all of them declare a resolve texture, then
    [initialize] on an uninitialised object never constructs a nested
    resolve target, and it reports [ArgumentInvalid] whenever it gets as far
    as the resolve check, that is, when attachment 0 is not window-provided
    storage and the framebuffer it has built validates as complete.  If all
    of them or none of them declare one, [initialize] never reports
    [ArgumentInvalid]. *)
Theorem partial_resolve_is_rejected fb desc h :
  NoDup (map fst (colorAttachments desc)) ->
  (partialResolve (colorAttachments desc) = true ->
   isInitialized fb = false ->
   (forall outResult, exists fb' out e,
       initialize defaultMode defaultRenderPass context fb desc outResult h =
         Some ((fb', out), e) /\
       resolveFramebuffer fb' = resolveFramebuffer fb) /\
   (hasImplicitColorAttachment context (set_renderTarget (set_initialized fb true) desc)
      = false ->
    validatesComplete fb desc h ->
    forall r0, exists fb' e,
      initialize defaultMode defaultRenderPass context fb desc (Some r0) h =
        Some ((fb', Some (mkResult ArgumentInvalid
                 "If resolve texture is specified on a color attachment it must be specified on all of them")),
              e))) /\
  (partialResolve (colorAttachments desc) = false ->
   forall outResult fb' r e,
     initialize defaultMode defaultRenderPass context fb desc outResult h =
       Some ((fb', Some r), e) ->
     code r <> ArgumentInvalid).
Proof.
  intros Hnd.
  set (fb1 := set_renderTarget (set_initialized fb true) desc).
  assert (Hshape : forall outResult,
             exists guard eA result,
               createAndAttach context fb1 h =
                 Some (set_frameBufferID fb1 (driverNewFramebuffer context h), eA) /\
               checkFramebufferStatus context (h ++ eA) = Some (result, []) /\
               (isInitialized fb = false ->
                hasImplicitColorAttachment context fb1 = false ->
                initialize defaultMode defaultRenderPass context fb desc outResult h =
                  match prepareResource_rest defaultMode defaultRenderPass
                          (initialize_leaf defaultMode defaultRenderPass context)
                          (set_frameBufferID fb1 (driverNewFramebuffer context h))
                          outResult result h eA with
                  | Some (out, e) => Some (out, e ++ restoreCalls context guard)
                  | None => None
                  end) /\
               (isInitialized fb = false ->
                hasImplicitColorAttachment context fb1 = true ->
                initialize defaultMode defaultRenderPass context fb desc outResult h =
                  Some ((fb1, setOk outResult), restoreCalls context guard))).
  { intros outResult.
    destruct (FramebufferBindingGuard_new_run context h) as (guard & Hg & _).
    destruct (prepareResource_with_run defaultMode defaultRenderPass context
                (initialize_leaf defaultMode defaultRenderPass context) fb1 outResult h)
      as (eA & result & HA & _ & Hres & Hp).
    exists guard, eA, result. split; [exact HA|]. split; [exact Hres|].
    split; intros Hi Himp; unfold initialize; rewrite initialize_with_cases, Hi, Hg;
      fold fb1; rewrite Himp; [rewrite Hp|]; reflexivity. }
  assert (Hcheck := partial_check (colorAttachments desc) Hnd). cbv zeta in Hcheck.
  split.
  - intros Hpartial Hi. split.
    + intros outResult.
      destruct (Hshape outResult) as (guard & eA & result & _ & _ & Hprep & Himpl).
      destruct (hasImplicitColorAttachment context fb1) eqn:Himp.
      * rewrite (Himpl Hi eq_refl). do 3 eexists. split; reflexivity.
      * rewrite (Hprep Hi eq_refl). unfold prepareResource_rest.
        change (renderTarget_ (set_frameBufferID fb1 (driverNewFramebuffer context h)))
          with desc.
        cbv zeta. rewrite Hcheck, Hpartial.
        destruct (negb (isOk result)); do 3 eexists; split; reflexivity.
    + intros Himp Hval r0.
      destruct (Hshape (Some r0)) as (guard & eA & result & HA & Hres & Hprep & _).
      rewrite (Hprep Hi Himp). unfold prepareResource_rest.
      change (renderTarget_ (set_frameBufferID fb1 (driverNewFramebuffer context h)))
        with desc.
      cbv zeta. rewrite Hcheck, Hpartial.
      destruct (checkFramebufferStatus_run context (h ++ eA)) as (r & Hr & Hc & _).
      rewrite Hr in Hres. inversion Hres; subst r.
      rewrite (Hc (Hval _ _ HA)). simpl. do 2 eexists. reflexivity.
  - intros Hpartial outResult fb' r e.
    destruct (isInitialized fb) eqn:Hi.
    { unfold initialize. rewrite initialize_with_already by exact Hi.
      intros H. destruct outResult; inversion H; subst. discriminate. }
    destruct (Hshape outResult) as (guard & eA & result & _ & Hres & Hprep & Himpl).
    destruct (hasImplicitColorAttachment context fb1) eqn:Himp.
    { rewrite (Himpl eq_refl eq_refl). intros H.
      destruct outResult; inversion H; subst. discriminate. }
    rewrite (Hprep eq_refl eq_refl). unfold prepareResource_rest.
    change (renderTarget_ (set_frameBufferID fb1 (driverNewFramebuffer context h)))
      with desc.
    cbv zeta. rewrite Hcheck, Hpartial.
    pose proof (checkFramebufferStatus_code _ _ _ Hres) as Hcode.
    destruct (negb (isOk result)).
    { intros H. destruct outResult; inversion H; subst.
      destruct Hcode as [E|E]; rewrite E; discriminate. }
    match goal with
    | |- context [if ?c then _ else _] => destruct c
    end.
    + destruct (initialize_leaf _ _ _ _ _ _ _) as [[[cfb nout] eN]|] eqn:Hleaf;
        [|discriminate].
      apply initialize_leaf_code in Hleaf; [|apply resolve_descriptor_noResolve].
      destruct Hleaf as (rn & Hrn & Hcn). subst nout. simpl snd.
      intros H. destruct outResult; inversion H; subst.
      destruct Hcn as [E|E]; rewrite E; discriminate.
    + intros H. destruct outResult; inversion H; subst.
      destruct Hcode as [E|E]; rewrite E; discriminate.
Qed.

End Descriptors.

Lemma sampleDescriptors_distinct :
  NoDup (map fst (colorAttachments partialResolveDesc)) /\
  NoDup (map fst (colorAttachments fullResolveDesc)) /\
  NoDup (map fst (colorAttachments sparseDesc)).
Proof.
  repeat split; simpl; repeat constructor; simpl; intuition discriminate.
Qed.

Lemma partial_resolve_is_rejected_witness :
  NoDup (map fst (colorAttachments partialResolveDesc)) /\
  partialResolve (colorAttachments partialResolveDesc) = true /\
  isInitialized sampleNew = false /\
  hasImplicitColorAttachment completeContext
    (set_renderTarget (set_initialized sampleNew true) partialResolveDesc) = false /\
  validatesComplete completeContext sampleNew partialResolveDesc [] /\
  exists fb' e,
    sampleInitialize completeContext sampleNew partialResolveDesc (Some (mkResult Ok "")) [] =
      Some ((fb', Some (mkResult ArgumentInvalid
               "If resolve texture is specified on a color attachment it must be specified on all of them")),
            e).
Proof.
  assert (H1 : NoDup (map fst (colorAttachments partialResolveDesc)))
    by exact (proj1 sampleDescriptors_distinct).
  assert (H2 : partialResolve (colorAttachments partialResolveDesc) = true) by reflexivity.
  assert (H3 : isInitialized sampleNew = false) by reflexivity.
  assert (H4 : hasImplicitColorAttachment completeContext
                 (set_renderTarget (set_initialized sampleNew true) partialResolveDesc)
               = false) by reflexivity.
  assert (H5 : validatesComplete completeContext sampleNew partialResolveDesc [])
    by (intros fbA eA _; reflexivity).
  repeat (split; [assumption|]).
  destruct (partial_resolve_is_rejected Mono samplePassDefault completeContext sampleNew
              partialResolveDesc [] H1) as (Hpartial & _).
  destruct (Hpartial H2 H3) as (_ & Hrejected).
  exact (Hrejected H4 H5 (mkResult Ok "")).
Defined.

(** C1, counterexample.  A resolve texture on colour attachment 0 only.
    On a driver that reports the framebuffer unsupported, [initialize]
    reports the [RuntimeError] of the completeness check; and with
    window-provided storage on attachment 0 it reports [Ok].  Neither
    reports [ArgumentInvalid]. *)
Lemma partial_resolve_counterexample :
  partialResolve (colorAttachments partialResolveDesc) = true /\
  option_map (fun x => snd (fst x))
    (sampleInitialize incompleteContext sampleNew partialResolveDesc
       (Some (mkResult Ok "")) []) =
    Some (Some (mkResult RuntimeError "GL_FRAMEBUFFER_UNSUPPORTED")) /\
  partialResolve (colorAttachments implicitDesc) = true /\
  option_map (fun x => snd (fst x))
    (sampleInitialize completeContext sampleNew implicitDesc
       (Some (mkResult RuntimeError "")) []) =
    Some (Some (mkResult Ok "")).
Proof. repeat split. Qed.

(** The object left behind by a successful [initialize]. *)
Definition sampleInitialized : CustomFramebuffer :=
  mkCustomFramebuffer 1 sparseDesc samplePassDefault true None.

Lemma initialize_twice_fails_witness :
  sampleInitialize completeContext sampleNew sparseDesc (Some (mkResult Ok "")) [] =
    Some ((sampleInitialized, Some (mkResult Ok "")),
          [GenFramebuffers 1; BindFramebuffer GL_FRAMEBUFFER 1;
           TextureAttachAsColor 22 2 0 0; TextureAttachAsColor 20 0 0 0;
           DrawBuffers [GL_COLOR_ATTACHMENT0; GL_COLOR_ATTACHMENT0 + 2];
           BindFramebuffer GL_READ_FRAMEBUFFER 5; BindFramebuffer GL_DRAW_FRAMEBUFFER 5;
           BindRenderbuffer GL_RENDERBUFFER 7]) /\
  sampleInitialize completeContext sampleInitialized depthStencilDesc
    (Some (mkResult Ok "")) [] =
    Some ((sampleInitialized,
           Some (mkResult RuntimeError "Framebuffer already initialized.")),
          [AssertionReport "IGL_UNEXPECTED"]).
Proof.
  assert (H : sampleInitialize completeContext sampleNew sparseDesc
                (Some (mkResult Ok "")) [] =
              Some ((sampleInitialized, Some (mkResult Ok "")),
                    [GenFramebuffers 1; BindFramebuffer GL_FRAMEBUFFER 1;
                     TextureAttachAsColor 22 2 0 0; TextureAttachAsColor 20 0 0 0;
                     DrawBuffers [GL_COLOR_ATTACHMENT0; GL_COLOR_ATTACHMENT0 + 2];
                     BindFramebuffer GL_READ_FRAMEBUFFER 5;
                     BindFramebuffer GL_DRAW_FRAMEBUFFER 5;
                     BindRenderbuffer GL_RENDERBUFFER 7])) by reflexivity.
  split; [exact H|].
  exact (initialize_twice_fails Mono samplePassDefault completeContext sampleNew sparseDesc
           (Some (mkResult Ok "")) [] sampleInitialized (Some (mkResult Ok "")) _
           depthStencilDesc (mkResult Ok "") [] H).
Defined.

(** C2, counterexample.  The second [initialize] reports [RuntimeError],
    which is not the code [AlreadyInitialized]. *)
Lemma initialize_twice_code_counterexample :
  option_map (fun x => fst x)
    (sampleInitialize completeContext sampleNew sparseDesc (Some (mkResult Ok "")) []) =
    Some (sampleInitialized, Some (mkResult Ok "")) /\
  option_map (fun x => option_map code (snd (fst x)))
    (sampleInitialize completeContext sampleInitialized sparseDesc
       (Some (mkResult Ok "")) []) = Some (Some RuntimeError) /\
  RuntimeError <> AlreadyInitialized.
Proof. split; [reflexivity|]. split; [reflexivity|discriminate]. Qed.

(** The object left behind by an [initialize] that failed its
    completeness check. *)
Definition sampleFailed : CustomFramebuffer :=
  mkCustomFramebuffer 1 depthStencilDesc samplePassDefault true None.

Lemma failed_initialize_is_final_witness :
  sampleInitialize incompleteContext sampleNew depthStencilDesc (Some (mkResult Ok "")) [] =
    Some ((sampleFailed, Some (mkResult RuntimeError "GL_FRAMEBUFFER_UNSUPPORTED")),
          [GenFramebuffers 1; BindFramebuffer GL_FRAMEBUFFER 1;
           TextureAttachAsColor 20 0 0 0; TextureAttachAsDepth 40; TextureAttachAsStencil 41;
           AssertionReport "GL_FRAMEBUFFER_UNSUPPORTED";
           BindFramebuffer GL_FRAMEBUFFER 0; BindRenderbuffer GL_RENDERBUFFER 7]) /\
  isInitialized sampleFailed = true /\
  exists fb2 e2,
    performAll Mono samplePassDefault incompleteContext sampleFailed
      [DoBind (samplePass Clear Store StoreDontCare); DoUnbind; DoUpdateDrawable None] [] =
      Some (fb2, e2) /\
    sampleInitialize incompleteContext fb2 depthStencilDesc (Some (mkResult Ok "")) e2 =
      Some ((fb2, Some (mkResult RuntimeError "Framebuffer already initialized.")),
            [AssertionReport "IGL_UNEXPECTED"]).
Proof.
  assert (H : sampleInitialize incompleteContext sampleNew depthStencilDesc
                (Some (mkResult Ok "")) [] =
              Some ((sampleFailed, Some (mkResult RuntimeError "GL_FRAMEBUFFER_UNSUPPORTED")),
                    [GenFramebuffers 1; BindFramebuffer GL_FRAMEBUFFER 1;
                     TextureAttachAsColor 20 0 0 0; TextureAttachAsDepth 40;
                     TextureAttachAsStencil 41;
                     AssertionReport "GL_FRAMEBUFFER_UNSUPPORTED";
                     BindFramebuffer GL_FRAMEBUFFER 0; BindRenderbuffer GL_RENDERBUFFER 7]))
    by reflexivity.
  split; [exact H|].
  destruct (failed_initialize_is_final Mono samplePassDefault incompleteContext sampleNew
              depthStencilDesc (Some (mkResult Ok "")) [] sampleFailed _ _ H)
    as (Hi & Hlater).
  split; [exact Hi|].
  eexists. eexists. split; [reflexivity|].
  match goal with
  | |- sampleInitialize _ ?fb2 _ _ ?e2 = _ =>
      exact (proj2 (Hlater [DoBind (samplePass Clear Store StoreDontCare); DoUnbind;
                            DoUpdateDrawable None] [] fb2 e2 eq_refl)
               depthStencilDesc (mkResult Ok "") e2)
  end.
Defined.

(** *** The draw-buffer declaration *)

Lemma Sorted_leb_le (l : list Z) :
  Sorted (fun x y => is_true (GLenumOrder.leb x y)) l -> Sorted Z.le l.
Proof.
  induction 1 as [|x l Hs IH Hhd]; constructor; [exact IH|].
  destruct Hhd as [|y l' Hxy]; constructor.
  apply Z.leb_le. exact Hxy.
Qed.

Lemma std_sort_sorted (l : list Z) : Sorted Z.le (std_sort l).
Proof. apply Sorted_leb_le. apply GLenumSort.Sorted_sort. Qed.

Lemma std_sort_permutation (l : list Z) : Permutation (std_sort l) l.
Proof. apply Permutation_sym. apply GLenumSort.Permuted_sort. Qed.

Lemma sorted_permutation_unique (l1 : list Z) :
  forall l2, Sorted Z.le l1 -> Sorted Z.le l2 -> Permutation l1 l2 -> l1 = l2.
Proof.
  induction l1 as [|x l1 IH]; intros l2 H1 H2 Hp.
  - apply Permutation_nil in Hp. congruence.
  - destruct l2 as [|y l2].
    + apply Permutation_sym, Permutation_nil in Hp. discriminate.
    + apply Sorted_StronglySorted in H1; [|intros u v w; apply Z.le_trans].
      apply Sorted_StronglySorted in H2; [|intros u v w; apply Z.le_trans].
      inversion H1 as [|? ? Hs1 Hall1]; subst.
      inversion H2 as [|? ? Hs2 Hall2]; subst.
      assert (Hxy : x = y).
      { assert (Hx : In x (y :: l2)) by (apply (Permutation_in _ Hp); left; reflexivity).
        assert (Hy : In y (x :: l1))
          by (apply (Permutation_in _ (Permutation_sym Hp)); left; reflexivity).
        destruct Hx as [Hx|Hx]; [congruence|].
        destruct Hy as [Hy|Hy]; [congruence|].
        rewrite Forall_forall in Hall1, Hall2.
        pose proof (Hall1 _ Hy). pose proof (Hall2 _ Hx). lia. }
      subst y. f_equal. apply IH.
      * apply StronglySorted_Sorted. exact Hs1.
      * apply StronglySorted_Sorted. exact Hs2.
      * exact (Permutation_cons_inv Hp).
Qed.

Lemma Sorted_map_add (c : Z) (l : list Z) :
  Sorted Z.le l -> Sorted Z.le (map (fun i => c + i) l).
Proof.
  induction 1 as [|x l Hs IH Hhd]; simpl; constructor; [exact IH|].
  destruct Hhd as [|y l' Hxy]; simpl; constructor. lia.
Qed.

Lemma drawBufferOf_small (l : list Z) :
  Forall (fun i => 0 <= i < 2 ^ 32 - GL_COLOR_ATTACHMENT0) l ->
  map drawBufferOf l = map (fun i => GL_COLOR_ATTACHMENT0 + i) l.
Proof.
  induction 1 as [|i l Hi _ IH]; cbn [map]; [reflexivity|].
  rewrite IH. f_equal. unfold drawBufferOf, to_uint32.
  apply Z.mod_small. cbv beta in Hi. unfold GL_COLOR_ATTACHMENT0 in *.
  change (2 ^ 32) with 4294967296 in *. lia.
Qed.

(** Sorting the draw buffers sorts the indices. *)
Lemma declaredDrawBuffers_ascending atts :
  Forall (fun i => 0 <= i < 2 ^ 32 - GL_COLOR_ATTACHMENT0) (presentIndices atts) ->
  exists indices,
    Permutation indices (presentIndices atts) /\
    Sorted Z.le indices /\
    declaredDrawBuffers atts =
      if 1 <? Z.of_nat (List.length indices)
      then [map (fun i => GL_COLOR_ATTACHMENT0 + i) indices]
      else [].
Proof.
  intros Hsmall. exists (std_sort (presentIndices atts)).
  split; [apply std_sort_permutation|]. split; [apply std_sort_sorted|].
  unfold declaredDrawBuffers. cbv zeta.
  assert (E : std_sort (map drawBufferOf (presentIndices atts)) =
              map (fun i => GL_COLOR_ATTACHMENT0 + i) (std_sort (presentIndices atts))).
  { apply sorted_permutation_unique.
    - apply std_sort_sorted.
    - apply Sorted_map_add. apply std_sort_sorted.
    - rewrite (drawBufferOf_small _ Hsmall).
      eapply Permutation_trans; [apply std_sort_permutation|].
      apply Permutation_map. apply Permutation_sym. apply std_sort_permutation. }
  rewrite E, length_map. reflexivity.
Qed.

Section DrawBuffers.

Variable defaultMode : FramebufferMode.
Variable defaultRenderPass : RenderPassDesc.
Variable context : IContext.

Lemma restoreCalls_no_drawBuffers guard : drawBuffersCalls (restoreCalls context guard) = [].
Proof.
  unfold restoreCalls. destruct (ReadWriteFramebuffer (deviceFeatures context)); reflexivity.
Qed.

Lemma drawBuffersCalls_app e1 e2 :
  drawBuffersCalls (e1 ++ e2) = drawBuffersCalls e1 ++ drawBuffersCalls e2.
Proof. unfold drawBuffersCalls. apply flat_map_app. Qed.

Lemma genFramebuffersCalls_app e1 e2 :
  genFramebuffersCalls (e1 ++ e2) = genFramebuffersCalls e1 ++ genFramebuffersCalls e2.
Proof. unfold genFramebuffersCalls. apply flat_map_app. Qed.

Lemma quiet_genFramebuffersCalls e : forallb isQuiet e = true -> genFramebuffersCalls e = [].
Proof.
  induction e as [|c e IH]; simpl; [reflexivity|].
  intros H. apply andb_prop in H. destruct H as [Hc He].
  rewrite (IH He). destruct c; simpl in *; try discriminate; reflexivity.
Qed.

Lemma restoreCalls_no_generated guard :
  genFramebuffersCalls (restoreCalls context guard) = [].
Proof.
  unfold restoreCalls. destruct (ReadWriteFramebuffer (deviceFeatures context)); reflexivity.
Qed.

(** The one framebuffer name generated while the framebuffer is built. *)
Lemma createAndAttach_generated fb0 h fbA eA :
  createAndAttach context fb0 h = Some (fbA, eA) ->
  genFramebuffersCalls eA = [driverNewFramebuffer context h].
Proof.
  unfold createAndAttach, genFramebuffers, bindBuffer.
  set (name := driverNewFramebuffer context h).
  set (fb := set_frameBufferID fb0 name).
  assert (H1 : (name <- ask (driverNewFramebuffer context);;
                call (GenFramebuffers name);; ret name) h =
               Some (name, [GenFramebuffers name])) by reflexivity.
  rewrite (bind_gl_run _ _ h name _ H1). fold fb.
  rewrite (bind_gl_run _ _ _ tt [BindFramebuffer GL_FRAMEBUFFER (frameBufferID_ fb)] eq_refl).
  match goal with
  | |- context [bind_gl (attachColors context fb ?a []) _ ?hh] =>
      destruct (attachColors_run context fb a [] hh) as (e1 & He1 & Hq1);
      rewrite (bind_gl_run _ _ hh _ e1 He1)
  end.
  simpl app. simpl renderTarget_.
  set (bufs := std_sort (map drawBufferOf (presentIndices (colorAttachments (renderTarget_ fb0))))).
  set (declare := if 1 <? Z.of_nat (List.length bufs) then call (DrawBuffers bufs) else ret tt).
  assert (Hd : forall hh, declare hh =
                 Some (tt, if 1 <? Z.of_nat (List.length bufs) then [DrawBuffers bufs] else []))
    by (intros hh; subst declare; destruct (1 <? Z.of_nat (List.length bufs)); reflexivity).
  rewrite (bind_gl_run _ _ _ tt _ (Hd _)).
  set (depth := match texture (depthAttachment (renderTarget_ fb0)) with
                | Some t => attachAsDepth context fb t | None => ret tt end).
  assert (Hdepth : forall hh, exists e, depth hh = Some (tt, e) /\ forallb isQuiet e = true).
  { intros hh. subst depth. destruct (texture (depthAttachment (renderTarget_ fb0))).
    - apply attachAsDepthOrStencil_run. reflexivity.
    - exists []. split; reflexivity. }
  set (stencil := match texture (stencilAttachment (renderTarget_ fb0)) with
                  | Some t => attachAsStencil context fb t | None => ret tt end).
  assert (Hstencil : forall hh, exists e, stencil hh = Some (tt, e) /\ forallb isQuiet e = true).
  { intros hh. subst stencil. destruct (texture (stencilAttachment (renderTarget_ fb0))).
    - apply attachAsDepthOrStencil_run. reflexivity.
    - exists []. split; reflexivity. }
  match goal with
  | |- context [bind_gl depth _ ?hh] =>
      destruct (Hdepth hh) as (e2 & He2 & Hq2); rewrite (bind_gl_run _ _ hh tt e2 He2)
  end.
  match goal with
  | |- context [bind_gl stencil _ ?hh] =>
      destruct (Hstencil hh) as (e3 & He3 & Hq3); rewrite (bind_gl_run _ _ hh tt e3 He3)
  end.
  unfold ret. intros H. inversion H; subst fbA eA. clear H.
  unfold genFramebuffersCalls. cbn [flat_map app]. rewrite !flat_map_app.
  fold (genFramebuffersCalls e1) (genFramebuffersCalls e2) (genFramebuffersCalls e3).
  rewrite (quiet_genFramebuffersCalls e1 Hq1), (quiet_genFramebuffersCalls e2 Hq2),
    (quiet_genFramebuffersCalls e3 Hq3).
  destruct (1 <? Z.of_nat (List.length bufs)); reflexivity.
Qed.

(** What the [initialize] of a nested resolve framebuffer leaves behind and
    what it calls: the descriptor it was given, no nested framebuffer of its
    own and, unless its colour attachment 0 is window-provided storage, one
    generated name and the draw-buffer declaration of its own attachments. *)
Lemma initialize_leaf_events d outResult h cfb out e :
  noResolve d ->
  initialize_leaf defaultMode defaultRenderPass context
    (CustomFramebuffer_new defaultMode defaultRenderPass) d outResult h =
    Some ((cfb, out), e) ->
  renderTarget_ cfb = d /\
  resolveFramebuffer cfb = None /\
  frameBufferID_ cfb =
    (if hasImplicitColorAttachment context cfb then 0
     else driverNewFramebuffer context h) /\
  drawBuffersCalls e =
    (if hasImplicitColorAttachment context cfb then []
     else declaredDrawBuffers (colorAttachments d)) /\
  genFramebuffersCalls e =
    (if hasImplicitColorAttachment context cfb then []
     else [driverNewFramebuffer context h]).
Proof.
  intros Hn. unfold initialize_leaf. rewrite initialize_with_cases.
  change (isInitialized (CustomFramebuffer_new defaultMode defaultRenderPass)) with false.
  cbv iota.
  destruct (FramebufferBindingGuard_new_run context h) as (guard & Hg & _). rewrite Hg.
  set (fb1 := set_renderTarget
                (set_initialized (CustomFramebuffer_new defaultMode defaultRenderPass) true) d).
  destruct (hasImplicitColorAttachment context fb1) eqn:Himp.
  - intros H. inversion H; subst cfb out e. clear H. rewrite Himp.
    split; [reflexivity|]. split; [reflexivity|]. split; [reflexivity|].
    split; [apply restoreCalls_no_drawBuffers|apply restoreCalls_no_generated].
  - destruct (prepareResource_with_run defaultMode defaultRenderPass context
                (fun fb _ out => ret (fb, out)) fb1 outResult h)
      as (eA & result & HA & HD & _ & Hp).
    rewrite Hp, prepareResource_rest_noResolve by exact Hn.
    pose proof (createAndAttach_generated _ _ _ _ HA) as HG.
    assert (Himp' : hasImplicitColorAttachment context
                      (set_frameBufferID fb1 (driverNewFramebuffer context h)) = false).
    { unfold hasImplicitColorAttachment in *.
      cbn [frameBufferID_ renderTarget_ set_frameBufferID set_renderTarget set_initialized
             CustomFramebuffer_new fb1] in *.
      destruct (driverNewFramebuffer context h =? 0); [exact Himp|reflexivity]. }
    destruct (negb (isOk result)); intros H; inversion H; subst cfb out e; clear H;
      rewrite Himp';
      (split; [reflexivity|]); (split; [reflexivity|]); (split; [reflexivity|]);
      rewrite ?drawBuffersCalls_app, ?genFramebuffersCalls_app, HD, HG,
        restoreCalls_no_drawBuffers, restoreCalls_no_generated;
      cbn [drawBuffersCalls genFramebuffersCalls flat_map app];
      rewrite ?app_nil_r; split; reflexivity.
Qed.

(** The second half of [prepareResource] on an object without nested
    framebuffer: the calls that follow the first half, and what they leave
    in the nested framebuffer if one is built. *)
Lemma prepareResource_rest_leaf_events fb outResult result h eA res e :
  resolveFramebuffer fb = None ->
  prepareResource_rest defaultMode defaultRenderPass
    (initialize_leaf defaultMode defaultRenderPass context) fb outResult result h eA =
    Some (res, e) ->
  exists eX,
    e = eA ++ eX /\
    frameBufferID_ (fst res) = frameBufferID_ fb /\
    match resolveFramebuffer (fst res) with
    | None => drawBuffersCalls eX = [] /\ genFramebuffersCalls eX = []
    | Some nested =>
        resolveFramebuffer nested = None /\
        frameBufferID_ nested =
          (if hasImplicitColorAttachment context nested then 0
           else driverNewFramebuffer context (h ++ eA)) /\
        drawBuffersCalls eX =
          (if hasImplicitColorAttachment context nested then []
           else declaredDrawBuffers (colorAttachments (renderTarget_ nested))) /\
        genFramebuffersCalls eX =
          (if hasImplicitColorAttachment context nested then []
           else [driverNewFramebuffer context (h ++ eA)])
    end.
Proof.
  intros Hnone. unfold prepareResource_rest.
  repeat match goal with
         | |- context [if ?c then _ else _] => destruct c
         end.
  - intros H. inversion H; subst res e. eexists. split; [reflexivity|].
    cbn [fst]. rewrite Hnone. repeat split.
  - intros H. inversion H; subst res e. eexists. split; [reflexivity|].
    cbn [fst]. rewrite Hnone. repeat split.
  - destruct (initialize_leaf _ _ _ _ _ _ _) as [[[nested nout] eN]|] eqn:Hleaf;
      [|discriminate].
    intros H. inversion H; subst res e. exists eN. split; [reflexivity|].
    cbn [fst snd resolveFramebuffer frameBufferID_ set_resolveFramebuffer].
    split; [reflexivity|].
    destruct (initialize_leaf_events _ _ _ _ _ _
                (resolve_descriptor_noResolve defaultMode _ _ _) Hleaf)
      as (Ht & Hr & Hid & Hd & Hg).
    rewrite Ht. repeat split; assumption.
  - intros H. inversion H; subst res e. exists []. split; [rewrite app_nil_r; reflexivity|].
    cbn [fst]. rewrite Hnone. repeat split.
Qed.

Lemma prepareResource_rest_events rec fb outResult result h eA :
  (forall fb' d out h', exists res, rec fb' d out h' = Some res) ->
  exists res eX,
    prepareResource_rest defaultMode defaultRenderPass rec fb outResult result h eA =
      Some (res, eA ++ eX) /\
    (resolveFramebuffer (fst res) = None -> drawBuffersCalls eX = []).
Proof.
  intros Hrec. unfold prepareResource_rest.
  repeat match goal with
         | |- context [if ?c then _ else _] => destruct c
         end.
  - do 2 eexists. split; [reflexivity|]. reflexivity.
  - do 2 eexists. split; [reflexivity|]. reflexivity.
  - match goal with
    | |- context [rec ?a ?b ?c ?d] => destruct (Hrec a b c d) as ([nested eN] & Hn); rewrite Hn
    end.
    do 2 eexists. split; [reflexivity|]. simpl. discriminate.
  - exists (fb, assignResult outResult result), []. rewrite app_nil_r.
    split; reflexivity.
Qed.

(** C8 (as amended).  [initialize] on an uninitialised object whose
    colour attachment 0 is not window-provided storage, with attachment
    indices small enough for GL_COLOR_ATTACHMENT0 + index to fit a GLenum:
    while building its framebuffer, before the completeness check, it
    declares the draw buffers of exactly the present colour attachments in
    ascending order of index when more than one is present, and makes no
    declaration when one or none is present; unless it goes on to build a
    nested resolve framebuffer, no other declaration follows.  A nested
    resolve framebuffer declares its own draw buffers by the same rule:
    none when its colour attachment 0 is window-provided storage, otherwise
    those of its own present colour attachments, in ascending order of
    index when more than one is present, and these are then the only
    further declarations. *)
Theorem initialize_declares_sorted_draw_buffers fb desc outResult h :
  isInitialized fb = false ->
  hasImplicitColorAttachment context (set_renderTarget (set_initialized fb true) desc)
    = false ->
  Forall (fun i => 0 <= i < 2 ^ 32 - GL_COLOR_ATTACHMENT0)
    (presentIndices (colorAttachments desc)) ->
  exists fbA eA res eRest indices,
    createAndAttach context (set_renderTarget (set_initialized fb true) desc) h =
      Some (fbA, eA) /\
    initialize defaultMode defaultRenderPass context fb desc outResult h =
      Some (res, eA ++ eRest) /\
    Permutation indices (presentIndices (colorAttachments desc)) /\
    Sorted Z.le indices /\
    drawBuffersCalls eA =
      (if 1 <? Z.of_nat (List.length indices)
       then [map (fun i => GL_COLOR_ATTACHMENT0 + i) indices]
       else []) /\
    (resolveFramebuffer (fst res) = None -> drawBuffersCalls eRest = []) /\
    (resolveFramebuffer fb = None ->
     forall nested,
       resolveFramebuffer (fst res) = Some nested ->
       drawBuffersCalls eRest =
         (if hasImplicitColorAttachment context nested then []
          else declaredDrawBuffers (colorAttachments (renderTarget_ nested))) /\
       (Forall (fun i => 0 <= i < 2 ^ 32 - GL_COLOR_ATTACHMENT0)
          (presentIndices (colorAttachments (renderTarget_ nested))) ->
        exists nestedIndices,
          Permutation nestedIndices
            (presentIndices (colorAttachments (renderTarget_ nested))) /\
          Sorted Z.le nestedIndices /\
          declaredDrawBuffers (colorAttachments (renderTarget_ nested)) =
            (if 1 <? Z.of_nat (List.length nestedIndices)
             then [map (fun i => GL_COLOR_ATTACHMENT0 + i) nestedIndices]
             else []))).
Proof.
  intros Hi Himp Hsmall.
  set (fb1 := set_renderTarget (set_initialized fb true) desc) in *.
  destruct (FramebufferBindingGuard_new_run context h) as (guard & Hg & _).
  destruct (prepareResource_with_run defaultMode defaultRenderPass context
              (initialize_leaf defaultMode defaultRenderPass context) fb1 outResult h)
    as (eA & result & HA & HD & _ & Hp).
  destruct (prepareResource_rest_events
              (initialize_leaf defaultMode defaultRenderPass context)
              (set_frameBufferID fb1 (driverNewFramebuffer context h))
              outResult result h eA
              (initialize_leaf_total defaultMode defaultRenderPass context))
    as (res & eX & Hrest & Hquiet).
  destruct (declaredDrawBuffers_ascending (colorAttachments desc) Hsmall)
    as (indices & Hperm & Hsorted & Hdecl).
  exists (set_frameBufferID fb1 (driverNewFramebuffer context h)), eA, res,
    (eX ++ restoreCalls context guard), indices.
  split; [exact HA|].
  split; [|split; [exact Hperm|split; [exact Hsorted|split; [|split]]]].
  - unfold initialize. rewrite initialize_with_cases, Hi, Hg. fold fb1.
    rewrite Himp, Hp, Hrest, app_assoc. reflexivity.
  - rewrite HD. exact Hdecl.
  - intros Hnone. unfold drawBuffersCalls. rewrite flat_map_app.
    fold (drawBuffersCalls eX) (drawBuffersCalls (restoreCalls context guard)).
    rewrite (Hquiet Hnone), restoreCalls_no_drawBuffers. reflexivity.
  - intros Hfresh nested Hnested.
    destruct (prepareResource_rest_leaf_events
                (set_frameBufferID fb1 (driverNewFramebuffer context h))
                outResult result h eA res (eA ++ eX) Hfresh Hrest)
      as (eX' & HeX & _ & Hshape).
    apply app_inv_head in HeX. subst eX'.
    rewrite Hnested in Hshape. destruct Hshape as (_ & _ & Hdraw & _).
    split.
    + rewrite drawBuffersCalls_app, Hdraw, restoreCalls_no_drawBuffers, app_nil_r.
      reflexivity.
    + intros Hnsmall.
      destruct (declaredDrawBuffers_ascending (colorAttachments (renderTarget_ nested))
                  Hnsmall) as (nestedIndices & Hnperm & Hnsorted & Hndecl).
      exists nestedIndices. split; [exact Hnperm|split; [exact Hnsorted|exact Hndecl]].
Qed.

End DrawBuffers.

Lemma initialize_declares_sorted_draw_buffers_witness :
  isInitialized sampleNew = false /\
  hasImplicitColorAttachment completeContext
    (set_renderTarget (set_initialized sampleNew true) sparseDesc) = false /\
  Forall (fun i => 0 <= i < 2 ^ 32 - GL_COLOR_ATTACHMENT0)
    (presentIndices (colorAttachments sparseDesc)) /\
  (exists res eA eRest,
     sampleInitialize completeContext sampleNew sparseDesc (Some (mkResult Ok "")) [] =
       Some (res, eA ++ eRest) /\
     drawBuffersCalls eA = [[GL_COLOR_ATTACHMENT0; GL_COLOR_ATTACHMENT0 + 2]] /\
     drawBuffersCalls eRest = []) /\
  hasImplicitColorAttachment completeContext
    (set_renderTarget (set_initialized sampleNew true) fullResolveDesc) = false /\
  Forall (fun i => 0 <= i < 2 ^ 32 - GL_COLOR_ATTACHMENT0)
    (presentIndices (colorAttachments fullResolveDesc)) /\
  resolveFramebuffer sampleNew = None /\
  (exists res eA eRest nested,
     sampleInitialize completeContext sampleNew fullResolveDesc (Some (mkResult Ok "")) [] =
       Some (res, eA ++ eRest) /\
     resolveFramebuffer (fst res) = Some nested /\
     drawBuffersCalls eA = [[GL_COLOR_ATTACHMENT0; GL_COLOR_ATTACHMENT0 + 1]] /\
     drawBuffersCalls eRest = [[GL_COLOR_ATTACHMENT0; GL_COLOR_ATTACHMENT0 + 1]]).
Proof.
  assert (H1 : isInitialized sampleNew = false) by reflexivity.
  assert (H2 : hasImplicitColorAttachment completeContext
                 (set_renderTarget (set_initialized sampleNew true) sparseDesc) = false)
    by reflexivity.
  assert (H3 : Forall (fun i => 0 <= i < 2 ^ 32 - GL_COLOR_ATTACHMENT0)
                 (presentIndices (colorAttachments sparseDesc))).
  { simpl. unfold GL_COLOR_ATTACHMENT0. change (2 ^ 32) with 4294967296.
    repeat constructor; lia. }
  assert (H4 : hasImplicitColorAttachment completeContext
                 (set_renderTarget (set_initialized sampleNew true) fullResolveDesc) = false)
    by reflexivity.
  assert (H5 : Forall (fun i => 0 <= i < 2 ^ 32 - GL_COLOR_ATTACHMENT0)
                 (presentIndices (colorAttachments fullResolveDesc))).
  { simpl. unfold GL_COLOR_ATTACHMENT0. change (2 ^ 32) with 4294967296.
    repeat constructor; lia. }
  assert (H6 : resolveFramebuffer sampleNew = None) by reflexivity.
  split; [exact H1|]. split; [exact H2|]. split; [exact H3|]. split.
  - destruct (initialize_declares_sorted_draw_buffers Mono samplePassDefault completeContext
                sampleNew sparseDesc (Some (mkResult Ok "")) [] H1 H2 H3)
      as (fbA & eA & res & eRest & indices & HA & HI & _ & _ & _ & Hrest & _).
    vm_compute in HA. inversion HA; subst fbA eA. clear HA.
    exists res, [GenFramebuffers 1; BindFramebuffer 36160 1; TextureAttachAsColor 22 2 0 0;
                 TextureAttachAsColor 20 0 0 0; DrawBuffers [36064; 36066]], eRest.
    split; [exact HI|]. split; [reflexivity|].
    apply Hrest.
    assert (E : option_map (fun x => resolveFramebuffer (fst (fst x)))
                  (sampleInitialize completeContext sampleNew sparseDesc
                     (Some (mkResult Ok "")) []) = Some None) by reflexivity.
    unfold sampleInitialize in E. rewrite HI in E. simpl in E. congruence.
  - split; [exact H4|]. split; [exact H5|]. split; [exact H6|].
    destruct (initialize_declares_sorted_draw_buffers Mono samplePassDefault completeContext
                sampleNew fullResolveDesc (Some (mkResult Ok "")) [] H1 H4 H5)
      as (fbA & eA & res & eRest & indices & HA & HI & _ & _ & _ & _ & Hnested).
    vm_compute in HA. inversion HA; subst fbA eA. clear HA.
    assert (E : option_map
                  (fun x =>
                     match resolveFramebuffer (fst (fst x)) with
                     | Some nested =>
                         Some (if hasImplicitColorAttachment completeContext nested
                               then []
                               else declaredDrawBuffers
                                      (colorAttachments (renderTarget_ nested)))
                     | None => None
                     end)
                  (sampleInitialize completeContext sampleNew fullResolveDesc
                     (Some (mkResult Ok "")) []) = Some (Some [[36064; 36065]]))
      by reflexivity.
    unfold sampleInitialize in E. rewrite HI in E. cbn [option_map fst] in E.
    destruct (resolveFramebuffer (fst res)) as [nested|] eqn:Hn; [|discriminate].
    exists res, [GenFramebuffers 1; BindFramebuffer 36160 1; TextureAttachAsColor 20 0 0 0;
                 TextureAttachAsColor 21 1 0 0; DrawBuffers [36064; 36065]], eRest, nested.
    split; [exact HI|]. split; [exact Hn|]. split; [reflexivity|].
    destruct (Hnested H6 nested eq_refl) as [Hd _].
    rewrite Hd. injection E as E. rewrite E. reflexivity.
Defined.

(** C8, counterexample.  Window-provided storage on attachment 0 and an
    ordinary texture on attachment 2: two colour attachments are present,
    yet [initialize] declares no draw buffers (it builds no framebuffer). *)
Lemma implicit_target_declares_nothing_counterexample :
  presentIndices (colorAttachments implicitDesc) = [0; 2] /\
  sampleInitialize completeContext sampleNew implicitDesc (Some (mkResult Ok "")) [] =
    Some ((set_renderTarget (set_initialized sampleNew true) implicitDesc,
           Some (mkResult Ok "")),
          [BindFramebuffer GL_READ_FRAMEBUFFER 5; BindFramebuffer GL_DRAW_FRAMEBUFFER 5;
           BindRenderbuffer GL_RENDERBUFFER 7]) /\
  drawBuffersCalls
    [BindFramebuffer GL_READ_FRAMEBUFFER 5; BindFramebuffer GL_DRAW_FRAMEBUFFER 5;
     BindRenderbuffer GL_RENDERBUFFER 7] = [].
Proof. repeat split. Qed.

(** * Further properties of the code *)

(** ** The binding guard on a complete framebuffer *)

Lemma FramebufferBindingGuard_new_complete context h :
  driverFramebufferStatus context h GL_FRAMEBUFFER = GL_FRAMEBUFFER_COMPLETE ->
  FramebufferBindingGuard_new context h =
    Some (if ReadWriteFramebuffer (deviceFeatures context)
          then mkGuard (to_uint32 (driverInteger context h GL_RENDERBUFFER_BINDING)) 0
                 (to_uint32 (driverInteger context h GL_READ_FRAMEBUFFER_BINDING))
                 (to_uint32 (driverInteger context h GL_DRAW_FRAMEBUFFER_BINDING))
          else mkGuard (to_uint32 (driverInteger context h GL_RENDERBUFFER_BINDING))
                 (to_uint32 (driverInteger context h GL_FRAMEBUFFER_BINDING)) 0 0,
          []).
Proof.
  intros Hc.
  unfold FramebufferBindingGuard_new, checkFramebufferStatus, getIntegerv, bind_gl, ask.
  simpl. rewrite !app_nil_r. rewrite Hc. simpl.
  destruct (ReadWriteFramebuffer (deviceFeatures context)); simpl; rewrite ?app_nil_r;
    reflexivity.
Qed.

(** X1.  A guard constructed while the ambient framebuffer is complete
    queries the driver for the current bindings, and its destructor,
    whatever was called in between, rebinds the framebuffer bindings the
    driver reported at construction (read and draw separately when the
    driver has both binding points, the combined one otherwise) and then
    the render-buffer binding reported at construction. *)
Theorem guard_restores_captured_bindings context h guard e1 h' :
  driverFramebufferStatus context h GL_FRAMEBUFFER = GL_FRAMEBUFFER_COMPLETE ->
  FramebufferBindingGuard_new context h = Some (guard, e1) ->
  FramebufferBindingGuard_delete context guard h' =
    Some (tt,
          (if ReadWriteFramebuffer (deviceFeatures context)
           then [BindFramebuffer GL_READ_FRAMEBUFFER
                   (to_uint32 (driverInteger context h GL_READ_FRAMEBUFFER_BINDING));
                 BindFramebuffer GL_DRAW_FRAMEBUFFER
                   (to_uint32 (driverInteger context h GL_DRAW_FRAMEBUFFER_BINDING))]
           else [BindFramebuffer GL_FRAMEBUFFER
                   (to_uint32 (driverInteger context h GL_FRAMEBUFFER_BINDING))]) ++
          [BindRenderbuffer GL_RENDERBUFFER
             (to_uint32 (driverInteger context h GL_RENDERBUFFER_BINDING))]).
Proof.
  intros Hc Hnew. rewrite (FramebufferBindingGuard_new_complete context h Hc) in Hnew.
  inversion Hnew; subst.
  rewrite FramebufferBindingGuard_delete_run.
  destruct (ReadWriteFramebuffer (deviceFeatures context)); reflexivity.
Qed.

Lemma guard_restores_captured_bindings_witness :
  driverFramebufferStatus completeContext [] GL_FRAMEBUFFER = GL_FRAMEBUFFER_COMPLETE /\
  FramebufferBindingGuard_new completeContext [] = Some (mkGuard 7 0 5 5, []) /\
  FramebufferBindingGuard_delete completeContext (mkGuard 7 0 5 5)
    [BindFramebuffer GL_FRAMEBUFFER 9] =
    Some (tt, [BindFramebuffer GL_READ_FRAMEBUFFER 5; BindFramebuffer GL_DRAW_FRAMEBUFFER 5;
               BindRenderbuffer GL_RENDERBUFFER 7]).
Proof.
  assert (H1 : driverFramebufferStatus completeContext [] GL_FRAMEBUFFER =
               GL_FRAMEBUFFER_COMPLETE) by reflexivity.
  assert (H2 : FramebufferBindingGuard_new completeContext [] =
               Some (mkGuard 7 0 5 5, [])) by reflexivity.
  split; [exact H1|]. split; [exact H2|].
  exact (guard_restores_captured_bindings completeContext [] (mkGuard 7 0 5 5) []
           [BindFramebuffer GL_FRAMEBUFFER 9] H1 H2).
Defined.

(** ** Pixel read-back: the whole call sequence *)

(** The calls of the pixel transfer itself. *)
Definition transferCalls (context : IContext) (tex : Texture) (range : TextureRangeDesc)
  : list Call :=
  if isRGBA_UInt32 (getFormat tex) then
    if TextureInteger (deviceFeatures context)
    then [ReadPixels (to_int32 (range_x range)) (to_int32 (range_y range))
            (to_int32 (range_width range)) (to_int32 (range_height range))
            GL_RGBA_INTEGER GL_UNSIGNED_INT]
    else [AssertionReport "IGL_ASSERT_NOT_IMPLEMENTED"]
  else [ReadPixels (to_int32 (range_x range)) (to_int32 (range_y range))
          (to_int32 (range_width range)) (to_int32 (range_height range))
          GL_RGBA GL_UNSIGNED_BYTE].

Lemma readPixelsFor_calls context tex range h :
  readPixelsFor context tex range h = Some (tt, transferCalls context tex range).
Proof.
  unfold readPixelsFor, transferCalls, IGL_ASSERT, call.
  destruct (isRGBA_UInt32 (getFormat tex));
    [destruct (TextureInteger (deviceFeatures context))|]; reflexivity.
Qed.

(** X2.  [copyBytesColorAttachment] rejects every index other than 0, and
    index 0 when no texture is attached there: it reports the programmer
    error and makes no call on the driver at all (no binding is touched, no
    pixel is read). *)
Theorem copyBytesColorAttachment_rejects context id getAttachment index range bytesPerRow h :
  (index <> 0 ->
   copyBytesColorAttachment context id getAttachment index range bytesPerRow h =
     Some (tt, [AssertionReport "Invalid index"])) /\
  (getAttachment 0 = None ->
   copyBytesColorAttachment context id getAttachment 0 range bytesPerRow h =
     Some (tt, [AssertionReport "IGL_ASSERT_NOT_IMPLEMENTED"])).
Proof.
  split.
  - intros Hi. unfold copyBytesColorAttachment.
    destruct (Z.eqb_spec index 0) as [E|E]; [contradiction|]. reflexivity.
  - intros Ha. unfold copyBytesColorAttachment. simpl. rewrite Ha. reflexivity.
Qed.

Lemma copyBytesColorAttachment_rejects_witness :
  1 <> 0 /\
  (fun _ : Z => @None TextureRef) 0 = None /\
  copyBytesColorAttachment completeContext 3 (fun _ => Some 1) 1 (mkRange 0 0 4 4 0 0) 0 [] =
    Some (tt, [AssertionReport "Invalid index"]) /\
  copyBytesColorAttachment completeContext 3 (fun _ => None) 0 (mkRange 0 0 4 4 0 0) 0 [] =
    Some (tt, [AssertionReport "IGL_ASSERT_NOT_IMPLEMENTED"]).
Proof.
  assert (H1 : 1 <> 0) by discriminate.
  split; [exact H1|]. split; [reflexivity|]. split.
  - exact (proj1 (copyBytesColorAttachment_rejects completeContext 3 (fun _ => Some 1) 1
                    (mkRange 0 0 4 4 0 0) 0 []) H1).
  - exact (proj2 (copyBytesColorAttachment_rejects completeContext 3 (fun _ => None) 0
                    (mkRange 0 0 4 4 0 0) 0 []) eq_refl).
Defined.

(** X3.  Reading back a texture with at most one layer: the object's own
    framebuffer is bound for reading (on the read binding point when the
    driver has one), the pack alignment is set from the caller's row stride,
    or from the texture's own row stride for the range when the caller
    passes 0, the pipeline is flushed, the pixels are transferred, and the
    bindings captured on entry are restored.  No framebuffer is created or
    deleted. *)
Theorem copyBytesColorAttachment_single_layer context id getAttachment range bytesPerRow
    itexture h :
  getAttachment 0 = Some itexture ->
  getNumLayers (textureObject context itexture) <= 1 ->
  exists guard,
    FramebufferBindingGuard_new context h = Some (guard, []) /\
    copyBytesColorAttachment context id getAttachment 0 range bytesPerRow h =
      Some (tt,
            [BindFramebuffer
               (if ReadWriteFramebuffer (deviceFeatures context)
                then GL_READ_FRAMEBUFFER else GL_FRAMEBUFFER) id;
             PixelStorei GL_PACK_ALIGNMENT
               (getAlignment (textureObject context itexture)
                  (if bytesPerRow =? 0
                   then getBytesPerRow (textureObject context itexture) range
                   else bytesPerRow)
                  (range_mipLevel range));
             Flush] ++
            transferCalls context (textureObject context itexture) range ++
            restoreCalls context guard).
Proof.
  intros Ha Hl. unfold copyBytesColorAttachment. simpl. rewrite Ha.
  destruct (FramebufferBindingGuard_new_run context h) as (guard & Hg & _).
  exists guard. split; [exact Hg|].
  rewrite (bind_gl_run _ _ h guard [] Hg).
  replace (1 <? getNumLayers (textureObject context itexture)) with false
    by (symmetry; apply Z.ltb_ge; exact Hl).
  unfold bindBufferForRead, bindBuffer.
  rewrite (bind_gl_run _ _ _ 0
             [BindFramebuffer (if ReadWriteFramebuffer (deviceFeatures context)
                               then GL_READ_FRAMEBUFFER else GL_FRAMEBUFFER) id])
    by (destruct (ReadWriteFramebuffer (deviceFeatures context)); reflexivity).
  rewrite (bind_gl_run _ _ _ tt _ eq_refl).
  rewrite (bind_gl_run _ _ _ tt [Flush] eq_refl).
  rewrite (bind_gl_run _ _ _ tt _ (readPixelsFor_calls _ _ _ _)).
  rewrite (bind_gl_run _ _ _ tt [] eq_refl).
  rewrite FramebufferBindingGuard_delete_run. fold (restoreCalls context guard).
  simpl. rewrite ?app_nil_r. reflexivity.
Qed.

Lemma copyBytesColorAttachment_single_layer_witness :
  (fun _ : Z => Some 20) 0 = Some 20 /\
  getNumLayers (textureObject bareContext 20) <= 1 /\
  copyBytesColorAttachment bareContext 3 (fun _ => Some 20) 0 (mkRange 1 2 4 8 0 0) 0 [] =
    Some (tt, [BindFramebuffer GL_FRAMEBUFFER 3; PixelStorei GL_PACK_ALIGNMENT 4; Flush;
               ReadPixels 1 2 4 8 GL_RGBA GL_UNSIGNED_BYTE;
               BindFramebuffer GL_FRAMEBUFFER 5; BindRenderbuffer GL_RENDERBUFFER 7]).
Proof.
  assert (H1 : (fun _ : Z => Some 20) 0 = Some 20) by reflexivity.
  assert (H2 : getNumLayers (textureObject bareContext 20) <= 1) by (vm_compute; discriminate).
  split; [exact H1|]. split; [exact H2|].
  destruct (copyBytesColorAttachment_single_layer bareContext 3 (fun _ => Some 20)
              (mkRange 1 2 4 8 0 0) 0 20 [] H1 H2) as (guard & Hg & Hc).
  vm_compute in Hg. inversion Hg; subst guard. exact Hc.
Defined.

(** A texture array with six layers, and a driver that knows it as
    texture 60. *)
Definition layeredTexture : Texture :=
  mkTexture TwoDArray (OtherFormat 0) 6 1 13 false false (fun rg => 4 * range_width rg)
    (fun _ _ => 4).

Definition layeredContext : IContext :=
  mkContext allFeatures false
    (fun t => if t =? 60 then layeredTexture else sampleTextures t)
    (fun _ pname => if pname =? GL_RENDERBUFFER_BINDING then 7 else 5)
    (fun _ _ => GL_FRAMEBUFFER_COMPLETE)
    (fun h => 1 + Z.of_nat (List.length (genFramebuffersCalls h))).

(** X4.  Reading back a texture with more than one layer goes through a
    scratch framebuffer: one is created and bound for reading, the
    requested layer of the texture is attached to it, the pixels are
    transferred, the layer is detached, the scratch framebuffer is deleted
    (when the driver gave it a non-zero name) and the bindings captured on
    entry are restored.  The object's own framebuffer is not bound. *)
Theorem copyBytesColorAttachment_layered context id getAttachment range bytesPerRow
    itexture h :
  getAttachment 0 = Some itexture ->
  1 < getNumLayers (textureObject context itexture) ->
  let scratch := driverNewFramebuffer context h in
  exists guard,
    FramebufferBindingGuard_new context h = Some (guard, []) /\
    copyBytesColorAttachment context id getAttachment 0 range bytesPerRow h =
      Some (tt,
            [GenFramebuffers scratch;
             BindFramebuffer GL_READ_FRAMEBUFFER scratch;
             FramebufferTextureLayer GL_READ_FRAMEBUFFER GL_COLOR_ATTACHMENT0
               (getId (textureObject context itexture)) 0 (to_uint32 (range_layer range));
             PixelStorei GL_PACK_ALIGNMENT
               (getAlignment (textureObject context itexture)
                  (if bytesPerRow =? 0
                   then getBytesPerRow (textureObject context itexture) range
                   else bytesPerRow)
                  (range_mipLevel range));
             Flush] ++
            transferCalls context (textureObject context itexture) range ++
            [FramebufferTextureLayer GL_READ_FRAMEBUFFER GL_COLOR_ATTACHMENT0 0 0 0] ++
            (if 0 <? scratch then [DeleteFramebuffers scratch] else []) ++
            restoreCalls context guard).
Proof.
  intros Ha Hl scratch. unfold copyBytesColorAttachment. simpl. rewrite Ha.
  destruct (FramebufferBindingGuard_new_run context h) as (guard & Hg & _).
  exists guard. split; [exact Hg|].
  rewrite (bind_gl_run _ _ h guard [] Hg).
  replace (1 <? getNumLayers (textureObject context itexture)) with true
    by (symmetry; apply Z.ltb_lt; exact Hl).
  rewrite app_nil_r.
  assert (Hsetup :
            (extra <- genFramebuffers context;;
             call (BindFramebuffer GL_READ_FRAMEBUFFER extra);;
             attachAsColorLayer context (Some itexture) (to_uint32 (range_layer range));;
             _ <- checkFramebufferStatus context;; ret extra) h =
            Some (scratch,
                  [GenFramebuffers scratch;
                   BindFramebuffer GL_READ_FRAMEBUFFER scratch;
                   FramebufferTextureLayer GL_READ_FRAMEBUFFER GL_COLOR_ATTACHMENT0
                     (getId (textureObject context itexture)) 0
                     (to_uint32 (range_layer range))])).
  { unfold genFramebuffers, attachAsColorLayer.
    match goal with
    | |- _ = Some (_, ?ev) =>
        destruct (checkFramebufferStatus_run context (h ++ ev)) as (res & Hres & _)
    end.
    change (Some (scratch, ?ev)) with (Some (scratch, ev)).
    erewrite bind_gl_Some; [| reflexivity |].
    2:{ erewrite bind_gl_Some; [| reflexivity |].
        2:{ erewrite bind_gl_Some; [| reflexivity |].
            2:{ erewrite bind_gl_Some; [reflexivity | | reflexivity].
                simpl app. rewrite <- Hres. f_equal.
                rewrite <- !app_assoc. reflexivity. }
            reflexivity. }
        reflexivity. }
    reflexivity. }
  rewrite (bind_gl_run _ _ h _ _ Hsetup).
  rewrite (bind_gl_run _ _ _ tt _ eq_refl).
  rewrite (bind_gl_run _ _ _ tt [Flush] eq_refl).
  rewrite (bind_gl_run _ _ _ tt _ (readPixelsFor_calls _ _ _ _)).
  unfold attachAsColorLayer.
  match goal with
  | |- context [bind_gl (bind_gl (call ?c) _) _ ?hh] =>
      destruct (checkFramebufferStatus_run context (hh ++ [c])) as (res & Hres & _);
      rewrite (bind_gl_run _ _ hh tt
                 ([c] ++ (if 0 <? scratch then [DeleteFramebuffers scratch] else [])))
  end.
  2:{ unfold bind_gl, call. rewrite Hres.
      destruct (0 <? scratch); reflexivity. }
  rewrite FramebufferBindingGuard_delete_run. fold (restoreCalls context guard).
  simpl. rewrite <- ?app_assoc. reflexivity.
Qed.

Lemma copyBytesColorAttachment_layered_witness :
  (fun _ : Z => Some 60) 0 = Some 60 /\
  1 < getNumLayers (textureObject layeredContext 60) /\
  copyBytesColorAttachment layeredContext 3 (fun _ => Some 60) 0 (mkRange 0 0 4 4 2 0) 0 [] =
    Some (tt, [GenFramebuffers 1; BindFramebuffer GL_READ_FRAMEBUFFER 1;
               FramebufferTextureLayer GL_READ_FRAMEBUFFER GL_COLOR_ATTACHMENT0 13 0 2;
               PixelStorei GL_PACK_ALIGNMENT 4; Flush;
               ReadPixels 0 0 4 4 GL_RGBA GL_UNSIGNED_BYTE;
               FramebufferTextureLayer GL_READ_FRAMEBUFFER GL_COLOR_ATTACHMENT0 0 0 0;
               DeleteFramebuffers 1;
               BindFramebuffer GL_READ_FRAMEBUFFER 5; BindFramebuffer GL_DRAW_FRAMEBUFFER 5;
               BindRenderbuffer GL_RENDERBUFFER 7]).
Proof.
  assert (H1 : (fun _ : Z => Some 60) 0 = Some 60) by reflexivity.
  assert (H2 : 1 < getNumLayers (textureObject layeredContext 60)) by reflexivity.
  split; [exact H1|]. split; [exact H2|].
  destruct (copyBytesColorAttachment_layered layeredContext 3 (fun _ => Some 60)
              (mkRange 0 0 4 4 2 0) 0 60 [] H1 H2) as (guard & Hg & Hc).
  vm_compute in Hg. inversion Hg; subst guard. exact Hc.
Defined.

(** ** Texture-to-texture copy *)

(** X5.  [copyTextureColorAttachment] rejects every index other than 0 and
    an absent attachment 0 without any call on the driver; otherwise it
    binds the object's framebuffer for reading, binds the destination
    texture, copies the region of the range to offset (0, 0) of level 0 of
    the destination, and restores the framebuffer and render-buffer
    bindings captured on entry. *)
Theorem copyTextureColorAttachment_calls context id getAttachment index destTexture range h :
  (index <> 0 \/ getAttachment index = None ->
   copyTextureColorAttachment context id getAttachment index destTexture range h =
     Some (tt, [AssertionReport "Invalid index"])) /\
  (index = 0 -> getAttachment 0 <> None ->
   exists guard,
     FramebufferBindingGuard_new context h = Some (guard, []) /\
     copyTextureColorAttachment context id getAttachment index destTexture range h =
       Some (tt,
             [BindFramebuffer
                (if ReadWriteFramebuffer (deviceFeatures context)
                 then GL_READ_FRAMEBUFFER else GL_FRAMEBUFFER) id;
              TextureBind destTexture;
              CopyTexSubImage2D GL_TEXTURE_2D 0 0 0
                (to_int32 (range_x range)) (to_int32 (range_y range))
                (to_int32 (range_width range)) (to_int32 (range_height range))] ++
             restoreCalls context guard)).
Proof.
  split.
  - intros Hbad. unfold copyTextureColorAttachment.
    replace (negb (index =? 0) || negb (isSome (getAttachment index))) with true;
      [reflexivity|].
    symmetry. apply orb_true_iff. destruct Hbad as [Hi|Hn].
    + left. destruct (Z.eqb_spec index 0); [contradiction|reflexivity].
    + right. rewrite Hn. reflexivity.
  - intros Hi Hsome. subst index. unfold copyTextureColorAttachment.
    destruct (getAttachment 0) as [t|] eqn:Ha; [|contradiction]. simpl.
    destruct (FramebufferBindingGuard_new_run context h) as (guard & Hg & _).
    exists guard. split; [exact Hg|].
    rewrite (bind_gl_run _ _ h guard [] Hg).
    unfold bindBufferForRead, bindBuffer.
    rewrite (bind_gl_run _ _ _ tt
               [BindFramebuffer (if ReadWriteFramebuffer (deviceFeatures context)
                                 then GL_READ_FRAMEBUFFER else GL_FRAMEBUFFER) id])
      by (destruct (ReadWriteFramebuffer (deviceFeatures context)); reflexivity).
    rewrite (bind_gl_run _ _ _ tt [TextureBind destTexture] eq_refl).
    rewrite (bind_gl_run _ _ _ tt _ eq_refl).
    rewrite FramebufferBindingGuard_delete_run. fold (restoreCalls context guard).
    reflexivity.
Qed.

Lemma copyTextureColorAttachment_calls_witness :
  (1 <> 0 \/ (fun _ : Z => Some 20) 1 = None) /\
  (fun _ : Z => Some 20) 0 <> None /\
  copyTextureColorAttachment bareContext 3 (fun _ => Some 20) 1 21 (mkRange 1 2 4 8 0 0) [] =
    Some (tt, [AssertionReport "Invalid index"]) /\
  copyTextureColorAttachment bareContext 3 (fun _ => Some 20) 0 21 (mkRange 1 2 4 8 0 0) [] =
    Some (tt, [BindFramebuffer GL_FRAMEBUFFER 3; TextureBind 21;
               CopyTexSubImage2D GL_TEXTURE_2D 0 0 0 1 2 4 8;
               BindFramebuffer GL_FRAMEBUFFER 5; BindRenderbuffer GL_RENDERBUFFER 7]).
Proof.
  assert (H1 : 1 <> 0 \/ (fun _ : Z => Some 20) 1 = None) by (left; discriminate).
  assert (H2 : (fun _ : Z => Some 20) 0 <> None) by discriminate.
  split; [exact H1|]. split; [exact H2|]. split.
  - exact (proj1 (copyTextureColorAttachment_calls bareContext 3 (fun _ => Some 20) 1 21
                    (mkRange 1 2 4 8 0 0) []) H1).
  - destruct (proj2 (copyTextureColorAttachment_calls bareContext 3 (fun _ => Some 20) 0 21
                       (mkRange 1 2 4 8 0 0) []) eq_refl H2) as (guard & Hg & Hc).
    vm_compute in Hg. inversion Hg; subst guard. exact Hc.
Defined.

(** ** What [initialize] leaves in the object *)

Section InitializedObject.

Variable defaultMode : FramebufferMode.
Variable defaultRenderPass : RenderPassDesc.
Variable context : IContext.

Lemma prepareResource_rest_object rec fb outResult result h eA fb' out e :
  prepareResource_rest defaultMode defaultRenderPass rec fb outResult result h eA =
    Some ((fb', out), e) ->
  renderTarget_ fb' = renderTarget_ fb /\
  renderPass_ fb' = renderPass_ fb /\
  frameBufferID_ fb' = frameBufferID_ fb /\
  (resolveFramebuffer fb' = resolveFramebuffer fb \/
   exists nested nout eN,
     rec (CustomFramebuffer_new defaultMode defaultRenderPass)
       (mkDesc (fst (collectResolve (colorAttachments (renderTarget_ fb)) [] false))
          (mkAttachment (resolveTexture (depthAttachment (renderTarget_ fb))) None)
          (mkAttachment (resolveTexture (stencilAttachment (renderTarget_ fb))) None)
          defaultMode)
       (Some result) (h ++ eA) = Some ((nested, nout), eN) /\
     resolveFramebuffer fb' = Some nested).
Proof.
  unfold prepareResource_rest.
  repeat match goal with
         | |- context [if ?c then _ else _] => destruct c
         end;
    try (intros H; inversion H; subst;
         split; [reflexivity|split; [reflexivity|split; [reflexivity|left; reflexivity]]]).
  destruct (rec _ _ _ _) as [[[nested nout] eN]|] eqn:Hrec; [|discriminate].
  intros H; inversion H; subst.
  split; [reflexivity|split; [reflexivity|split; [reflexivity|right]]].
  exists nested, nout, eN. split; reflexivity.
Qed.

(** The shape of the object after a first [initialize]. *)
Lemma initialize_with_object rec fb desc outResult h fb' out e :
  isInitialized fb = false ->
  initialize_with defaultMode defaultRenderPass rec context fb desc outResult h =
    Some ((fb', out), e) ->
  renderTarget_ fb' = desc /\
  renderPass_ fb' = renderPass_ fb /\
  isInitialized fb' = true /\
  frameBufferID_ fb' =
    (if hasImplicitColorAttachment context (set_renderTarget (set_initialized fb true) desc)
     then frameBufferID_ fb else driverNewFramebuffer context h) /\
  (resolveFramebuffer fb' = resolveFramebuffer fb \/
   exists nested nout result h1 eN,
     rec (CustomFramebuffer_new defaultMode defaultRenderPass)
       (mkDesc (fst (collectResolve (colorAttachments desc) [] false))
          (mkAttachment (resolveTexture (depthAttachment desc)) None)
          (mkAttachment (resolveTexture (stencilAttachment desc)) None)
          defaultMode)
       (Some result) h1 = Some ((nested, nout), eN) /\
     resolveFramebuffer fb' = Some nested).
Proof.
  intros Hi. rewrite initialize_with_cases, Hi.
  destruct (FramebufferBindingGuard_new context h) as [[guard eg]|]; [|discriminate].
  destruct (hasImplicitColorAttachment context _).
  - intros H; inversion H; subst.
    split; [reflexivity|split; [reflexivity|split; [reflexivity|split; [reflexivity|]]]].
    left. reflexivity.
  - destruct (prepareResource_with_run defaultMode defaultRenderPass context rec
                (set_renderTarget (set_initialized fb true) desc) outResult h)
      as (eA & result & _ & _ & _ & Hp).
    rewrite Hp.
    destruct (prepareResource_rest _ _ _ _ _ _ _ _) as [[[fbr outr] er]|] eqn:Hr;
      [|discriminate].
    intros H; inversion H; subst.
    pose proof Hr as Hinit. apply prepareResource_rest_initialized in Hinit.
    apply prepareResource_rest_object in Hr.
    destruct Hr as (Ht & Hpass & Hid & Hres).
    split; [exact Ht|]. split; [exact Hpass|].
    split; [exact Hinit|].
    split; [exact Hid|].
    destruct Hres as [Hres|(nested & nout & eN & Hrec & Hres)]; [left; exact Hres|].
    right. exists nested, nout, result, (h ++ eA), eN. split; [exact Hrec|exact Hres].
Qed.

(** X6.  [initialize] on an uninitialised object whose colour attachment 0
    is window-provided storage creates no framebuffer and attaches nothing:
    it only constructs and destroys its binding guard, reports [Ok], keeps
    framebuffer identifier 0 and stores the descriptor. *)
Theorem initialize_implicit_creates_nothing fb desc outResult h :
  isInitialized fb = false ->
  hasImplicitColorAttachment context (set_renderTarget (set_initialized fb true) desc)
    = true ->
  exists guard,
    FramebufferBindingGuard_new context h = Some (guard, []) /\
    initialize defaultMode defaultRenderPass context fb desc outResult h =
      Some ((set_renderTarget (set_initialized fb true) desc, setOk outResult),
            restoreCalls context guard) /\
    frameBufferID_ (set_renderTarget (set_initialized fb true) desc) = 0.
Proof.
  intros Hi Himp.
  destruct (FramebufferBindingGuard_new_run context h) as (guard & Hg & _).
  exists guard. split; [exact Hg|]. split.
  - unfold initialize. rewrite initialize_with_cases, Hi, Hg, Himp. reflexivity.
  - unfold hasImplicitColorAttachment in Himp.
    destruct (Z.eqb_spec (frameBufferID_ (set_renderTarget (set_initialized fb true) desc)) 0)
      as [E|E]; [exact E|]. simpl in Himp. discriminate.
Qed.

(** X7.  After a first [initialize], whatever it reports, the object holds
    the descriptor it was given, so the accessors read that descriptor; its
    cached pass is untouched; and its framebuffer identifier is the one it
    had (0) when colour attachment 0 is window-provided storage, and the
    name generated by the driver otherwise, also when the completeness
    check failed. *)
Theorem initialize_stores_descriptor fb desc outResult h fb' out e :
  isInitialized fb = false ->
  initialize defaultMode defaultRenderPass context fb desc outResult h =
    Some ((fb', out), e) ->
  renderTarget_ fb' = desc /\
  getColorAttachmentIndices fb' = map fst (colorAttachments desc) /\
  (forall i, getColorAttachment fb' i =
             match AttachmentMap.find i (colorAttachments desc) with
             | Some a => texture a
             | None => None
             end) /\
  renderPass_ fb' = renderPass_ fb /\
  frameBufferID_ fb' =
    (if hasImplicitColorAttachment context (set_renderTarget (set_initialized fb true) desc)
     then frameBufferID_ fb else driverNewFramebuffer context h).
Proof.
  intros Hi H. unfold initialize in H.
  destruct (initialize_with_object _ _ _ _ _ _ _ _ Hi H) as (Ht & Hp & _ & Hid & _).
  split; [exact Ht|]. unfold getColorAttachmentIndices, getColorAttachment. rewrite Ht.
  repeat split; assumption.
Qed.

End InitializedObject.

Lemma initialize_implicit_creates_nothing_witness :
  isInitialized sampleNew = false /\
  hasImplicitColorAttachment completeContext
    (set_renderTarget (set_initialized sampleNew true) implicitDesc) = true /\
  sampleInitialize completeContext sampleNew implicitDesc (Some (mkResult RuntimeError "")) [] =
    Some ((set_renderTarget (set_initialized sampleNew true) implicitDesc,
           Some (mkResult Ok "")),
          [BindFramebuffer GL_READ_FRAMEBUFFER 5; BindFramebuffer GL_DRAW_FRAMEBUFFER 5;
           BindRenderbuffer GL_RENDERBUFFER 7]).
Proof.
  assert (H1 : isInitialized sampleNew = false) by reflexivity.
  assert (H2 : hasImplicitColorAttachment completeContext
                 (set_renderTarget (set_initialized sampleNew true) implicitDesc) = true)
    by reflexivity.
  split; [exact H1|]. split; [exact H2|].
  destruct (initialize_implicit_creates_nothing Mono samplePassDefault completeContext
              sampleNew implicitDesc (Some (mkResult RuntimeError "")) [] H1 H2)
    as (guard & Hg & Hinit & _).
  vm_compute in Hg. inversion Hg; subst guard. exact Hinit.
Defined.

Lemma initialize_stores_descriptor_witness :
  isInitialized sampleNew = false /\
  sampleInitialize incompleteContext sampleNew depthStencilDesc (Some (mkResult Ok "")) [] =
    Some ((sampleFailed, Some (mkResult RuntimeError "GL_FRAMEBUFFER_UNSUPPORTED")),
          [GenFramebuffers 1; BindFramebuffer GL_FRAMEBUFFER 1;
           TextureAttachAsColor 20 0 0 0; TextureAttachAsDepth 40; TextureAttachAsStencil 41;
           AssertionReport "GL_FRAMEBUFFER_UNSUPPORTED";
           BindFramebuffer GL_FRAMEBUFFER 0; BindRenderbuffer GL_RENDERBUFFER 7]) /\
  renderTarget_ sampleFailed = depthStencilDesc /\
  frameBufferID_ sampleFailed = 1.
Proof.
  assert (H1 : isInitialized sampleNew = false) by reflexivity.
  assert (H2 : sampleInitialize incompleteContext sampleNew depthStencilDesc
                 (Some (mkResult Ok "")) [] =
               Some ((sampleFailed, Some (mkResult RuntimeError "GL_FRAMEBUFFER_UNSUPPORTED")),
                     [GenFramebuffers 1; BindFramebuffer GL_FRAMEBUFFER 1;
                      TextureAttachAsColor 20 0 0 0; TextureAttachAsDepth 40;
                      TextureAttachAsStencil 41;
                      AssertionReport "GL_FRAMEBUFFER_UNSUPPORTED";
                      BindFramebuffer GL_FRAMEBUFFER 0; BindRenderbuffer GL_RENDERBUFFER 7]))
    by reflexivity.
  split; [exact H1|]. split; [exact H2|].
  destruct (initialize_stores_descriptor Mono samplePassDefault incompleteContext sampleNew
              depthStencilDesc (Some (mkResult Ok "")) [] _ _ _ H1 H2)
    as (Ht & _ & _ & _ & Hid).
  split; [exact Ht|exact Hid].
Defined.

(** ** The nested resolve framebuffer *)

Lemma resolvePart_keys atts i :
  In i (map fst (resolvePart atts)) -> In i (map fst atts).
Proof.
  unfold resolvePart. rewrite map_map. simpl.
  induction atts as [|[k a] rest IH]; simpl; [tauto|].
  destruct (declaresResolve (k, a)); simpl; tauto.
Qed.

Lemma find_resolvePart atts i :
  NoDup (map fst atts) ->
  AttachmentMap.find i (resolvePart atts) =
    match AttachmentMap.find i atts with
    | Some a => if isSome (resolveTexture a)
                then Some (mkAttachment (resolveTexture a) None) else None
    | None => None
    end.
Proof.
  induction atts as [|[k a] rest IH]; intros Hnd; [reflexivity|].
  simpl in Hnd. inversion Hnd as [|? ? Hnotin Hnd']; subst.
  unfold resolvePart. simpl. unfold declaresResolve at 1. simpl.
  destruct (Z.eqb_spec i k) as [E|E].
  - subst i. destruct (isSome (resolveTexture a)); simpl.
    + rewrite Z.eqb_refl. reflexivity.
    + apply find_not_in. intros Hin. apply Hnotin.
      exact (resolvePart_keys rest k Hin).
  - destruct (isSome (resolveTexture a)); simpl.
    + destruct (Z.eqb_spec i k); [contradiction|]. exact (IH Hnd').
    + exact (IH Hnd').
Qed.

Lemma find_Forall {V : Type} (P : Z * V -> Prop) (m : list (Z * V)) i v :
  Forall P m -> AttachmentMap.find i m = Some v -> exists k, P (k, v).
Proof.
  induction 1 as [|[k w] rest Hhd _ IH]; simpl; [discriminate|].
  destruct (i =? k).
  - intros H; inversion H; subst. exists k. exact Hhd.
  - exact IH.
Qed.

Section ResolveTarget.

Variable defaultMode : FramebufferMode.
Variable defaultRenderPass : RenderPassDesc.
Variable context : IContext.

Lemma initialize_leaf_object fb0 d outResult h cfb out e :
  noResolve d ->
  isInitialized fb0 = false ->
  initialize_leaf defaultMode defaultRenderPass context fb0 d outResult h =
    Some ((cfb, out), e) ->
  renderTarget_ cfb = d /\
  resolveFramebuffer cfb = resolveFramebuffer fb0 /\
  isInitialized cfb = true.
Proof.
  intros Hn Hi. unfold initialize_leaf. rewrite initialize_with_cases, Hi.
  destruct (FramebufferBindingGuard_new context h) as [[guard eg]|]; [|discriminate].
  destruct (hasImplicitColorAttachment context _).
  - intros H; inversion H; subst. repeat split.
  - match goal with
    | |- context [prepareResource_with _ _ ?rec _ ?f ?o ?hh] =>
        destruct (prepareResource_with_run defaultMode defaultRenderPass context rec f o hh)
          as (eA & result & _ & _ & _ & Hp)
    end.
    rewrite Hp, prepareResource_rest_noResolve by exact Hn.
    destruct (negb (isOk result)); intros H; inversion H; subst; repeat split.
Qed.

(** X8.  When a first [initialize] builds a nested resolve framebuffer
    (colour attachment indices pairwise distinct), that framebuffer holds,
    at every index, as its colour texture the resolve texture the
    descriptor declares at that index, as depth and stencil textures the
    resolve textures of depth and stencil, declares no resolve texture of
    its own, has no nested framebuffer itself, and is initialised. *)
Theorem resolve_target_mirrors_resolve_textures fb desc outResult h fb' out e nested :
  isInitialized fb = false ->
  resolveFramebuffer fb = None ->
  NoDup (map fst (colorAttachments desc)) ->
  initialize defaultMode defaultRenderPass context fb desc outResult h =
    Some ((fb', out), e) ->
  resolveFramebuffer fb' = Some nested ->
  (forall i, getColorAttachment nested i = getResolveColorAttachment fb' i) /\
  getDepthAttachment nested = resolveTexture (depthAttachment desc) /\
  getStencilAttachment nested = resolveTexture (stencilAttachment desc) /\
  (forall i, getResolveColorAttachment nested i = None) /\
  resolveFramebuffer nested = None /\
  isInitialized nested = true.
Proof.
  intros Hi Hnone Hnd Hinit Hnested. unfold initialize in Hinit.
  destruct (initialize_with_object defaultMode defaultRenderPass context
              _ _ _ _ _ _ _ _ Hi Hinit) as (Ht & _ & _ & _ & Hres).
  destruct Hres as [Hres|(nested' & nout & result & h1 & eN & Hleaf & Hres)];
    [congruence|].
  rewrite Hres in Hnested. inversion Hnested; subst nested'.
  destruct (initialize_leaf_object (CustomFramebuffer_new defaultMode defaultRenderPass)
              _ _ _ _ _ _
              (resolve_descriptor_noResolve defaultMode _ _ _) eq_refl Hleaf)
    as (Htn & Hrn & Hin).
  unfold getColorAttachment, getResolveColorAttachment, getDepthAttachment,
    getStencilAttachment.
  rewrite Htn, Ht. simpl.
  rewrite (collectResolve_spec (colorAttachments desc) [] false Hnd). simpl.
  split; [|split; [reflexivity|split; [reflexivity|split; [|split; [exact Hrn|exact Hin]]]]].
  - intros i. rewrite (find_resolvePart _ i Hnd).
    destruct (AttachmentMap.find i (colorAttachments desc)) as [a|]; [|reflexivity].
    destruct (resolveTexture a); reflexivity.
  - intros i.
    destruct (AttachmentMap.find i (resolvePart (colorAttachments desc))) as [a|] eqn:Hf;
      [|reflexivity].
    pose proof (collectResolve_entries (colorAttachments desc) [] false (Forall_nil _))
      as Hall.
    rewrite (collectResolve_spec (colorAttachments desc) [] false Hnd) in Hall.
    simpl in Hall.
    destruct (find_Forall _ _ _ _ Hall Hf) as (k & Hk). exact Hk.
Qed.

Lemma CustomFramebuffer_delete_unfold fb h :
  CustomFramebuffer_delete fb h =
    (CustomFramebuffer_delete_body fb ;;
     match resolveFramebuffer fb with
     | Some nested => CustomFramebuffer_delete nested
     | None => ret tt
     end) h.
Proof. destruct fb; reflexivity. Qed.

(** The names the destructor body releases. *)
Definition ownDeletion (fb : CustomFramebuffer) : list Call :=
  if negb (frameBufferID_ fb =? 0) then [DeleteFramebuffers (frameBufferID_ fb)] else [].

Lemma CustomFramebuffer_delete_body_calls fb h :
  exists fb1, CustomFramebuffer_delete_body fb h = Some (fb1, ownDeletion fb).
Proof.
  unfold CustomFramebuffer_delete_body, ownDeletion.
  destruct (negb (frameBufferID_ fb =? 0)); eexists; reflexivity.
Qed.

Lemma CustomFramebuffer_delete_leaf fb h :
  resolveFramebuffer fb = None ->
  CustomFramebuffer_delete fb h = Some (tt, ownDeletion fb).
Proof.
  intros Hnone. rewrite CustomFramebuffer_delete_unfold.
  destruct (CustomFramebuffer_delete_body_calls fb h) as (fb1 & Hb).
  rewrite (bind_gl_run _ _ h fb1 _ Hb), Hnone. unfold ret. rewrite app_nil_r. reflexivity.
Qed.

Lemma CustomFramebuffer_delete_nested fb nested h :
  resolveFramebuffer fb = Some nested ->
  resolveFramebuffer nested = None ->
  CustomFramebuffer_delete fb h = Some (tt, ownDeletion fb ++ ownDeletion nested).
Proof.
  intros Hsome Hnone. rewrite CustomFramebuffer_delete_unfold.
  destruct (CustomFramebuffer_delete_body_calls fb h) as (fb1 & Hb).
  rewrite (bind_gl_run _ _ h fb1 _ Hb), Hsome.
  rewrite (CustomFramebuffer_delete_leaf nested _ Hnone). reflexivity.
Qed.

(** X9.  The destructor releases what a first [initialize] acquired.  On
    an object that held no framebuffer name and no nested framebuffer
    before, the destructor deletes exactly the framebuffer names the driver
    generated during [initialize], each once and in the order in which
    they were generated: the object's own name in the destructor body, then
    the name of the nested resolve framebuffer when the member is
    destroyed.  A name 0 is not deleted, and when nothing was generated
    (window-provided storage on attachment 0) no call is made. *)
Theorem destructor_releases_generated_framebuffer fb desc outResult h fb' out e h' :
  isInitialized fb = false ->
  frameBufferID_ fb = 0 ->
  resolveFramebuffer fb = None ->
  initialize defaultMode defaultRenderPass context fb desc outResult h =
    Some ((fb', out), e) ->
  CustomFramebuffer_delete fb' h' =
    Some (tt, map DeleteFramebuffers
                (filter (fun name => negb (name =? 0)) (genFramebuffersCalls e))).
Proof.
  intros Hi Hid0 Hnone Hinit.
  unfold initialize in Hinit. rewrite initialize_with_cases, Hi in Hinit.
  destruct (FramebufferBindingGuard_new_run context h) as (guard & Hg & _).
  rewrite Hg in Hinit.
  set (fb1 := set_renderTarget (set_initialized fb true) desc) in *.
  destruct (hasImplicitColorAttachment context fb1).
  - inversion Hinit; subst fb' out e. clear Hinit.
    rewrite restoreCalls_no_generated.
    rewrite CustomFramebuffer_delete_leaf by exact Hnone.
    unfold ownDeletion, fb1. cbn [frameBufferID_ set_renderTarget set_initialized].
    rewrite Hid0. reflexivity.
  - destruct (prepareResource_with_run defaultMode defaultRenderPass context
                (initialize_leaf defaultMode defaultRenderPass context) fb1 outResult h)
      as (eA & result & HA & _ & _ & Hp).
    rewrite Hp in Hinit. clear Hp.
    destruct (prepareResource_rest defaultMode defaultRenderPass _ _ _ _ _ _)
      as [[res eP]|] eqn:Hrest; [|discriminate].
    inversion Hinit; subst e. clear Hinit.
    assert (Hres : res = (fb', out)) by assumption. subst res.
    destruct (prepareResource_rest_leaf_events defaultMode defaultRenderPass context
                (set_frameBufferID fb1 (driverNewFramebuffer context h))
                _ _ _ _ _ _ Hnone Hrest) as (eX & HeP & Hid & Hshape).
    subst eP. cbn [fst frameBufferID_ set_frameBufferID] in Hid, Hshape.
    rewrite !genFramebuffersCalls_app, restoreCalls_no_generated, app_nil_r.
    rewrite (createAndAttach_generated context _ _ _ _ HA).
    destruct (resolveFramebuffer fb') as [nested|] eqn:Hnested.
    + destruct Hshape as (Hnn & Hnid & _ & Hngen).
      rewrite (CustomFramebuffer_delete_nested fb' nested _ Hnested Hnn), Hngen.
      unfold ownDeletion. rewrite Hid, Hnid.
      destruct (hasImplicitColorAttachment context nested); cbn [app filter map];
        destruct (driverNewFramebuffer context h =? 0);
        try destruct (driverNewFramebuffer context (h ++ eA) =? 0); reflexivity.
    + destruct Hshape as (_ & Hngen).
      rewrite (CustomFramebuffer_delete_leaf fb' _ Hnested), Hngen.
      unfold ownDeletion. rewrite Hid. cbn [app filter map].
      destruct (driverNewFramebuffer context h =? 0); reflexivity.
Qed.

(** X10.  For a descriptor without any resolve texture, a first
    [initialize] on a target that is not window-provided reports exactly
    the outcome of the completeness check of the framebuffer it has built,
    [Ok] when the driver reports it complete and [RuntimeError] otherwise,
    and builds no nested resolve framebuffer. *)
Theorem initialize_reports_completeness fb desc r0 h :
  noResolve desc ->
  isInitialized fb = false ->
  hasImplicitColorAttachment context (set_renderTarget (set_initialized fb true) desc)
    = false ->
  exists fbA eA fb' result e,
    createAndAttach context (set_renderTarget (set_initialized fb true) desc) h =
      Some (fbA, eA) /\
    initialize defaultMode defaultRenderPass context fb desc (Some r0) h =
      Some ((fb', Some result), e) /\
    (driverFramebufferStatus context (h ++ eA) GL_FRAMEBUFFER = GL_FRAMEBUFFER_COMPLETE ->
     result = mkResult Ok "") /\
    (driverFramebufferStatus context (h ++ eA) GL_FRAMEBUFFER <> GL_FRAMEBUFFER_COMPLETE ->
     code result = RuntimeError) /\
    resolveFramebuffer fb' = resolveFramebuffer fb.
Proof.
  intros Hn Hi Himp.
  destruct (FramebufferBindingGuard_new_run context h) as (guard & Hg & _).
  destruct (prepareResource_with_run defaultMode defaultRenderPass context
              (initialize_leaf defaultMode defaultRenderPass context)
              (set_renderTarget (set_initialized fb true) desc) (Some r0) h)
    as (eA & result & HA & _ & Hres & Hp).
  destruct (checkFramebufferStatus_run context (h ++ eA)) as (r & Hr & Hc & Hinc).
  rewrite Hr in Hres. inversion Hres; subst r.
  rewrite prepareResource_rest_noResolve in Hp by exact Hn.
  exists (set_frameBufferID (set_renderTarget (set_initialized fb true) desc)
            (driverNewFramebuffer context h)), eA.
  unfold initialize. rewrite initialize_with_cases, Hi, Hg, Himp, Hp.
  destruct (negb (isOk result)); do 3 eexists;
    (split; [exact HA|split; [reflexivity|split; [exact Hc|split; [exact Hinc|reflexivity]]]]).
Qed.

End ResolveTarget.

Lemma resolve_target_mirrors_resolve_textures_witness :
  isInitialized sampleNew = false /\
  resolveFramebuffer sampleNew = None /\
  NoDup (map fst (colorAttachments fullResolveDesc)) /\
  exists fb' out e nested,
    sampleInitialize completeContext sampleNew fullResolveDesc (Some (mkResult Ok "")) [] =
      Some ((fb', out), e) /\
    resolveFramebuffer fb' = Some nested /\
    getColorAttachment nested 0 = Some 30 /\
    getColorAttachment nested 1 = Some 31 /\
    resolveFramebuffer nested = None.
Proof.
  assert (H1 : isInitialized sampleNew = false) by reflexivity.
  assert (H2 : resolveFramebuffer sampleNew = None) by reflexivity.
  assert (H3 : NoDup (map fst (colorAttachments fullResolveDesc)))
    by exact (proj1 (proj2 sampleDescriptors_distinct)).
  split; [exact H1|]. split; [exact H2|]. split; [exact H3|].
  destruct (sampleInitialize completeContext sampleNew fullResolveDesc
              (Some (mkResult Ok "")) []) as [[[fb' out] e]|] eqn:Hinit;
    [|vm_compute in Hinit; discriminate].
  destruct (resolveFramebuffer fb') as [nested|] eqn:Hnested.
  - exists fb', out, e, nested. split; [reflexivity|]. split; [exact Hnested|].
    destruct (resolve_target_mirrors_resolve_textures Mono samplePassDefault completeContext
                sampleNew fullResolveDesc (Some (mkResult Ok "")) [] fb' out e nested
                H1 H2 H3 Hinit Hnested) as (Hcolor & _ & _ & _ & Hnone & _).
    rewrite !Hcolor.
    assert (Ht : renderTarget_ fb' = fullResolveDesc).
    { vm_compute in Hinit. inversion Hinit; subst. reflexivity. }
    unfold getResolveColorAttachment. rewrite Ht.
    split; [reflexivity|]. split; [reflexivity|exact Hnone].
  - vm_compute in Hinit. inversion Hinit; subst. discriminate.
Defined.

Lemma destructor_releases_generated_framebuffer_witness :
  isInitialized sampleNew = false /\
  frameBufferID_ sampleNew = 0 /\
  resolveFramebuffer sampleNew = None /\
  exists fb' out e,
    sampleInitialize completeContext sampleNew fullResolveDesc (Some (mkResult Ok "")) [] =
      Some ((fb', out), e) /\
    genFramebuffersCalls e = [1; 2] /\
    CustomFramebuffer_delete fb' [] =
      Some (tt, [DeleteFramebuffers 1; DeleteFramebuffers 2]).
Proof.
  assert (H1 : isInitialized sampleNew = false) by reflexivity.
  assert (H2 : frameBufferID_ sampleNew = 0) by reflexivity.
  assert (H3 : resolveFramebuffer sampleNew = None) by reflexivity.
  split; [exact H1|]. split; [exact H2|]. split; [exact H3|].
  destruct (sampleInitialize completeContext sampleNew fullResolveDesc
              (Some (mkResult Ok "")) []) as [[[fb' out] e]|] eqn:Hinit;
    [|vm_compute in Hinit; discriminate].
  exists fb', out, e. split; [reflexivity|].
  assert (Hgen : genFramebuffersCalls e = [1; 2]).
  { assert (E : option_map (fun x => genFramebuffersCalls (snd x))
                  (sampleInitialize completeContext sampleNew fullResolveDesc
                     (Some (mkResult Ok "")) []) = Some [1; 2]) by reflexivity.
    rewrite Hinit in E. simpl in E. congruence. }
  split; [exact Hgen|].
  rewrite (destructor_releases_generated_framebuffer Mono samplePassDefault completeContext
             sampleNew fullResolveDesc (Some (mkResult Ok "")) [] fb' out e [] H1 H2 H3 Hinit).
  rewrite Hgen. reflexivity.
Defined.

Lemma sampleDescriptors_noResolve : noResolve depthStencilDesc /\ noResolve sparseDesc.
Proof. split; (split; [repeat constructor|split; reflexivity]). Qed.

Lemma initialize_reports_completeness_witness :
  noResolve depthStencilDesc /\
  isInitialized sampleNew = false /\
  hasImplicitColorAttachment incompleteContext
    (set_renderTarget (set_initialized sampleNew true) depthStencilDesc) = false /\
  exists fb' result e,
    sampleInitialize incompleteContext sampleNew depthStencilDesc (Some (mkResult Ok "")) [] =
      Some ((fb', Some result), e) /\
    code result = RuntimeError /\
    resolveFramebuffer fb' = None.
Proof.
  assert (H1 : noResolve depthStencilDesc) by exact (proj1 sampleDescriptors_noResolve).
  assert (H2 : isInitialized sampleNew = false) by reflexivity.
  assert (H3 : hasImplicitColorAttachment incompleteContext
                 (set_renderTarget (set_initialized sampleNew true) depthStencilDesc) = false)
    by reflexivity.
  split; [exact H1|]. split; [exact H2|]. split; [exact H3|].
  destruct (initialize_reports_completeness Mono samplePassDefault incompleteContext
              sampleNew depthStencilDesc (mkResult Ok "") [] H1 H2 H3)
    as (fbA & eA & fb' & result & e & _ & Hinit & _ & Hinc & Hres).
  exists fb', result, e. split; [exact Hinit|]. split; [|exact Hres].
  apply Hinc. vm_compute. discriminate.
Defined.

(** ** Swapping the drawable: what else changes *)

Lemma find_update_other {V : Type} (d : V) (k i : Z) (f : V -> V) (m : list (Z * V)) :
  i <> k ->
  AttachmentMap.find i (AttachmentMap.update d k f m) = AttachmentMap.find i m.
Proof.
  intros Hik. induction m as [|[k' v] m IH]; simpl.
  - destruct (Z.eqb_spec i k); [contradiction|reflexivity].
  - destruct (Z.eqb_spec k k') as [E|E]; simpl.
    + subst k'. destruct (Z.eqb_spec i k); [contradiction|reflexivity].
    + destruct (i =? k'); [reflexivity|exact IH].
Qed.

Lemma find_erase_other {V : Type} (k i : Z) (m : list (Z * V)) :
  i <> k ->
  AttachmentMap.find i (AttachmentMap.erase k m) = AttachmentMap.find i m.
Proof.
  intros Hik. induction m as [|[k' v] m IH]; simpl; [reflexivity|].
  destruct (Z.eqb_spec k k') as [E|E]; simpl.
  - subst k'. destruct (Z.eqb_spec i k); [contradiction|exact IH].
  - destruct (i =? k'); [reflexivity|exact IH].
Qed.

(** The object [updateDrawable] returns. *)
Definition drawableUpdated (fb : CustomFramebuffer) (tex : TexturePtr) : CustomFramebuffer :=
  match tex with
  | None =>
      match getColorAttachment fb 0 with
      | Some _ =>
          set_renderTarget fb
            (set_colorAttachments (renderTarget_ fb)
               (AttachmentMap.erase 0 (colorAttachments (renderTarget_ fb))))
      | None => fb
      end
  | Some _ =>
      if TexturePtr_eqb (getColorAttachment fb 0) tex then fb
      else
        set_renderTarget fb
          (set_colorAttachments (renderTarget_ fb)
             (AttachmentMap.update (mkAttachment None None) 0
                (fun d => mkAttachment tex (resolveTexture d))
                (colorAttachments (renderTarget_ fb))))
  end.

Lemma updateDrawable_object context fb tex h :
  exists e, updateDrawable context fb tex h = Some ((drawableUpdated fb tex, tex), e).
Proof.
  unfold updateDrawable, drawableUpdated.
  destruct tex as [R|].
  - rewrite (bind_gl_run _ _ h fb []) by (destruct (getColorAttachment fb 0); reflexivity).
    destruct (TexturePtr_eqb (getColorAttachment fb 0) (Some R)); simpl negb; cbv iota.
    + exists []. reflexivity.
    + destruct (FramebufferBindingGuard_new_run context (h ++ [])) as (guard & Hg & _).
      destruct (attachAsColor_run context fb R 0 0 0
                  (((h ++ []) ++ []) ++ [BindFramebuffer GL_FRAMEBUFFER (frameBufferID_ fb)]))
        as (e2 & He2 & _).
      eexists.
      erewrite bind_gl_Some; [reflexivity| |reflexivity].
      eapply bind_gl_Some; [exact Hg|].
      eapply bind_gl_Some; [reflexivity|].
      eapply bind_gl_Some; [exact He2|].
      eapply bind_gl_Some; [apply FramebufferBindingGuard_delete_run|reflexivity].
  - destruct (getColorAttachment fb 0); eexists; reflexivity.
Qed.

(** X11.  [updateDrawable] touches colour attachment 0 only: every other
    colour attachment and its resolve texture, the depth and stencil
    attachments, the mode, the framebuffer identifier, the cached pass, the
    nested framebuffer and the initialised flag are as before.  Swapping in
    a texture keeps the resolve texture declared at index 0; detaching a
    present texture removes the entry and with it that resolve texture. *)
Theorem updateDrawable_touches_attachment_0_only context fb tex h :
  exists fb' e,
    updateDrawable context fb tex h = Some ((fb', tex), e) /\
    (forall i, i <> 0 ->
       getColorAttachment fb' i = getColorAttachment fb i /\
       getResolveColorAttachment fb' i = getResolveColorAttachment fb i) /\
    depthAttachment (renderTarget_ fb') = depthAttachment (renderTarget_ fb) /\
    stencilAttachment (renderTarget_ fb') = stencilAttachment (renderTarget_ fb) /\
    mode (renderTarget_ fb') = mode (renderTarget_ fb) /\
    frameBufferID_ fb' = frameBufferID_ fb /\
    renderPass_ fb' = renderPass_ fb /\
    resolveFramebuffer fb' = resolveFramebuffer fb /\
    initialized_ fb' = initialized_ fb /\
    (tex <> None -> getResolveColorAttachment fb' 0 = getResolveColorAttachment fb 0) /\
    (tex = None -> getColorAttachment fb 0 <> None ->
     getResolveColorAttachment fb' 0 = None).
Proof.
  destruct (updateDrawable_object context fb tex h) as (e & He).
  exists (drawableUpdated fb tex), e. split; [exact He|].
  unfold drawableUpdated, getColorAttachment, getResolveColorAttachment.
  destruct tex as [R|].
  - destruct (TexturePtr_eqb _ _); simpl.
    + repeat split; try reflexivity; intros; congruence.
    + repeat split; try reflexivity; try (intros; congruence).
      * rewrite find_update_other by assumption. reflexivity.
      * rewrite find_update_other by assumption. reflexivity.
      * intros _. rewrite find_update.
        destruct (AttachmentMap.find 0 (colorAttachments (renderTarget_ fb))); reflexivity.
  - destruct (AttachmentMap.find 0 (colorAttachments (renderTarget_ fb))) as [a|] eqn:Hf.
    + destruct (texture a) eqn:Ht; simpl.
      * repeat split; try reflexivity; try (intros; congruence).
        -- rewrite find_erase_other by assumption. reflexivity.
        -- rewrite find_erase_other by assumption. reflexivity.
        -- intros _ _. rewrite (find_not_in 0 _ (erase_not_in 0 _)). reflexivity.
      * rewrite Hf. repeat split; try reflexivity; intros; congruence.
    + rewrite Hf. repeat split; try reflexivity; intros; congruence.
Qed.

Lemma updateDrawable_touches_attachment_0_only_witness :
  let fb := set_renderTarget sampleNew fullResolveDesc in
  Some 25 <> None /\
  getColorAttachment fb 0 <> None /\
  (exists fb' e,
      updateDrawable completeContext fb (Some 25) [] = Some ((fb', Some 25), e) /\
      getColorAttachment fb' 1 = Some 21 /\
      getResolveColorAttachment fb' 0 = Some 30) /\
  (exists fb' e,
      updateDrawable completeContext fb None [] = Some ((fb', None), e) /\
      getColorAttachment fb' 1 = Some 21 /\
      getResolveColorAttachment fb' 0 = None).
Proof.
  intros fb.
  assert (H1 : Some 25 <> @None TextureRef) by discriminate.
  assert (H2 : getColorAttachment fb 0 <> None) by discriminate.
  assert (H3 : 1 <> 0) by discriminate.
  split; [exact H1|]. split; [exact H2|]. split.
  - destruct (updateDrawable_touches_attachment_0_only completeContext fb (Some 25) [])
      as (fb' & e & Hu & Hother & _ & _ & _ & _ & _ & _ & _ & Hkeep & _).
    exists fb', e. split; [exact Hu|]. split.
    + rewrite (proj1 (Hother 1 H3)). reflexivity.
    + rewrite (Hkeep H1). reflexivity.
  - destruct (updateDrawable_touches_attachment_0_only completeContext fb None [])
      as (fb' & e & Hu & Hother & _ & _ & _ & _ & _ & _ & _ & _ & Hdrop).
    exists fb', e. split; [exact Hu|]. split.
    + rewrite (proj1 (Hother 1 H3)). reflexivity.
    + exact (Hdrop eq_refl H2).
Defined.

(** The calls [attachAsColor] makes. *)
Definition attachAsColorCalls (context : IContext) (fb : CustomFramebuffer)
    (t : TextureRef) (index face mipmapLevel : Z) : list Call :=
  match mode (renderTarget_ fb) with
  | Mono => [TextureAttachAsColor t index face mipmapLevel]
  | Stereo =>
      if 1 <? getSamples (textureObject context t) then
        (if index =? 0 then []
         else [AssertionReport "Multisample framebuffer can only use GL_COLOR_ATTACHMENT0"]) ++
        [FramebufferTextureMultisampleMultiview GL_DRAW_FRAMEBUFFER GL_COLOR_ATTACHMENT0
           (getId (textureObject context t)) 0
           (to_int32 (getSamples (textureObject context t))) 0 2]
      else
        [FramebufferTextureMultiview GL_DRAW_FRAMEBUFFER
           (to_uint32 (GL_COLOR_ATTACHMENT0 + index))
           (getId (textureObject context t)) 0 0 2]
  | Multiview => [AssertionReport "MultiviewMode::Multiview not implemented."]
  end.

Lemma attachAsColor_calls context fb t index face mipmapLevel h :
  attachAsColor context fb t index face mipmapLevel h =
    Some (tt, attachAsColorCalls context fb t index face mipmapLevel).
Proof.
  unfold attachAsColor, attachAsColorCalls, IGL_ASSERT, bind_gl, call, ret.
  destruct (mode (renderTarget_ fb)); [reflexivity| |reflexivity].
  destruct (1 <? getSamples (textureObject context t)); [|reflexivity].
  destruct (index =? 0); reflexivity.
Qed.

(** X12.  [updateDrawable] with a texture that is not the current colour
    attachment 0 works under a binding guard: it binds the object's
    framebuffer, attaches the texture as colour attachment 0 (face 0,
    level 0) and then restores the bindings captured on entry. *)
Theorem updateDrawable_swaps_under_guard context fb R h :
  getColorAttachment fb 0 <> Some R ->
  exists guard fb',
    FramebufferBindingGuard_new context h = Some (guard, []) /\
    updateDrawable context fb (Some R) h =
      Some ((fb', Some R),
            [BindFramebuffer GL_FRAMEBUFFER (frameBufferID_ fb)] ++
            attachAsColorCalls context fb R 0 0 0 ++
            restoreCalls context guard) /\
    getColorAttachment fb' 0 = Some R.
Proof.
  intros Hne.
  destruct (FramebufferBindingGuard_new_run context h) as (guard & Hg & _).
  exists guard. eexists. split; [exact Hg|].
  unfold updateDrawable.
  rewrite (bind_gl_run _ _ h fb []) by (destruct (getColorAttachment fb 0); reflexivity).
  destruct (TexturePtr_eqb (getColorAttachment fb 0) (Some R)) eqn:E.
  { apply TexturePtr_eqb_eq in E. contradiction. }
  simpl negb. cbv iota. rewrite app_nil_r. split.
  - unfold bind_gl at 1.
    rewrite (bind_gl_run _ _ h guard [] Hg).
    rewrite (bind_gl_run _ _ _ tt [BindFramebuffer GL_FRAMEBUFFER (frameBufferID_ fb)]
               eq_refl).
    rewrite (bind_gl_run _ _ _ tt _ (attachAsColor_calls _ _ _ _ _ _ _)).
    rewrite (bind_gl_run _ _ _ tt _ (FramebufferBindingGuard_delete_run _ _ _)).
    fold (restoreCalls context guard). unfold ret. simpl. rewrite ?app_nil_r.
    reflexivity.
  - unfold getColorAttachment. simpl. rewrite find_update. reflexivity.
Qed.

Lemma updateDrawable_swaps_under_guard_witness :
  getColorAttachment (set_renderTarget sampleNew depthStencilDesc) 0 <> Some 25 /\
  exists fb',
    updateDrawable bareContext (set_renderTarget sampleNew depthStencilDesc) (Some 25) [] =
      Some ((fb', Some 25),
            [BindFramebuffer GL_FRAMEBUFFER 0; TextureAttachAsColor 25 0 0 0;
             BindFramebuffer GL_FRAMEBUFFER 5; BindRenderbuffer GL_RENDERBUFFER 7]) /\
    getColorAttachment fb' 0 = Some 25.
Proof.
  assert (H : getColorAttachment (set_renderTarget sampleNew depthStencilDesc) 0 <> Some 25)
    by discriminate.
  split; [exact H|].
  destruct (updateDrawable_swaps_under_guard bareContext
              (set_renderTarget sampleNew depthStencilDesc) 25 [] H)
    as (guard & fb' & Hg & Hu & Hc).
  vm_compute in Hg. inversion Hg; subst guard.
  exists fb'. split; [exact Hu|exact Hc].
Defined.

(** ** The whole call sequence of [bind] and [unbind] *)

Definition srgbToggle (context : IContext) (t : TextureRef) : list Call :=
  if negb (IGL_OPENGL_ES context) then
    if SRGB (deviceFeatures context) then
      if isSRGB (textureObject context t)
      then [Enable GL_FRAMEBUFFER_SRGB]
      else [Disable GL_FRAMEBUFFER_SRGB]
    else []
  else [].

(** The re-attachment of one cube texture: the face and level come from
    the entry of the pass at the index of the attachment. *)
Definition cubeReattach (context : IContext) (fb : CustomFramebuffer)
    (renderPass : RenderPassDesc) (index : Z) (t : TextureRef) : list Call :=
  if isCube (getType (textureObject context t)) then
    match nth_error (passColorAttachments renderPass) (Z.to_nat index) with
    | Some pass =>
        attachAsColorCalls context fb t (to_uint32 index) (to_uint32 (layer pass))
          (to_uint32 (mipmapLevel pass))
    | None => []
    end
  else [].

Definition bindLoopCalls (context : IContext) (fb : CustomFramebuffer)
    (renderPass : RenderPassDesc) (atts : list (Z * AttachmentDesc)) : list Call :=
  flat_map (fun ia =>
              match texture (snd ia) with
              | Some t => srgbToggle context t ++ cubeReattach context fb renderPass (fst ia) t
              | None => []
              end) atts.

Lemma vector_at_nth {A : Type} (v : list A) (i : Z) :
  (0 <=? i) && (i <? Z.of_nat (List.length v)) = true ->
  exists x, nth_error v (Z.to_nat i) = Some x /\ forall h, vector_at v i h = Some (x, []).
Proof.
  intros H. unfold vector_at. rewrite H.
  apply andb_prop in H. destruct H as [H0 H1].
  apply Z.leb_le in H0. apply Z.ltb_lt in H1.
  destruct (nth_error v (Z.to_nat i)) as [x|] eqn:E.
  - exists x. split; reflexivity.
  - apply nth_error_None in E. lia.
Qed.

Lemma bindColors_calls context fb renderPass atts :
  cubesInRange context renderPass atts = true ->
  forall h, bindColors context fb renderPass atts h =
            Some (tt, bindLoopCalls context fb renderPass atts).
Proof.
  induction atts as [|[index colorAttachment] rest IH]; intros Hr h; [reflexivity|].
  simpl in Hr. apply andb_prop in Hr. destruct Hr as [Hhere Hrest].
  cbn [bindColors bindLoopCalls flat_map fst snd].
  destruct (texture colorAttachment) as [t|]; [|exact (IH Hrest h)].
  rewrite (bind_gl_run _ _ h tt (srgbToggle context t)).
  2:{ unfold srgbToggle. destruct (negb (IGL_OPENGL_ES context));
        [destruct (SRGB (deviceFeatures context));
         [destruct (isSRGB (textureObject context t))|]|]; reflexivity. }
  rewrite (bind_gl_run _ _ _ tt (cubeReattach context fb renderPass index t)).
  2:{ unfold cubeReattach. destruct (isCube (getType (textureObject context t)));
        [|reflexivity].
      rewrite Hhere. unfold IGL_ASSERT.
      destruct (vector_at_nth (passColorAttachments renderPass) index Hhere)
        as (pass & Hn & Hv).
      rewrite Hn.
      rewrite (bind_gl_run _ _ _ tt [] eq_refl).
      rewrite (bind_gl_run _ _ _ pass [] (Hv _)).
      rewrite attachAsColor_calls. reflexivity. }
  rewrite (IH Hrest). fold (bindLoopCalls context fb renderPass rest).
  rewrite app_assoc. reflexivity.
Qed.

Definition stencilTestOn (fb : CustomFramebuffer) : list Call :=
  match getStencilAttachment fb with
  | Some _ => [Enable GL_STENCIL_TEST]
  | None => []
  end.

Lemma bind_calls context fb renderPass h :
  bindInRange context fb renderPass = true ->
  bind context fb renderPass h =
    Some (set_renderPass fb renderPass,
          [BindFramebuffer GL_FRAMEBUFFER (frameBufferID_ fb)] ++
          bindLoopCalls context (set_renderPass fb renderPass) renderPass
            (colorAttachments (renderTarget_ fb)) ++
          colorClearSetup (clearsColor fb renderPass) ++
          depthClearSetup (clearsDepth fb renderPass) ++
          stencilTestOn fb ++
          stencilClearSetup (clearsStencil fb renderPass) ++
          combinedClear (clearsColor fb renderPass) (clearsDepth fb renderPass)
            (clearsStencil fb renderPass)).
Proof.
  intros Hr. unfold bindInRange in Hr. apply andb_prop in Hr. destruct Hr as [H0 Hcubes].
  unfold bind.
  rewrite (bind_gl_run _ _ h tt [BindFramebuffer GL_FRAMEBUFFER (frameBufferID_ fb)] eq_refl).
  simpl renderTarget_.
  rewrite (bind_gl_run _ _ _ tt _
             (bindColors_calls context (set_renderPass fb renderPass) renderPass
                (colorAttachments (renderTarget_ fb)) Hcubes _)).
  rewrite (bind_gl_run _ _ _ _ _ (prepareColorClear_run fb renderPass 0 _ H0)).
  rewrite (bind_gl_run _ _ _ _ _ (prepareDepthClear_run fb renderPass _ _)).
  rewrite (bind_gl_run _ _ _ _ _ (prepareStencilClear_run fb renderPass _ _)).
  rewrite combinedMask_lor.
  rewrite (bind_gl_run _ _ _ _ _ (combinedClear_run _ _ _ _)).
  unfold ret, stencilTestOn. rewrite app_nil_r, <- !app_assoc. reflexivity.
Qed.

(** The attachments [unbind] lets the driver discard, in the order in
    which they are listed: colour 0, depth, stencil, each when present with
    a store action other than [Store]. *)
Definition discardList (fb : CustomFramebuffer) (renderPass : RenderPassDesc)
  : list GLenum :=
  match getColorAttachment fb 0, nth_error (passColorAttachments renderPass) 0 with
  | Some _, Some pass0 =>
      if isStore (storeAction pass0) then [] else [GL_COLOR_ATTACHMENT0]
  | _, _ => []
  end ++
  match getDepthAttachment fb with
  | Some _ =>
      if isStore (depthStoreAction (passDepthAttachment renderPass))
      then [] else [GL_DEPTH_ATTACHMENT]
  | None => []
  end ++
  match getStencilAttachment fb with
  | Some _ =>
      if isStore (stencilStoreAction (passStencilAttachment renderPass))
      then [] else [GL_STENCIL_ATTACHMENT]
  | None => []
  end.

Definition stencilTestOff (fb : CustomFramebuffer) : list Call :=
  match getStencilAttachment fb with
  | Some _ => [Disable GL_STENCIL_TEST]
  | None => []
  end.

Definition invalidation (context : IContext) (discards : list GLenum) : list Call :=
  match discards with
  | [] => []
  | _ :: _ =>
      if InvalidateFramebufferFeature (deviceFeatures context)
      then [InvalidateFramebuffer GL_FRAMEBUFFER discards]
      else []
  end.

Lemma unbind_calls context fb h :
  entry0InRange fb (renderPass_ fb) = true ->
  unbind context fb h =
    Some (tt, stencilTestOff fb ++ invalidation context (discardList fb (renderPass_ fb))).
Proof.
  intros H0. unfold unbind.
  assert (Hc : discardColor fb [] h =
               Some (match getColorAttachment fb 0,
                           nth_error (passColorAttachments (renderPass_ fb)) 0 with
                     | Some _, Some pass0 =>
                         if isStore (storeAction pass0) then [] else [GL_COLOR_ATTACHMENT0]
                     | _, _ => []
                     end, [])).
  { unfold discardColor, entry0InRange, getColorAttachment in *.
    destruct (AttachmentMap.find 0 (colorAttachments (renderTarget_ fb))) as [att|];
      [|reflexivity].
    destruct (texture att); [|reflexivity].
    destruct (passColorAttachments (renderPass_ fb)) as [|pass0 rest] eqn:E;
      [discriminate|].
    rewrite (bind_gl_run _ _ h pass0 [] (vector_at_run (pass0 :: rest) pass0 h eq_refl)).
    simpl. destruct (isStore (storeAction pass0)); reflexivity. }
  rewrite (bind_gl_run _ _ h _ [] Hc).
  unfold discardDepth, discardStencil, discardList, stencilTestOff, invalidation,
    getDepthAttachment, getStencilAttachment.
  destruct (getColorAttachment fb 0);
    destruct (nth_error (passColorAttachments (renderPass_ fb)) 0) as [pass0|];
    try destruct (isStore (storeAction pass0));
    destruct (texture (depthAttachment (renderTarget_ fb)));
    destruct (texture (stencilAttachment (renderTarget_ fb)));
    destruct (isStore (depthStoreAction (passDepthAttachment (renderPass_ fb))));
    destruct (isStore (stencilStoreAction (passStencilAttachment (renderPass_ fb))));
    destruct (InvalidateFramebufferFeature (deviceFeatures context));
    reflexivity.
Qed.

(** X13.  [unbind], for any cached pass (with an entry 0 when colour
    attachment 0 is present): it disables the stencil test exactly when a
    stencil attachment exists, and then makes at most one invalidate call,
    listing colour 0, depth and stencil, in this order, each exactly when
    it is present and its store action is not [Store]; the call is made
    only when that list is not empty and the driver can invalidate. *)
Theorem unbind_discard_rule context fb h :
  entry0InRange fb (renderPass_ fb) = true ->
  exists e,
    unbind context fb h = Some (tt, e) /\
    e = stencilTestOff fb ++ invalidation context (discardList fb (renderPass_ fb)) /\
    invalidateCalls e =
      match discardList fb (renderPass_ fb) with
      | [] => []
      | _ :: _ =>
          if InvalidateFramebufferFeature (deviceFeatures context)
          then [discardList fb (renderPass_ fb)]
          else []
      end.
Proof.
  intros H0. eexists. split; [exact (unbind_calls context fb h H0)|].
  split; [reflexivity|].
  unfold invalidateCalls, stencilTestOff, invalidation. rewrite flat_map_app.
  destruct (getStencilAttachment fb), (discardList fb (renderPass_ fb));
    try reflexivity;
    destruct (InvalidateFramebufferFeature (deviceFeatures context)); reflexivity.
Qed.

Lemma unbind_discard_rule_witness :
  let fb := set_renderPass (set_renderTarget sampleNew depthStencilDesc)
              (samplePass Clear StoreDontCare Store) in
  entry0InRange fb (renderPass_ fb) = true /\
  unbind completeContext fb [] =
    Some (tt, [Disable GL_STENCIL_TEST;
               InvalidateFramebuffer GL_FRAMEBUFFER [GL_COLOR_ATTACHMENT0]]).
Proof.
  intros fb.
  assert (H : entry0InRange fb (renderPass_ fb) = true) by reflexivity.
  split; [exact H|].
  destruct (unbind_discard_rule completeContext fb [] H) as (e & Hu & He & _).
  rewrite Hu, He. reflexivity.
Defined.

Definition isStencilToggle (c : Call) : bool :=
  match c with
  | Enable cap | Disable cap => cap =? GL_STENCIL_TEST
  | _ => false
  end.

Definition isSrgbToggle (c : Call) : bool :=
  match c with
  | Enable cap | Disable cap => cap =? GL_FRAMEBUFFER_SRGB
  | _ => false
  end.

Definition isTextureAttachAsColor (c : Call) : bool :=
  match c with
  | TextureAttachAsColor _ _ _ _ => true
  | _ => false
  end.

Lemma attachAsColorCalls_no_toggle context fb t index face mipmapLevel :
  filter isStencilToggle (attachAsColorCalls context fb t index face mipmapLevel) = [] /\
  filter isSrgbToggle (attachAsColorCalls context fb t index face mipmapLevel) = [].
Proof.
  unfold attachAsColorCalls.
  destruct (mode (renderTarget_ fb)); [split; reflexivity| |split; reflexivity].
  destruct (1 <? getSamples (textureObject context t)); [|split; reflexivity].
  destruct (index =? 0); split; reflexivity.
Qed.

Lemma srgbToggle_filters context t :
  filter isStencilToggle (srgbToggle context t) = [] /\
  filter isSrgbToggle (srgbToggle context t) = srgbToggle context t /\
  filter isTextureAttachAsColor (srgbToggle context t) = [].
Proof.
  unfold srgbToggle.
  destruct (negb (IGL_OPENGL_ES context)), (SRGB (deviceFeatures context)),
    (isSRGB (textureObject context t)); repeat split.
Qed.

Lemma cubeReattach_no_toggle context fb renderPass index t :
  filter isStencilToggle (cubeReattach context fb renderPass index t) = [] /\
  filter isSrgbToggle (cubeReattach context fb renderPass index t) = [].
Proof.
  unfold cubeReattach.
  destruct (isCube (getType (textureObject context t))); [|split; reflexivity].
  destruct (nth_error _ _); [|split; reflexivity].
  apply attachAsColorCalls_no_toggle.
Qed.

Lemma bindLoopCalls_stencil context fb renderPass atts :
  filter isStencilToggle (bindLoopCalls context fb renderPass atts) = [].
Proof.
  induction atts as [|[index a] rest IH]; [reflexivity|].
  cbn [bindLoopCalls flat_map fst snd]. fold (bindLoopCalls context fb renderPass rest).
  rewrite filter_app, IH. destruct (texture a) as [t|]; [|reflexivity].
  rewrite filter_app, (proj1 (srgbToggle_filters context t)),
    (proj1 (cubeReattach_no_toggle context fb renderPass index t)). reflexivity.
Qed.

Lemma bindLoopCalls_srgb context fb renderPass atts :
  filter isSrgbToggle (bindLoopCalls context fb renderPass atts) =
    flat_map (fun ia => match texture (snd ia) with
                        | Some t => srgbToggle context t
                        | None => []
                        end) atts.
Proof.
  induction atts as [|[index a] rest IH]; [reflexivity|].
  cbn [bindLoopCalls flat_map fst snd]. fold (bindLoopCalls context fb renderPass rest).
  rewrite filter_app, IH. destruct (texture a) as [t|]; [|reflexivity].
  rewrite filter_app, (proj1 (proj2 (srgbToggle_filters context t))),
    (proj2 (cubeReattach_no_toggle context fb renderPass index t)), app_nil_r.
  reflexivity.
Qed.

(** The cube faces re-attached by [bind] on a mono target. *)
Definition cubeFaces (context : IContext) (renderPass : RenderPassDesc)
    (atts : list (Z * AttachmentDesc)) : list Call :=
  flat_map (fun ia =>
              match texture (snd ia) with
              | Some t =>
                  if isCube (getType (textureObject context t)) then
                    match nth_error (passColorAttachments renderPass) (Z.to_nat (fst ia)) with
                    | Some pass =>
                        [TextureAttachAsColor t (to_uint32 (fst ia)) (to_uint32 (layer pass))
                           (to_uint32 (mipmapLevel pass))]
                    | None => []
                    end
                  else []
              | None => []
              end) atts.

Lemma clear_setup_filters {A B C : Type} (p : Call -> bool) c d s
    (x : option A) (y : option B) (z : option C) :
  (forall q, p (ColorMask q q q q) = false) ->
  (forall v, p (ClearColor v) = false) ->
  (forall q, p (DepthMask q) = false) ->
  (forall v, p (ClearDepthf v) = false) ->
  (forall q, p (StencilMask q) = false) ->
  (forall v, p (ClearStencil v) = false) ->
  (forall m, p (ClearCall m) = false) ->
  filter p (colorClearSetup c) = [] /\
  filter p (depthClearSetup d) = [] /\
  filter p (stencilClearSetup s) = [] /\
  filter p (combinedClear x y z) = [].
Proof.
  intros H1 H2 H3 H4 H5 H6 H7.
  unfold colorClearSetup, depthClearSetup, stencilClearSetup, combinedClear, GL_TRUE.
  destruct c, d, s, x, y, z; simpl; rewrite ?H1, ?H2, ?H3, ?H4, ?H5, ?H6, ?H7;
    repeat split.
Qed.

Lemma invalidation_filters context discards :
  filter isStencilToggle (invalidation context discards) = [].
Proof.
  unfold invalidation. destruct discards; [reflexivity|].
  destruct (InvalidateFramebufferFeature (deviceFeatures context)); reflexivity.
Qed.

(** X14.  A [bind] followed by the matching [unbind]: [unbind] decides what
    to invalidate from the store actions of the pass that was given to
    [bind], and the stencil test, enabled by [bind] exactly when the target
    has a stencil attachment, is disabled again by [unbind]; no other
    stencil-test toggle is made. *)
Theorem bind_then_unbind context fb renderPass h :
  bindInRange context fb renderPass = true ->
  exists e1 e2,
    bind context fb renderPass h = Some (set_renderPass fb renderPass, e1) /\
    unbind context (set_renderPass fb renderPass) (h ++ e1) = Some (tt, e2) /\
    invalidateCalls e2 =
      match discardList fb renderPass with
      | [] => []
      | _ :: _ =>
          if InvalidateFramebufferFeature (deviceFeatures context)
          then [discardList fb renderPass]
          else []
      end /\
    filter isStencilToggle (e1 ++ e2) =
      match getStencilAttachment fb with
      | Some _ => [Enable GL_STENCIL_TEST; Disable GL_STENCIL_TEST]
      | None => []
      end.
Proof.
  intros Hr.
  assert (H0 : entry0InRange (set_renderPass fb renderPass)
                 (renderPass_ (set_renderPass fb renderPass)) = true).
  { unfold bindInRange in Hr. apply andb_prop in Hr. exact (proj1 Hr). }
  do 2 eexists.
  split; [exact (bind_calls context fb renderPass h Hr)|].
  split; [exact (unbind_calls context (set_renderPass fb renderPass) _ H0)|].
  change (discardList (set_renderPass fb renderPass)
            (renderPass_ (set_renderPass fb renderPass)))
    with (discardList fb renderPass).
  change (stencilTestOff (set_renderPass fb renderPass)) with (stencilTestOff fb).
  split.
  - unfold invalidateCalls, stencilTestOff, invalidation. rewrite flat_map_app.
    destruct (getStencilAttachment fb), (discardList fb renderPass);
      try reflexivity;
      destruct (InvalidateFramebufferFeature (deviceFeatures context)); reflexivity.
  - destruct (clear_setup_filters isStencilToggle
                (clearsColor fb renderPass) (clearsDepth fb renderPass)
                (clearsStencil fb renderPass)
                (clearsColor fb renderPass) (clearsDepth fb renderPass)
                (clearsStencil fb renderPass))
      as (Fc & Fd & Fs & Fa); try (intros; reflexivity).
    rewrite !filter_app, bindLoopCalls_stencil, Fc, Fd, Fs, Fa, invalidation_filters.
    unfold stencilTestOn, stencilTestOff.
    destruct (getStencilAttachment fb); reflexivity.
Qed.

Lemma bind_then_unbind_witness :
  bindInRange completeContext (set_renderTarget sampleNew depthStencilDesc)
    (samplePass Load Store StoreDontCare) = true /\
  exists e1 e2,
    bind completeContext (set_renderTarget sampleNew depthStencilDesc)
      (samplePass Load Store StoreDontCare) [] =
      Some (set_renderPass (set_renderTarget sampleNew depthStencilDesc)
              (samplePass Load Store StoreDontCare), e1) /\
    unbind completeContext
      (set_renderPass (set_renderTarget sampleNew depthStencilDesc)
         (samplePass Load Store StoreDontCare)) ([] ++ e1) = Some (tt, e2) /\
    invalidateCalls e2 = [[GL_DEPTH_ATTACHMENT; GL_STENCIL_ATTACHMENT]] /\
    filter isStencilToggle (e1 ++ e2) = [Enable GL_STENCIL_TEST; Disable GL_STENCIL_TEST].
Proof.
  assert (H : bindInRange completeContext (set_renderTarget sampleNew depthStencilDesc)
                (samplePass Load Store StoreDontCare) = true) by reflexivity.
  split; [exact H|].
  exact (bind_then_unbind completeContext (set_renderTarget sampleNew depthStencilDesc)
           (samplePass Load Store StoreDontCare) [] H).
Defined.

(** A cube texture, known to the driver as texture 70. *)
Definition cubeTexture : Texture :=
  mkTexture Cube (OtherFormat 0) 1 1 14 false true (fun rg => 4 * range_width rg)
    (fun _ _ => 4).

Definition cubeContext : IContext :=
  mkContext allFeatures false
    (fun t => if t =? 70 then cubeTexture else sampleTextures t)
    (fun _ pname => if pname =? GL_RENDERBUFFER_BINDING then 7 else 5)
    (fun _ _ => GL_FRAMEBUFFER_COMPLETE)
    (fun h => 1 + Z.of_nat (List.length (genFramebuffersCalls h))).

(** An ordinary texture on colour attachment 0, a cube texture on 1. *)
Definition cubeDesc : FramebufferDesc :=
  mkDesc [(0, mkAttachment (Some 20) None); (1, mkAttachment (Some 70) None)]
    noAttachment noAttachment Mono.

(** A pass that targets face 3, level 2 of colour attachment 1. *)
Definition cubePass : RenderPassDesc :=
  mkPass [mkColorPass Load Store 0 0 (mkColor 0 0 0 0);
          mkColorPass Load Store 3 2 (mkColor 0 0 0 0)]
    (mkDepthPass Load Store 0) (mkStencilPass Load Store 0).

(** The calls that attach something to, or detach it from, a framebuffer. *)
Definition isAttachOrDetachCall (c : Call) : bool :=
  match c with
  | TextureAttachAsColor _ _ _ _ | TextureDetachAsColor _ _
  | TextureAttachAsDepth _ | TextureAttachAsStencil _
  | FramebufferTextureLayer _ _ _ _ _
  | FramebufferTextureMultiview _ _ _ _ _ _
  | FramebufferTextureMultisampleMultiview _ _ _ _ _ _ _ => true
  | _ => false
  end.

Lemma bindLoopCalls_attachments context fb renderPass atts :
  mode (renderTarget_ fb) = Mono ->
  filter isAttachOrDetachCall (bindLoopCalls context fb renderPass atts) =
    cubeFaces context renderPass atts.
Proof.
  intros Hm. induction atts as [|[index a] rest IH]; [reflexivity|].
  cbn [bindLoopCalls cubeFaces flat_map fst snd].
  fold (bindLoopCalls context fb renderPass rest) (cubeFaces context renderPass rest).
  rewrite filter_app, IH. destruct (texture a) as [t|]; [|reflexivity].
  rewrite filter_app.
  replace (filter isAttachOrDetachCall (srgbToggle context t)) with (@nil Call)
    by (unfold srgbToggle;
        destruct (negb (IGL_OPENGL_ES context)), (SRGB (deviceFeatures context)),
          (isSRGB (textureObject context t)); reflexivity).
  unfold cubeReattach, attachAsColorCalls. rewrite Hm.
  destruct (isCube (getType (textureObject context t))); [|reflexivity].
  destruct (nth_error _ _); reflexivity.
Qed.

(** X15.  On a mono target, the only attachments [bind] makes are those of
    the cube textures among its colour attachments: each is re-attached at
    its own index with the face and level of the pass entry at that index.
    Textures of any other type are not re-attached, and nothing is
    detached. *)
Theorem bind_reattaches_cube_faces_only context fb renderPass h :
  mode (renderTarget_ fb) = Mono ->
  bindInRange context fb renderPass = true ->
  exists e,
    bind context fb renderPass h = Some (set_renderPass fb renderPass, e) /\
    filter isAttachOrDetachCall e =
      cubeFaces context renderPass (colorAttachments (renderTarget_ fb)).
Proof.
  intros Hm Hr. eexists. split; [exact (bind_calls context fb renderPass h Hr)|].
  destruct (clear_setup_filters isAttachOrDetachCall
              (clearsColor fb renderPass) (clearsDepth fb renderPass)
              (clearsStencil fb renderPass)
              (clearsColor fb renderPass) (clearsDepth fb renderPass)
              (clearsStencil fb renderPass))
    as (Fc & Fd & Fs & Fa); try (intros; reflexivity).
  rewrite !filter_app, Fc, Fd, Fs, Fa.
  rewrite (bindLoopCalls_attachments context (set_renderPass fb renderPass) renderPass _ Hm).
  unfold stencilTestOn. destruct (getStencilAttachment fb); simpl; rewrite app_nil_r;
    reflexivity.
Qed.

Lemma bind_reattaches_cube_faces_only_witness :
  mode (renderTarget_ (set_renderTarget sampleNew cubeDesc)) = Mono /\
  bindInRange cubeContext (set_renderTarget sampleNew cubeDesc) cubePass = true /\
  exists e,
    bind cubeContext (set_renderTarget sampleNew cubeDesc) cubePass [] =
      Some (set_renderPass (set_renderTarget sampleNew cubeDesc) cubePass, e) /\
    filter isAttachOrDetachCall e = [TextureAttachAsColor 70 1 3 2].
Proof.
  assert (H1 : mode (renderTarget_ (set_renderTarget sampleNew cubeDesc)) = Mono)
    by reflexivity.
  assert (H2 : bindInRange cubeContext (set_renderTarget sampleNew cubeDesc) cubePass = true)
    by reflexivity.
  split; [exact H1|]. split; [exact H2|].
  exact (bind_reattaches_cube_faces_only cubeContext (set_renderTarget sampleNew cubeDesc)
           cubePass [] H1 H2).
Defined.

(** X16.  The sRGB switch in [bind]: on an OpenGL ES build, or on a driver
    without the sRGB feature, [bind] never toggles GL_FRAMEBUFFER_SRGB;
    otherwise it toggles it once per colour attachment that holds a
    texture, in iteration order, enabling for an sRGB texture and disabling
    for any other, so that the state left behind is that of the last such
    attachment. *)
Theorem bind_srgb_toggles context fb renderPass h :
  bindInRange context fb renderPass = true ->
  exists e,
    bind context fb renderPass h = Some (set_renderPass fb renderPass, e) /\
    filter isSrgbToggle e =
      (if IGL_OPENGL_ES context || negb (SRGB (deviceFeatures context)) then []
       else map (fun t => if isSRGB (textureObject context t)
                          then Enable GL_FRAMEBUFFER_SRGB
                          else Disable GL_FRAMEBUFFER_SRGB)
              (flat_map (fun ia => match texture (snd ia) with
                                   | Some t => [t]
                                   | None => []
                                   end) (colorAttachments (renderTarget_ fb)))).
Proof.
  intros Hr. eexists. split; [exact (bind_calls context fb renderPass h Hr)|].
  destruct (clear_setup_filters isSrgbToggle
              (clearsColor fb renderPass) (clearsDepth fb renderPass)
              (clearsStencil fb renderPass)
              (clearsColor fb renderPass) (clearsDepth fb renderPass)
              (clearsStencil fb renderPass))
    as (Fc & Fd & Fs & Fa); try (intros; reflexivity).
  rewrite !filter_app, Fc, Fd, Fs, Fa, bindLoopCalls_srgb.
  replace (filter isSrgbToggle (stencilTestOn fb)) with (@nil Call)
    by (unfold stencilTestOn; destruct (getStencilAttachment fb); reflexivity).
  simpl. rewrite !app_nil_r.
  induction (colorAttachments (renderTarget_ fb)) as [|[index a] rest IH].
  - simpl. destruct (IGL_OPENGL_ES context || negb (SRGB (deviceFeatures context)));
      reflexivity.
  - cbn [flat_map fst snd]. rewrite IH.
    destruct (texture a) as [t|]; [|reflexivity].
    unfold srgbToggle.
    destruct (IGL_OPENGL_ES context), (SRGB (deviceFeatures context)); simpl;
      try reflexivity.
    destruct (isSRGB (textureObject context t)); reflexivity.
Qed.

Lemma bind_srgb_toggles_witness :
  bindInRange cubeContext (set_renderTarget sampleNew cubeDesc) cubePass = true /\
  exists e,
    bind cubeContext (set_renderTarget sampleNew cubeDesc) cubePass [] =
      Some (set_renderPass (set_renderTarget sampleNew cubeDesc) cubePass, e) /\
    filter isSrgbToggle e = [Disable GL_FRAMEBUFFER_SRGB; Enable GL_FRAMEBUFFER_SRGB].
Proof.
  assert (H : bindInRange cubeContext (set_renderTarget sampleNew cubeDesc) cubePass = true)
    by reflexivity.
  split; [exact H|].
  exact (bind_srgb_toggles cubeContext (set_renderTarget sampleNew cubeDesc) cubePass [] H).
Defined.

(** ** The attachments made by [prepareResource] *)

Lemma attachColors_calls context fb atts :
  forall drawBuffers h,
    attachColors context fb atts drawBuffers h =
      Some (drawBuffers ++ map drawBufferOf (presentIndices atts),
            flat_map (fun ia => match texture (snd ia) with
                                | Some t => attachAsColorCalls context fb t
                                              (to_uint32 (fst ia)) 0 0
                                | None => []
                                end) atts).
Proof.
  induction atts as [|[index a] rest IH]; intros drawBuffers h.
  - simpl. rewrite app_nil_r. reflexivity.
  - cbn [attachColors presentIndices flat_map fst snd].
    destruct (texture a) as [t|]; [|apply IH].
    rewrite (bind_gl_run _ _ h tt _ (attachAsColor_calls _ _ _ _ _ _ _)).
    rewrite IH, <- app_assoc. reflexivity.
Qed.

(** X17.  Building the framebuffer of a mono target: a framebuffer name is
    generated and bound; every colour attachment that holds a texture is
    attached exactly once, at its own index, face 0, level 0, in iteration
    order, and entries without a texture are skipped; then the draw buffers
    are declared (when more than one is present); then the depth texture
    and the stencil texture are attached when present. *)
Theorem prepareResource_attaches_present_textures context fb0 h :
  mode (renderTarget_ fb0) = Mono ->
  let name := driverNewFramebuffer context h in
  createAndAttach context fb0 h =
    Some (set_frameBufferID fb0 name,
          [GenFramebuffers name; BindFramebuffer GL_FRAMEBUFFER name] ++
          flat_map (fun ia => match texture (snd ia) with
                              | Some t => [TextureAttachAsColor t (to_uint32 (fst ia)) 0 0]
                              | None => []
                              end) (colorAttachments (renderTarget_ fb0)) ++
          map DrawBuffers (declaredDrawBuffers (colorAttachments (renderTarget_ fb0))) ++
          match getDepthAttachment fb0 with
          | Some t => [TextureAttachAsDepth t]
          | None => []
          end ++
          match getStencilAttachment fb0 with
          | Some t => [TextureAttachAsStencil t]
          | None => []
          end).
Proof.
  intros Hm name. unfold createAndAttach, genFramebuffers, bindBuffer.
  set (fb := set_frameBufferID fb0 name).
  assert (H1 : (n <- ask (driverNewFramebuffer context);;
                call (GenFramebuffers n);; ret n) h =
               Some (name, [GenFramebuffers name])) by reflexivity.
  rewrite (bind_gl_run _ _ h name _ H1). fold fb.
  rewrite (bind_gl_run _ _ _ tt [BindFramebuffer GL_FRAMEBUFFER (frameBufferID_ fb)] eq_refl).
  rewrite (bind_gl_run _ _ _ _ _ (attachColors_calls context fb _ [] _)).
  change (renderTarget_ fb) with (renderTarget_ fb0).
  cbn [app]. unfold declaredDrawBuffers. cbv zeta.
  set (bufs := std_sort (map drawBufferOf (presentIndices (colorAttachments (renderTarget_ fb0))))).
  rewrite (bind_gl_run _ _ _ tt (map DrawBuffers
                                  (if 1 <? Z.of_nat (List.length bufs) then [bufs] else [])))
    by (destruct (1 <? Z.of_nat (List.length bufs)); reflexivity).
  unfold attachAsDepth, attachAsStencil, attachAsDepthOrStencil, getDepthAttachment,
    getStencilAttachment.
  change (mode (renderTarget_ fb)) with (mode (renderTarget_ fb0)). rewrite Hm.
  rewrite (bind_gl_run _ _ _ tt
             (match texture (depthAttachment (renderTarget_ fb0)) with
              | Some t => [TextureAttachAsDepth t] | None => [] end))
    by (destruct (texture (depthAttachment (renderTarget_ fb0))); reflexivity).
  rewrite (bind_gl_run _ _ _ tt
             (match texture (stencilAttachment (renderTarget_ fb0)) with
              | Some t => [TextureAttachAsStencil t] | None => [] end))
    by (destruct (texture (stencilAttachment (renderTarget_ fb0))); reflexivity).
  unfold ret. f_equal. f_equal. cbn [app]. f_equal. f_equal.
  rewrite app_nil_r. f_equal.
  induction (colorAttachments (renderTarget_ fb0)) as [|[index a] rest IH];
    [reflexivity|].
  cbn [flat_map fst snd]. rewrite IH. unfold attachAsColorCalls.
  change (mode (renderTarget_ fb)) with (mode (renderTarget_ fb0)). rewrite Hm.
  reflexivity.
Qed.

(** A descriptor with a hole: index 3 carries only a resolve texture. *)
Definition holeDesc : FramebufferDesc :=
  mkDesc [(3, mkAttachment None (Some 33)); (0, mkAttachment (Some 20) None)]
    (mkAttachment (Some 40) None) noAttachment Mono.

Lemma prepareResource_attaches_present_textures_witness :
  mode (renderTarget_ (set_renderTarget sampleNew holeDesc)) = Mono /\
  createAndAttach completeContext (set_renderTarget sampleNew holeDesc) [] =
    Some (set_frameBufferID (set_renderTarget sampleNew holeDesc) 1,
          [GenFramebuffers 1; BindFramebuffer GL_FRAMEBUFFER 1;
           TextureAttachAsColor 20 0 0 0; TextureAttachAsDepth 40]).
Proof.
  assert (H : mode (renderTarget_ (set_renderTarget sampleNew holeDesc)) = Mono)
    by reflexivity.
  split; [exact H|].
  exact (prepareResource_attaches_present_textures completeContext
           (set_renderTarget sampleNew holeDesc) [] H).
Defined.

(** ** When the resolve framebuffer is built *)

(** The framebuffer [initialize] builds for the descriptor is reported
    complete by the driver. *)
Definition builtComplete (context : IContext) (fb : CustomFramebuffer)
    (desc : FramebufferDesc) (h : list Call) : bool :=
  match createAndAttach context (set_renderTarget (set_initialized fb true) desc) h with
  | Some (_, eA) =>
      driverFramebufferStatus context (h ++ eA) GL_FRAMEBUFFER =? GL_FRAMEBUFFER_COMPLETE
  | None => false
  end.

Section ResolveDecision.

Variable defaultMode : FramebufferMode.
Variable defaultRenderPass : RenderPassDesc.
Variable context : IContext.

(** X18.  A first [initialize] (colour attachment indices pairwise
    distinct) builds a nested resolve framebuffer exactly when the target
    is not window-provided, the framebuffer it has built is complete, the
    colour attachments declare resolve textures on all or on none, and
    some colour, depth or stencil attachment declares one.  The result it
    then reports is the result of initialising the nested framebuffer,
    which it keeps whether that succeeded or not. *)
Theorem resolve_framebuffer_built_exactly_when fb desc r0 h fb' out e :
  isInitialized fb = false ->
  resolveFramebuffer fb = None ->
  NoDup (map fst (colorAttachments desc)) ->
  initialize defaultMode defaultRenderPass context fb desc (Some r0) h =
    Some ((fb', out), e) ->
  isSome (resolveFramebuffer fb') =
    negb (hasImplicitColorAttachment context
            (set_renderTarget (set_initialized fb true) desc))
    && builtComplete context fb desc h
    && negb (partialResolve (colorAttachments desc))
    && (existsb declaresResolve (colorAttachments desc)
        || isSome (resolveTexture (depthAttachment desc))
        || isSome (resolveTexture (stencilAttachment desc))) /\
  (forall nested,
     resolveFramebuffer fb' = Some nested ->
     exists h1 eN,
       initialize defaultMode defaultRenderPass context
         (CustomFramebuffer_new defaultMode defaultRenderPass)
         (mkDesc (resolvePart (colorAttachments desc))
            (mkAttachment (resolveTexture (depthAttachment desc)) None)
            (mkAttachment (resolveTexture (stencilAttachment desc)) None)
            defaultMode)
         (Some (mkResult Ok "")) h1 = Some ((nested, out), eN)).
Proof.
  intros Hi Hnone Hnd Hinit.
  unfold initialize in Hinit. rewrite initialize_with_cases, Hi in Hinit.
  destruct (FramebufferBindingGuard_new_run context h) as (guard & Hg & _).
  rewrite Hg in Hinit.
  destruct (hasImplicitColorAttachment context _) eqn:Himp.
  - inversion Hinit; subst. cbn [resolveFramebuffer set_renderTarget set_initialized].
    rewrite Hnone. split; [reflexivity|]. intros nested Hn. discriminate.
  - destruct (prepareResource_with_run defaultMode defaultRenderPass context
                (initialize_leaf defaultMode defaultRenderPass context)
                (set_renderTarget (set_initialized fb true) desc) (Some r0) h)
      as (eA & result & HA & _ & Hres & Hp).
    rewrite Hp in Hinit. clear Hp.
    unfold builtComplete. rewrite HA.
    destruct (checkFramebufferStatus_run context (h ++ eA)) as (r & Hr & Hc & Hinc).
    rewrite Hr in Hres. inversion Hres; subst r. clear Hres Hr.
    unfold prepareResource_rest in Hinit.
    cbn [renderTarget_ set_frameBufferID set_renderTarget set_initialized] in Hinit.
    pose proof (partial_check (colorAttachments desc) Hnd) as Hpc. cbv zeta in Hpc.
    rewrite Hpc in Hinit. clear Hpc.
    rewrite (collectResolve_spec (colorAttachments desc) [] false Hnd) in Hinit.
    cbn [fst snd app orb] in Hinit.
    destruct (Z.eqb_spec (driverFramebufferStatus context (h ++ eA) GL_FRAMEBUFFER)
                GL_FRAMEBUFFER_COMPLETE) as [E|E].
    + rewrite (Hc E) in Hinit. cbn [isOk code Code_eqb negb] in Hinit.
      destruct (partialResolve (colorAttachments desc)).
      * inversion Hinit; subst.
        cbn [resolveFramebuffer set_frameBufferID set_renderTarget set_initialized].
        rewrite Hnone. split; [reflexivity|]. intros nested Hn. discriminate.
      * destruct (existsb declaresResolve (colorAttachments desc)
                  || isSome (resolveTexture (depthAttachment desc))
                  || isSome (resolveTexture (stencilAttachment desc))).
        -- destruct (initialize_leaf _ _ _ _ _ _ _) as [[[nested nout] eN]|] eqn:Hleaf;
             [|discriminate].
           inversion Hinit; subst. cbn [resolveFramebuffer set_resolveFramebuffer].
           split; [reflexivity|]. intros nested' Hn. inversion Hn; subst nested'.
           exists (h ++ eA), eN. unfold initialize.
           assert (Hnr : noResolve
                     (mkDesc (resolvePart (colorAttachments desc))
                        (mkAttachment (resolveTexture (depthAttachment desc)) None)
                        (mkAttachment (resolveTexture (stencilAttachment desc)) None)
                        defaultMode)).
           { pose proof (resolve_descriptor_noResolve defaultMode (colorAttachments desc)
                           (resolveTexture (depthAttachment desc))
                           (resolveTexture (stencilAttachment desc))) as Hn0.
             rewrite (collectResolve_spec (colorAttachments desc) [] false Hnd) in Hn0.
             exact Hn0. }
           rewrite (initialize_with_noResolve defaultMode defaultRenderPass context _
                      (fun fb _ out => ret (fb, out)) _ _ _ _ Hnr).
           fold (initialize_leaf defaultMode defaultRenderPass context).
           destruct (initialize_leaf_code defaultMode defaultRenderPass context
                       _ _ _ _ _ _ _ Hnr Hleaf) as (rn & Hrn & _).
           subst nout. exact Hleaf.
        -- inversion Hinit; subst.
           cbn [resolveFramebuffer set_frameBufferID set_renderTarget set_initialized].
           rewrite Hnone. split; [reflexivity|]. intros nested Hn. discriminate.
    + pose proof (Hinc E) as Hcode.
      assert (Hok : isOk result = false)
        by (unfold isOk; rewrite Hcode; reflexivity).
      rewrite Hok in Hinit. cbn [negb] in Hinit.
      inversion Hinit; subst.
      cbn [resolveFramebuffer set_frameBufferID set_renderTarget set_initialized].
      rewrite Hnone. split; [reflexivity|]. intros nested Hn. discriminate.
Qed.

End ResolveDecision.

Lemma resolve_framebuffer_built_exactly_when_witness :
  isInitialized sampleNew = false /\
  resolveFramebuffer sampleNew = None /\
  NoDup (map fst (colorAttachments fullResolveDesc)) /\
  exists fb' out e,
    sampleInitialize completeContext sampleNew fullResolveDesc (Some (mkResult Ok "")) [] =
      Some ((fb', out), e) /\
    isSome (resolveFramebuffer fb') = true.
Proof.
  assert (H1 : isInitialized sampleNew = false) by reflexivity.
  assert (H2 : resolveFramebuffer sampleNew = None) by reflexivity.
  assert (H3 : NoDup (map fst (colorAttachments fullResolveDesc)))
    by exact (proj1 (proj2 sampleDescriptors_distinct)).
  split; [exact H1|]. split; [exact H2|]. split; [exact H3|].
  destruct (sampleInitialize completeContext sampleNew fullResolveDesc
              (Some (mkResult Ok "")) []) as [[[fb' out] e]|] eqn:Hinit;
    [|vm_compute in Hinit; discriminate].
  exists fb', out, e. split; [reflexivity|].
  destruct (resolve_framebuffer_built_exactly_when Mono samplePassDefault completeContext
              sampleNew fullResolveDesc (mkResult Ok "") [] fb' out e H1 H2 H3 Hinit)
    as [Hb _].
  rewrite Hb. reflexivity.
Defined.

(** ** Which pass descriptions [bind] and [unbind] accept *)

Lemma bind_gl_undefined_l {A B : Type} (m : GL A) (f : A -> GL B) h :
  m h = None -> bind_gl m f h = None.
Proof. intros Hm. unfold bind_gl. rewrite Hm. reflexivity. Qed.

Lemma bind_gl_undefined_r {A B : Type} (m : GL A) (f : A -> GL B) h x e1 :
  m h = Some (x, e1) -> f x (h ++ e1) = None -> bind_gl m f h = None.
Proof. intros Hm Hf. rewrite (bind_gl_run m f h x e1 Hm), Hf. reflexivity. Qed.

Lemma vector_at_out_of_range {A : Type} (v : list A) (i : Z) h :
  (0 <=? i) && (i <? Z.of_nat (List.length v)) = false -> vector_at v i h = None.
Proof. intros H. unfold vector_at. rewrite H. reflexivity. Qed.

(** A cube texture attached at an index the pass has no entry for makes
    the loop of [bind] index the pass vector out of range. *)
Lemma bindColors_out_of_range context fb renderPass atts :
  cubesInRange context renderPass atts = false ->
  forall h, bindColors context fb renderPass atts h = None.
Proof.
  induction atts as [|[index colorAttachment] rest IH]; intros Hr h; [discriminate|].
  cbn [cubesInRange] in Hr. cbn [bindColors].
  destruct (texture colorAttachment) as [t|]; [|exact (IH Hr h)].
  assert (Hs : (if negb (IGL_OPENGL_ES context)
                then if SRGB (deviceFeatures context)
                     then if isSRGB (textureObject context t)
                          then call (Enable GL_FRAMEBUFFER_SRGB)
                          else call (Disable GL_FRAMEBUFFER_SRGB)
                     else ret tt
                else ret tt) h = Some (tt, srgbToggle context t)).
  { unfold srgbToggle. destruct (negb (IGL_OPENGL_ES context));
      [destruct (SRGB (deviceFeatures context));
       [destruct (isSRGB (textureObject context t))|]|]; reflexivity. }
  rewrite (bind_gl_run _ _ h tt _ Hs).
  destruct (isCube (getType (textureObject context t))).
  - destruct ((0 <=? index) &&
              (index <? Z.of_nat (List.length (passColorAttachments renderPass))))
      eqn:Hhere.
    + cbn [andb] in Hr.
      destruct (vector_at_in_range (passColorAttachments renderPass) index
                  (((h ++ srgbToggle context t)) ++ []) Hhere) as (pass & Hv).
      unfold IGL_ASSERT.
      rewrite (bind_gl_run _ _ (h ++ srgbToggle context t) tt
                 (attachAsColorCalls context fb t (to_uint32 index)
                    (to_uint32 (layer pass)) (to_uint32 (mipmapLevel pass)))).
      * rewrite (IH Hr). reflexivity.
      * rewrite (bind_gl_run _ _ _ tt [] eq_refl).
        rewrite (bind_gl_run _ _ _ pass [] Hv).
        rewrite attachAsColor_calls. reflexivity.
    + erewrite bind_gl_undefined_l; [reflexivity|].
      unfold IGL_ASSERT.
      rewrite (bind_gl_run _ _ _ tt _ eq_refl).
      rewrite (bind_gl_undefined_l _ _ _ (vector_at_out_of_range _ _ _ Hhere)).
      reflexivity.
  - cbn [andb] in Hr.
    rewrite (bind_gl_run _ _ _ tt [] eq_refl).
    rewrite (IH Hr). reflexivity.
Qed.

Lemma prepareColorClear_out_of_range fb renderPass clearMask h :
  entry0InRange fb renderPass = false ->
  prepareColorClear (set_renderPass fb renderPass) clearMask h = None.
Proof.
  unfold entry0InRange, prepareColorClear, getColorAttachment. simpl.
  destruct (AttachmentMap.find 0 (colorAttachments (renderTarget_ fb))) as [att|];
    [|discriminate].
  destruct (texture att) as [t|]; [|discriminate].
  destruct (passColorAttachments renderPass) as [|pass0 rest]; [|discriminate].
  intros _. reflexivity.
Qed.

Lemma discardColor_out_of_range fb attachments h :
  entry0InRange fb (renderPass_ fb) = false ->
  discardColor fb attachments h = None.
Proof.
  unfold entry0InRange, discardColor, getColorAttachment.
  destruct (AttachmentMap.find 0 (colorAttachments (renderTarget_ fb))) as [att|];
    [|discriminate].
  destruct (texture att) as [t|]; [|discriminate].
  destruct (passColorAttachments (renderPass_ fb)) as [|pass0 rest]; [|discriminate].
  intros _. reflexivity.
Qed.

(** X19.  The pass descriptions the binding code accepts.  [bind] on an
    explicit target indexes the colour entries of the pass at 0 when colour
    attachment 0 holds a texture and at [index] for every cube texture
    attached at [index]; it has a defined result exactly when all of these
    entries exist.  [unbind] reads entry 0 of the pass cached by the last
    [bind] and is defined exactly when that entry exists or colour
    attachment 0 holds no texture.  [bind] on the implicit target reads
    entry 0 always and is defined exactly when the pass has a colour
    entry. *)
Theorem bind_defined_exactly_in_range context fb cur renderPass h :
  isSome (bind context fb renderPass h) = bindInRange context fb renderPass /\
  isSome (unbind context fb h) = entry0InRange fb (renderPass_ fb) /\
  isSome (CurrentFramebuffer_bind context cur renderPass h) =
    negb (Nat.eqb (List.length (passColorAttachments renderPass)) 0).
Proof.
  split; [|split].
  - destruct (bindInRange context fb renderPass) eqn:Hr.
    + rewrite (bind_calls context fb renderPass h Hr). reflexivity.
    + unfold bindInRange in Hr. unfold bind.
      rewrite (bind_gl_run _ _ h tt [BindFramebuffer GL_FRAMEBUFFER (frameBufferID_ fb)]
                 eq_refl).
      simpl renderTarget_.
      destruct (cubesInRange context renderPass (colorAttachments (renderTarget_ fb)))
        eqn:Hcubes.
      * rewrite andb_true_r in Hr.
        rewrite (bind_gl_run _ _ _ tt _
                   (bindColors_calls context (set_renderPass fb renderPass) renderPass
                      (colorAttachments (renderTarget_ fb)) Hcubes _)).
        rewrite (bind_gl_undefined_l _ _ _
                   (prepareColorClear_out_of_range fb renderPass 0 _ Hr)).
        reflexivity.
      * rewrite (bind_gl_undefined_l _ _ _
                   (bindColors_out_of_range context (set_renderPass fb renderPass)
                      renderPass _ Hcubes _)).
        reflexivity.
  - destruct (entry0InRange fb (renderPass_ fb)) eqn:H0.
    + rewrite (unbind_calls context fb h H0). reflexivity.
    + unfold unbind.
      rewrite (bind_gl_undefined_l _ _ _ (discardColor_out_of_range fb [] h H0)).
      reflexivity.
  - unfold CurrentFramebuffer_bind.
    rewrite (bind_gl_run _ _ h tt
               [BindFramebuffer GL_FRAMEBUFFER (currentFrameBufferID_ cur)] eq_refl).
    match goal with
    | |- context [bind_gl ?m _ (h ++ ?e)] =>
        assert (Hs : exists es, m (h ++ e) = Some (tt, es))
    end.
    { destruct (negb (IGL_OPENGL_ES context));
        [destruct (SRGB (deviceFeatures context));
         [destruct (colorAttachment_ cur) as [t|];
          [destruct (isSRGB (textureObject context t))|]|]|];
        eexists; reflexivity. }
    destruct Hs as (es & Hs). rewrite (bind_gl_run _ _ _ tt es Hs).
    destruct (passColorAttachments renderPass) as [|pass0 rest].
    + reflexivity.
    + rewrite (bind_gl_run _ _ _ pass0 []
                 (vector_at_run (pass0 :: rest) pass0 _ eq_refl)).
      unfold bind_gl, call, ret.
      destruct (negb (isLoad (loadAction pass0)));
        destruct (negb (isLoad (depthLoadAction (passDepthAttachment renderPass))));
        destruct (negb (isLoad (stencilLoadAction (passStencilAttachment renderPass))));
        reflexivity.
Qed.

(** * Render-buffer backed textures (igl/opengl/TextureTarget.cpp)

    [TextureTarget] is one implementation of the texture interface the
    framebuffer code attaches.  Its calls on the context are recorded in a
    list of their own; as before, the name returned by the driver is a
    function of the calls made so far.  The base class [Texture], the
    format table [toFormatDescGL] and the usage bit
    [TextureUsageBits::Attachment] are declared outside the sources and
    are parameters. *)

Inductive TargetCall : Type :=
| GenRenderbuffers (name : GLuint)
| DeleteRenderbuffers (name : GLuint)
| RbBindRenderbuffer (target : GLenum) (renderbuffer : GLuint)
| RenderbufferStorage (target internalformat : GLenum) (width height : GLsizei)
| RenderbufferStorageMultisample
    (target : GLenum) (samples : GLsizei) (internalformat : GLenum) (width height : GLsizei)
| FramebufferRenderbuffer (target attachment renderbuffertarget : GLenum) (renderbuffer : GLuint)
| RbAssertionReport (what : string).

(** A computation against the context: from the calls made so far to a
    value and the calls it makes itself. *)
Definition TargetGL (A : Type) : Type := list TargetCall -> A * list TargetCall.

Definition ret_rb {A : Type} (x : A) : TargetGL A := fun _ => (x, []).

Definition bind_rb {A B : Type} (m : TargetGL A) (f : A -> TargetGL B) : TargetGL B :=
  fun h => let (x, e1) := m h in
           let (y, e2) := f x (h ++ e1) in
           (y, e1 ++ e2).

Definition call_rb (c : TargetCall) : TargetGL unit := fun _ => (tt, [c]).

Record TextureDesc : Type := mkTextureDesc {
  desc_type : TextureType;
  desc_usage : Z;
  desc_numSamples : Z;
  desc_format : TextureFormat
}.

(** The members of a [TextureTarget] the code reads and writes;
    [getWidth], [getHeight] and [getFormat] are accessors of the base
    class. *)
Record TextureTargetObject : Type := mkTextureTarget {
  renderBufferID_ : GLuint;
  glInternalFormat_ : GLenum;
  getWidth : Z;
  getHeight : Z;
  targetFormat : TextureFormat
}.

Definition set_renderBufferID (t : TextureTargetObject) (id : GLuint) : TextureTargetObject :=
  mkTextureTarget id (glInternalFormat_ t) (getWidth t) (getHeight t) (targetFormat t).

Definition set_glInternalFormat (t : TextureTargetObject) (f : GLenum)
  : TextureTargetObject :=
  mkTextureTarget (renderBufferID_ t) f (getWidth t) (getHeight t) (targetFormat t).

Section TextureTarget.

Local Notation "x <- m ;; k" := (bind_rb m (fun x => k))
  (at level 61, m at next level, right associativity).
Local Notation "m ;; k" := (bind_rb m (fun _ => k))
  (at level 61, right associativity).

(** [TextureDesc::TextureUsageBits::Attachment]. *)
Variable Attachment : Z.
(** [toFormatDescGL(format, usage, out)]: the internal format, if any. *)
Variable toFormatDescGL : TextureFormat -> Z -> option GLenum.
(** [Texture::create], the [Super::create] of [TextureTarget::create]. *)
Variable Super_create :
  TextureTargetObject -> TextureDesc -> bool -> TargetGL (TextureTargetObject * Result).
(** The name [genRenderbuffers] returns, given the calls made so far. *)
Variable driverNewRenderbuffer : list TargetCall -> GLuint.

(** [IGL_VERIFY(cond)]: reports when [cond] is false, and yields [cond]. *)
Definition IGL_VERIFY (cond : bool) : TargetGL bool :=
  if cond then ret_rb true
  else call_rb (RbAssertionReport "IGL_VERIFY") ;; ret_rb false.

(** The destructor. *)
Definition TextureTarget_delete (t : TextureTargetObject) : TargetGL unit :=
  if negb (renderBufferID_ t =? 0)
  then call_rb (DeleteRenderbuffers (renderBufferID_ t))
  else ret_rb tt.

Definition TextureTarget_getType (t : TextureTargetObject) : TextureType := TwoD.

Definition TextureTarget_getUsage (t : TextureTargetObject) : Z := Attachment.

(** [toRenderBufferFormatGL(usage, formatGL)]: [formatGL] is written only
    on success. *)
Definition toRenderBufferFormatGL (t : TextureTargetObject) (usage : Z) : option GLenum :=
  toFormatDescGL (targetFormat t) usage.

(** [TextureTarget::createRenderBuffer]. *)
Definition createRenderBuffer (t : TextureTargetObject) (desc : TextureDesc)
    (hasStorageAlready : bool) : TargetGL (TextureTargetObject * Result) :=
  match desc_type desc with
  | TwoD =>
      match toRenderBufferFormatGL t (desc_usage desc) with
      | None => ret_rb (t, mkResult ArgumentInvalid "Invalid texture format")
      | Some formatGL =>
          let t1 := set_glInternalFormat t formatGL in
          name <- (fun h => (driverNewRenderbuffer h, [])) ;;
          call_rb (GenRenderbuffers name) ;;
          let t2 := set_renderBufferID t1 name in
          (if negb hasStorageAlready then
             call_rb (RbBindRenderbuffer GL_RENDERBUFFER (renderBufferID_ t2)) ;;
             (if 1 <? desc_numSamples desc then
                call_rb (RenderbufferStorageMultisample GL_RENDERBUFFER
                           (to_int32 (desc_numSamples desc)) (glInternalFormat_ t2)
                           (to_int32 (getWidth t2)) (to_int32 (getHeight t2)))
              else
                call_rb (RenderbufferStorage GL_RENDERBUFFER (glInternalFormat_ t2)
                           (to_int32 (getWidth t2)) (to_int32 (getHeight t2)))) ;;
             call_rb (RbBindRenderbuffer GL_RENDERBUFFER 0)
           else ret_rb tt) ;;
          ret_rb (t2, mkResult Ok "")
      end
  | _ =>
      ret_rb (t, mkResult Unimplemented
                   "Non-2D textures are currently unsupported on GL backend.")
  end.

(** [TextureTarget::create]. *)
Definition TextureTarget_create (t : TextureTargetObject) (desc : TextureDesc)
    (hasStorageAlready : bool) : TargetGL (TextureTargetObject * Result) :=
  res <- Super_create t desc hasStorageAlready ;;
  if isOk (snd res) then
    if negb (Z.land (desc_usage desc) Attachment =? 0)
    then createRenderBuffer (fst res) desc hasStorageAlready
    else ret_rb (fst res, mkResult Unsupported "invalid usage!")
  else ret_rb res.

Definition TextureTarget_bind (t : TextureTargetObject) : TargetGL unit :=
  call_rb (RbBindRenderbuffer GL_RENDERBUFFER (renderBufferID_ t)).

Definition TextureTarget_unbind (t : TextureTargetObject) : TargetGL unit :=
  call_rb (RbBindRenderbuffer GL_RENDERBUFFER 0).

Definition TextureTarget_bindImage (t : TextureTargetObject) (unit_ : Z) : TargetGL unit :=
  call_rb (RbAssertionReport "IGL_ASSERT_NOT_IMPLEMENTED").

(** [TextureTarget::attachAsColor(index, face, mipmapLevel)]. *)
Definition TextureTarget_attachAsColor (t : TextureTargetObject)
    (index face mipmapLevel : Z) : TargetGL unit :=
  ok <- IGL_VERIFY (negb (renderBufferID_ t =? 0)) ;;
  if ok then
    call_rb (FramebufferRenderbuffer GL_FRAMEBUFFER (to_uint32 (GL_COLOR_ATTACHMENT0 + index))
               GL_RENDERBUFFER (renderBufferID_ t))
  else ret_rb tt.

(** [TextureTarget::detachAsColor(index, face, mipmapLevel)]. *)
Definition TextureTarget_detachAsColor (t : TextureTargetObject)
    (index face mipmapLevel : Z) : TargetGL unit :=
  call_rb (RbAssertionReport "IGL_ASSERT_NOT_IMPLEMENTED").

Definition TextureTarget_attachAsDepth (t : TextureTargetObject) : TargetGL unit :=
  ok <- IGL_VERIFY (negb (renderBufferID_ t =? 0)) ;;
  if ok then
    call_rb (FramebufferRenderbuffer GL_FRAMEBUFFER GL_DEPTH_ATTACHMENT
               GL_RENDERBUFFER (renderBufferID_ t))
  else ret_rb tt.

Definition TextureTarget_attachAsStencil (t : TextureTargetObject) : TargetGL unit :=
  ok <- IGL_VERIFY (negb (renderBufferID_ t =? 0)) ;;
  if ok then
    call_rb (FramebufferRenderbuffer GL_FRAMEBUFFER GL_STENCIL_ATTACHMENT
               GL_RENDERBUFFER (renderBufferID_ t))
  else ret_rb tt.

End TextureTarget.

Section TextureTargetFacts.

Variable Attachment : Z.
Variable toFormatDescGL : TextureFormat -> Z -> option GLenum.
Variable Super_create :
  TextureTargetObject -> TextureDesc -> bool -> TargetGL (TextureTargetObject * Result).
Variable driverNewRenderbuffer : list TargetCall -> GLuint.

(** X20.  [createRenderBuffer] rejects a descriptor that is not 2D with
    [Unimplemented] and a format without render-buffer counterpart with
    [ArgumentInvalid]; in both cases it makes no call on the driver and
    leaves the object, its render-buffer identifier included, as it was. *)
Theorem createRenderBuffer_rejects t desc hasStorageAlready h :
  (desc_type desc <> TwoD ->
   createRenderBuffer toFormatDescGL driverNewRenderbuffer t desc hasStorageAlready h =
     ((t, mkResult Unimplemented "Non-2D textures are currently unsupported on GL backend."),
      [])) /\
  (desc_type desc = TwoD ->
   toFormatDescGL (targetFormat t) (desc_usage desc) = None ->
   createRenderBuffer toFormatDescGL driverNewRenderbuffer t desc hasStorageAlready h =
     ((t, mkResult ArgumentInvalid "Invalid texture format"), [])).
Proof.
  split.
  - intros Hty. unfold createRenderBuffer.
    destruct (desc_type desc); try reflexivity. contradiction.
  - intros Hty Hf. unfold createRenderBuffer, toRenderBufferFormatGL.
    rewrite Hty, Hf. reflexivity.
Qed.

(** X21.  [createRenderBuffer] on a 2D descriptor with a usable format
    reports [Ok] and stores the internal format and the generated name.
    When storage exists already it only generates the name.  Otherwise it
    binds the new render buffer, allocates storage of the texture's width
    and height, multisampled exactly when more than one sample is
    requested, and then binds render buffer 0: the binding that was
    current before the call is not restored. *)
Theorem createRenderBuffer_allocates t desc hasStorageAlready formatGL h :
  desc_type desc = TwoD ->
  toFormatDescGL (targetFormat t) (desc_usage desc) = Some formatGL ->
  let name := driverNewRenderbuffer h in
  createRenderBuffer toFormatDescGL driverNewRenderbuffer t desc hasStorageAlready h =
    ((mkTextureTarget name formatGL (getWidth t) (getHeight t) (targetFormat t),
      mkResult Ok ""),
     GenRenderbuffers name ::
     (if hasStorageAlready then []
      else [RbBindRenderbuffer GL_RENDERBUFFER name;
            (if 1 <? desc_numSamples desc
             then RenderbufferStorageMultisample GL_RENDERBUFFER
                    (to_int32 (desc_numSamples desc)) formatGL
                    (to_int32 (getWidth t)) (to_int32 (getHeight t))
             else RenderbufferStorage GL_RENDERBUFFER formatGL
                    (to_int32 (getWidth t)) (to_int32 (getHeight t)));
            RbBindRenderbuffer GL_RENDERBUFFER 0])).
Proof.
  intros Hty Hf name. unfold createRenderBuffer, toRenderBufferFormatGL.
  rewrite Hty, Hf. unfold bind_rb, call_rb, ret_rb. simpl.
  destruct hasStorageAlready; simpl; [reflexivity|].
  destruct (1 <? desc_numSamples desc); reflexivity.
Qed.

(** X22.  [TextureTarget::create] returns the failure of the base class
    unchanged and goes no further; when the base class succeeds but the
    usage lacks the attachment bit it reports [Unsupported] and creates no
    render buffer.  In both cases the only calls are those of the base
    class. *)
Theorem TextureTarget_create_rejects t desc hasStorageAlready h t1 r1 e1 :
  Super_create t desc hasStorageAlready h = ((t1, r1), e1) ->
  (isOk r1 = false ->
   TextureTarget_create Attachment toFormatDescGL Super_create driverNewRenderbuffer
     t desc hasStorageAlready h = ((t1, r1), e1)) /\
  (isOk r1 = true ->
   Z.land (desc_usage desc) Attachment = 0 ->
   TextureTarget_create Attachment toFormatDescGL Super_create driverNewRenderbuffer
     t desc hasStorageAlready h = ((t1, mkResult Unsupported "invalid usage!"), e1)).
Proof.
  intros Hs. unfold TextureTarget_create, bind_rb. rewrite Hs. simpl. split.
  - intros Hok. rewrite Hok. simpl. rewrite app_nil_r. reflexivity.
  - intros Hok Hu. rewrite Hok, Hu. simpl. rewrite app_nil_r. reflexivity.
Qed.

(** X23.  A render buffer created by [createRenderBuffer] is released by
    the destructor: the destructor deletes exactly the name that was
    generated (unless the driver handed out name 0); and after a rejected
    [createRenderBuffer] the destructor does what it would have done
    before the call. *)
Theorem TextureTarget_create_then_delete t desc hasStorageAlready h t' r e h' :
  createRenderBuffer toFormatDescGL driverNewRenderbuffer t desc hasStorageAlready h =
    ((t', r), e) ->
  (isOk r = true ->
   TextureTarget_delete t' h' =
     (tt, if driverNewRenderbuffer h =? 0 then []
          else [DeleteRenderbuffers (driverNewRenderbuffer h)])) /\
  (isOk r = false -> e = [] /\ TextureTarget_delete t' h' = TextureTarget_delete t h').
Proof.
  unfold createRenderBuffer, toRenderBufferFormatGL.
  destruct (desc_type desc);
    try (intros H; inversion H; subst; split; [discriminate|intros _; split; reflexivity]).
  destruct (toFormatDescGL (targetFormat t) (desc_usage desc)) as [formatGL|].
  - unfold bind_rb, call_rb, ret_rb. simpl.
    destruct hasStorageAlready; simpl;
      [|destruct (1 <? desc_numSamples desc)];
      intros H; inversion H; subst; (split; [|discriminate]); intros _;
      unfold TextureTarget_delete; simpl;
      destruct (driverNewRenderbuffer h =? 0); reflexivity.
  - intros H; inversion H; subst. split; [discriminate|intros _; split; reflexivity].
Qed.

(** X24.  Attaching a [TextureTarget]: with render-buffer identifier 0
    (nothing was created) [attachAsColor], [attachAsDepth] and
    [attachAsStencil] only report and make no call on the driver;
    otherwise each makes one [framebufferRenderbuffer] call on
    GL_FRAMEBUFFER with the render buffer, [attachAsColor] at
    GL_COLOR_ATTACHMENT0 + index whatever face and level are passed.
    [detachAsColor] never calls the driver. *)
Theorem TextureTarget_attach_calls t index face mipmapLevel h :
  (renderBufferID_ t = 0 ->
   TextureTarget_attachAsColor t index face mipmapLevel h =
     (tt, [RbAssertionReport "IGL_VERIFY"]) /\
   TextureTarget_attachAsDepth t h = (tt, [RbAssertionReport "IGL_VERIFY"]) /\
   TextureTarget_attachAsStencil t h = (tt, [RbAssertionReport "IGL_VERIFY"])) /\
  (renderBufferID_ t <> 0 ->
   TextureTarget_attachAsColor t index face mipmapLevel h =
     (tt, [FramebufferRenderbuffer GL_FRAMEBUFFER (to_uint32 (GL_COLOR_ATTACHMENT0 + index))
             GL_RENDERBUFFER (renderBufferID_ t)]) /\
   TextureTarget_attachAsDepth t h =
     (tt, [FramebufferRenderbuffer GL_FRAMEBUFFER GL_DEPTH_ATTACHMENT
             GL_RENDERBUFFER (renderBufferID_ t)]) /\
   TextureTarget_attachAsStencil t h =
     (tt, [FramebufferRenderbuffer GL_FRAMEBUFFER GL_STENCIL_ATTACHMENT
             GL_RENDERBUFFER (renderBufferID_ t)])) /\
  TextureTarget_detachAsColor t index face mipmapLevel h =
    (tt, [RbAssertionReport "IGL_ASSERT_NOT_IMPLEMENTED"]).
Proof.
  unfold TextureTarget_attachAsColor, TextureTarget_attachAsDepth,
    TextureTarget_attachAsStencil, TextureTarget_detachAsColor, IGL_VERIFY,
    bind_rb, call_rb, ret_rb.
  split; [|split; [|reflexivity]].
  - intros H0. rewrite H0. repeat split.
  - intros Hn. destruct (Z.eqb_spec (renderBufferID_ t) 0) as [E|E]; [contradiction|].
    repeat split.
Qed.

End TextureTargetFacts.

(** Sample data for the render-buffer backed texture: the attachment bit
    of the usage mask, a format table that knows [RGBA_UInt32] only, base
    classes that succeed and fail, and a driver that numbers render
    buffers by the calls made so far. *)
Definition sampleAttachmentBit : Z := 4.

Definition sampleFormatTable (f : TextureFormat) (usage : Z) : option GLenum :=
  match f with
  | RGBA_UInt32 => Some 0x8D70
  | OtherFormat _ => None
  end.

Definition sampleSuperCreate (t : TextureTargetObject) (desc : TextureDesc)
    (hasStorageAlready : bool) : TargetGL (TextureTargetObject * Result) :=
  ret_rb (t, mkResult Ok "").

Definition failingSuperCreate (t : TextureTargetObject) (desc : TextureDesc)
    (hasStorageAlready : bool) : TargetGL (TextureTargetObject * Result) :=
  ret_rb (t, mkResult RuntimeError "base texture creation failed").

Definition sampleNewRenderbuffer (h : list TargetCall) : GLuint :=
  Z.of_nat (List.length h) + 1.

Definition sampleTarget : TextureTargetObject :=
  mkTextureTarget 0 0 640 480 RGBA_UInt32.

Definition unknownFormatTarget : TextureTargetObject :=
  mkTextureTarget 0 0 640 480 (OtherFormat 7).

Definition createdTarget : TextureTargetObject :=
  mkTextureTarget 3 0x8D70 640 480 RGBA_UInt32.

Definition multisampleDesc : TextureDesc := mkTextureDesc TwoD 4 4 RGBA_UInt32.

Definition sampledOnlyDesc : TextureDesc := mkTextureDesc TwoD 1 1 RGBA_UInt32.

Definition cubeTextureDesc : TextureDesc := mkTextureDesc Cube 4 1 RGBA_UInt32.

Lemma createRenderBuffer_rejects_witness :
  createRenderBuffer sampleFormatTable sampleNewRenderbuffer sampleTarget cubeTextureDesc
    false [] =
    ((sampleTarget,
      mkResult Unimplemented "Non-2D textures are currently unsupported on GL backend."),
     []) /\
  createRenderBuffer sampleFormatTable sampleNewRenderbuffer unknownFormatTarget
    multisampleDesc false [] =
    ((unknownFormatTarget, mkResult ArgumentInvalid "Invalid texture format"), []).
Proof.
  split.
  - apply (proj1 (createRenderBuffer_rejects sampleFormatTable sampleNewRenderbuffer
                    sampleTarget cubeTextureDesc false [])).
    discriminate.
  - apply (proj2 (createRenderBuffer_rejects sampleFormatTable sampleNewRenderbuffer
                    unknownFormatTarget multisampleDesc false [])); reflexivity.
Defined.

Lemma createRenderBuffer_allocates_witness :
  desc_type multisampleDesc = TwoD /\
  sampleFormatTable (targetFormat sampleTarget) (desc_usage multisampleDesc) = Some 0x8D70 /\
  createRenderBuffer sampleFormatTable sampleNewRenderbuffer sampleTarget multisampleDesc
    false [] =
    ((mkTextureTarget 1 0x8D70 640 480 RGBA_UInt32, mkResult Ok ""),
     [GenRenderbuffers 1;
      RbBindRenderbuffer GL_RENDERBUFFER 1;
      RenderbufferStorageMultisample GL_RENDERBUFFER 4 0x8D70 640 480;
      RbBindRenderbuffer GL_RENDERBUFFER 0]).
Proof.
  assert (H1 : desc_type multisampleDesc = TwoD) by reflexivity.
  assert (H2 : sampleFormatTable (targetFormat sampleTarget) (desc_usage multisampleDesc)
               = Some 0x8D70) by reflexivity.
  split; [exact H1|split; [exact H2|]].
  exact (createRenderBuffer_allocates sampleFormatTable sampleNewRenderbuffer
           sampleTarget multisampleDesc false 0x8D70 [] H1 H2).
Defined.

Lemma TextureTarget_create_rejects_witness :
  TextureTarget_create sampleAttachmentBit sampleFormatTable failingSuperCreate
    sampleNewRenderbuffer sampleTarget multisampleDesc false [] =
    ((sampleTarget, mkResult RuntimeError "base texture creation failed"), []) /\
  TextureTarget_create sampleAttachmentBit sampleFormatTable sampleSuperCreate
    sampleNewRenderbuffer sampleTarget sampledOnlyDesc false [] =
    ((sampleTarget, mkResult Unsupported "invalid usage!"), []).
Proof.
  split.
  - apply (proj1 (TextureTarget_create_rejects sampleAttachmentBit sampleFormatTable
                    failingSuperCreate sampleNewRenderbuffer sampleTarget multisampleDesc
                    false [] sampleTarget _ [] eq_refl)).
    reflexivity.
  - apply (proj2 (TextureTarget_create_rejects sampleAttachmentBit sampleFormatTable
                    sampleSuperCreate sampleNewRenderbuffer sampleTarget sampledOnlyDesc
                    false [] sampleTarget _ [] eq_refl)); reflexivity.
Defined.

Lemma TextureTarget_create_then_delete_witness :
  TextureTarget_delete
    (fst (fst (createRenderBuffer sampleFormatTable sampleNewRenderbuffer sampleTarget
                 multisampleDesc false [])))
    [] = (tt, [DeleteRenderbuffers 1]) /\
  TextureTarget_delete
    (fst (fst (createRenderBuffer sampleFormatTable sampleNewRenderbuffer sampleTarget
                 cubeTextureDesc false [])))
    [] = (tt, []).
Proof.
  split.
  - apply (proj1 (TextureTarget_create_then_delete sampleFormatTable sampleNewRenderbuffer
                    sampleTarget multisampleDesc false [] _ _ _ [] eq_refl)).
    reflexivity.
  - destruct (proj2 (TextureTarget_create_then_delete sampleFormatTable
                       sampleNewRenderbuffer sampleTarget cubeTextureDesc false []
                       _ _ _ [] eq_refl) eq_refl) as [_ Hd].
    exact Hd.
Defined.

Lemma TextureTarget_attach_calls_witness :
  TextureTarget_attachAsColor sampleTarget 1 0 0 [] =
    (tt, [RbAssertionReport "IGL_VERIFY"]) /\
  TextureTarget_attachAsColor createdTarget 1 5 2 [] =
    (tt, [FramebufferRenderbuffer GL_FRAMEBUFFER 0x8CE1 GL_RENDERBUFFER 3]) /\
  TextureTarget_attachAsDepth createdTarget [] =
    (tt, [FramebufferRenderbuffer GL_FRAMEBUFFER GL_DEPTH_ATTACHMENT GL_RENDERBUFFER 3]).
Proof.
  destruct (TextureTarget_attach_calls sampleTarget 1 0 0 []) as [H0 _].
  destruct (TextureTarget_attach_calls createdTarget 1 5 2 []) as [_ [Hn _]].
  split; [exact (proj1 (H0 eq_refl))|].
  assert (Hid : renderBufferID_ createdTarget <> 0) by discriminate.
  destruct (Hn Hid) as [Hc [Hd _]].
  split; [exact Hc|exact Hd].
Defined.
